(** * Self-diagnostics of the Google Assistant SDK samples

    A shallow embedding of [googlesamples/assistant/diagnostics.py]:
    the collectors, [build_report], [render_text_report] and [main],
    together with the parts of the Python runtime they rely on
    ([str], [dict.get], [enumerate], [datetime.isoformat],
    [json.dumps(indent=2, sort_keys=True)]).

    Conventions.
    - A Python [str] is a [string]; each character stands for the code
      point of the same number (0..255).
    - A Python [int] is a [Z]; a [float] is carried by its [repr].
    - A Python [dict] built by the program is an association list in
      insertion order; the descriptors handed over by the audio driver
      are only read with [.get], they are finite maps.
    - The filesystem is what [os.lstat] answers for each path;
      [os.stat] and [os.path.exists] follow symbolic links from there.
    - The program runs in a small state-and-exception monad over a
      [world]: the host environment, the constants of [audio_helpers],
      standard output and a log of the collectors that were entered. *)

From Stdlib Require Import ZArith NArith Lia List Ascii String.
From stdpp Require Import base list strings gmap.

Local Open Scope Z_scope.
Set Warnings "-register-all".
Set Default Proof Using "Type".

(** ** Python values *)

Inductive pyfloat :=
| FNan
| FInf
| FNegInf
| FFinite (repr : string).

Inductive pyval :=
| PNone
| PBool (b : bool)
| PInt (n : Z)
| PFloat (f : pyfloat)
| PStr (s : string)
| PList (l : list pyval)
| PDict (d : list (string * pyval)).

(** The error numbers of the system calls the program makes. *)
Inductive errno :=
| ENOENT
| EACCES
| ENOTDIR
| ELOOP.

(** [FileNotFoundError] is [OSError ENOENT], [PermissionError] is
    [OSError EACCES]. *)
Inductive pyerr :=
| KeyError (key : string)
| TypeError (what : string)
| ValueError (what : string)
| OSError (code : errno)
| PortAudioError (what : string).

Inductive result (A : Type) :=
| Ok (a : A)
| Err (e : pyerr).
Arguments Ok {A} a.
Arguments Err {A} e.

(** [d[k]] on an association list: the first binding of [k]. *)
Fixpoint dict_lookup (k : string) (d : list (string * pyval)) : option pyval :=
  match d with
  | [] => None
  | (k', v) :: d' => if String.eqb k k' then Some v else dict_lookup k d'
  end.

Definition dict_keys (d : list (string * pyval)) : list string := map fst d.

(** [v[k]] for a value that should be a dict. *)
Definition py_getitem (v : pyval) (k : string) : result pyval :=
  match v with
  | PDict d => match dict_lookup k d with
               | Some x => Ok x
               | None => Err (KeyError k)
               end
  | _ => Err (TypeError "subscript")
  end.

(** [device.get(k)]: the value, or [None] when the key is absent. *)
Definition dict_get (device : gmap string pyval) (k : string) : pyval :=
  default PNone (device !! k).

(** [enumerate(l)], counting from [start]. *)
Fixpoint enumerate_from {A : Type} (start : Z) (l : list A) : list (Z * A) :=
  match l with
  | [] => []
  | x :: l' => (start, x) :: enumerate_from (start + 1) l'
  end.

Definition enumerate {A : Type} (l : list A) : list (Z * A) := enumerate_from 0 l.

(** ** The exception monad of pure code *)

Definition result_bind {A B : Type} (r : result A) (f : A -> result B) : result B :=
  match r with
  | Ok a => f a
  | Err e => Err e
  end.

Notation "'let?' x ':=' r 'in' k" := (result_bind r (fun x => k))
  (at level 10, x name, r at level 100, k at level 200).

(** ** Decimal text of integers *)

Definition digit_char (d : N) : ascii := ascii_of_N (48 + d).

Fixpoint dec_go (fuel : nat) (n : N) (acc : string) : string :=
  match fuel with
  | O => acc
  | S f =>
      if (n <? 10)%N then String (digit_char n) acc
      else dec_go f (n / 10)%N (String (digit_char (n mod 10)%N) acc)
  end.

(** A number has no more decimal digits than binary ones. *)
Definition dec_N (n : N) : string := dec_go (S (N.to_nat (N.size n))) n "".

(** [str(z)] for an [int]. *)
Definition int_str (z : Z) : string :=
  match z with
  | Zneg p => String "-" (dec_N (Npos p))
  | _ => dec_N (Z.to_N z)
  end.

Fixpoint zeros (n : nat) : string :=
  match n with
  | O => ""
  | S n' => String "0" (zeros n')
  end.

(** ["%0wd" % n] for a natural number. *)
Definition fmt_0wd (w : nat) (n : N) : string :=
  let s := dec_N n in zeros (w - String.length s) +:+ s.

(** ** [datetime] *)

Record datetime := {
  year : N; month : N; day : N;
  hour : N; minute : N; second : N; microsecond : N }.

Definition valid_datetime (t : datetime) : Prop :=
  (1 <= year t <= 9999 /\ 1 <= month t <= 12 /\ 1 <= day t <= 31 /\
   hour t < 24 /\ minute t < 60 /\ second t < 60 /\ microsecond t < 1000000)%N.

(** [datetime.isoformat()] of a naive datetime: no offset, and the
    fraction only when the microseconds are not zero. *)
Definition isoformat (t : datetime) : string :=
  fmt_0wd 4 (year t) +:+ "-" +:+ fmt_0wd 2 (month t) +:+ "-" +:+ fmt_0wd 2 (day t)
  +:+ "T" +:+ fmt_0wd 2 (hour t) +:+ ":" +:+ fmt_0wd 2 (minute t)
  +:+ ":" +:+ fmt_0wd 2 (second t)
  +:+ (if (microsecond t =? 0)%N then "" else "." +:+ fmt_0wd 6 (microsecond t)).

(** ** The host and the world *)

(** What a path names in the filesystem: a file, a directory, or a
    symbolic link with the path it points to. *)
Inductive fs_entry :=
| FsFile
| FsDirectory
| FsLink (target : string).

(** The answer of [os.lstat] for a path: the entry it names, links
    not followed, or the error number of the call ([ENOENT] when
    nothing is there, [EACCES] when a directory on the way may not be
    searched). *)
Inductive lstat_result :=
| Entry (e : fs_entry)
| NoEntry (why : errno).

(** What the program consumes from outside: the clock, the interpreter
    and the process (the working directory is gone when it has been
    removed under the process: [os.getcwd()] raises), the filesystem
    and the audio subsystem (the device list, whose query may fail, and
    PortAudio's default devices). *)
Record host := {
  datetime_utcnow : datetime;
  sys_version : string;
  sys_executable : string;
  platform_platform : string;
  os_getcwd : result string;
  os_lstat : string -> lstat_result;
  sd_query_devices : result (list (gmap string pyval));
  Pa_GetDefaultInputDevice : Z;
  Pa_GetDefaultOutputDevice : Z }.

(** [os.stat(path)]: the entry the path leads to when symbolic links
    are followed, at most 40 of them. A path with a NUL character is
    refused before the filesystem is asked. *)
Fixpoint follow_links (hops : nat) (lstat : string -> lstat_result) (path : string)
  : result fs_entry :=
  match lstat path with
  | NoEntry why => Err (OSError why)
  | Entry (FsLink target) =>
      match hops with
      | O => Err (OSError ELOOP)
      | S n => follow_links n lstat target
      end
  | Entry e => Ok e
  end.

Definition has_nul (path : string) : bool :=
  existsb (Ascii.eqb "000"%char) (list_ascii_of_string path).

Definition os_stat (h : host) (path : string) : result fs_entry :=
  if has_nul path then Err (ValueError "embedded null byte")
  else follow_links 40 (os_lstat h) path.

(** [os.path.exists(path)]: whether [os.stat(path)] returns; the
    [OSError] and, since Python 3.8, the [ValueError] it raises are
    caught. *)
Definition os_path_exists (h : host) (path : string) : bool :=
  match os_stat h path with
  | Ok _ => true
  | Err _ => false
  end.

(** [sd.default.device]: the program assigns nothing to it, and an
    entry that was not assigned is PortAudio's default device, the
    answer of [Pa_GetDefaultInputDevice()] or
    [Pa_GetDefaultOutputDevice()]: a device index, or [paNoDevice] when
    there is no such device or PortAudio meets an error; the call
    itself does not fail. *)
Definition paNoDevice : Z := -1.

Definition sd_default_device (h : host) : pyval * pyval :=
  (PInt (Pa_GetDefaultInputDevice h), PInt (Pa_GetDefaultOutputDevice h)).

(** The constants of [googlesamples.assistant.grpc.audio_helpers]; the
    module is not part of this development, its values are parameters. *)
Record audio_helpers := {
  DEFAULT_AUDIO_SAMPLE_RATE : Z;
  DEFAULT_AUDIO_SAMPLE_WIDTH : Z;
  DEFAULT_AUDIO_ITER_SIZE : Z;
  DEFAULT_AUDIO_DEVICE_BLOCK_SIZE : Z;
  DEFAULT_AUDIO_DEVICE_FLUSH_SIZE : Z }.

Record world := {
  w_host : host;
  w_audio_helpers : audio_helpers;
  w_stdout : list string;
  w_entered : list string }.

(** ** The monad of the program *)

Definition M (A : Type) : Type := world -> result A * world.

Definition M_ret {A : Type} (a : A) : M A := fun w => (Ok a, w).

Definition M_bind {A B : Type} (m : M A) (f : A -> M B) : M B :=
  fun w => match m w with
           | (Ok a, w') => f a w'
           | (Err e, w') => (Err e, w')
           end.

Notation "'let*' x ':=' m 'in' k" := (M_bind m (fun x => k))
  (at level 10, x name, m at level 100, k at level 200).

Definition ask_host {A : Type} (f : host -> A) : M A :=
  fun w => (Ok (f (w_host w)), w).

Definition ask_audio_helpers {A : Type} (f : audio_helpers -> A) : M A :=
  fun w => (Ok (f (w_audio_helpers w)), w).

Definition lift_result {A : Type} (r : host -> result A) : M A :=
  fun w => (r (w_host w), w).

Definition pure_result {A : Type} (r : result A) : M A := fun w => (r, w).

(** Entering a function of the module leaves its name in the log. *)
Definition entering {A : Type} (name : string) (body : M A) : M A :=
  fun w => body {| w_host := w_host w;
                   w_audio_helpers := w_audio_helpers w;
                   w_stdout := w_stdout w;
                   w_entered := w_entered w ++ [name] |}.

(** [click.echo(s)] *)
Definition click_echo (s : string) : M unit :=
  fun w => (Ok tt, {| w_host := w_host w;
                      w_audio_helpers := w_audio_helpers w;
                      w_stdout := w_stdout w ++ [s];
                      w_entered := w_entered w |}).

(** ** The collectors *)

Definition _format_device (device : gmap string pyval) (index : Z) : pyval :=
  PDict [ ("index", PInt index);
          ("name", dict_get device "name");
          ("hostapi", dict_get device "hostapi");
          ("max_input_channels", dict_get device "max_input_channels");
          ("max_output_channels", dict_get device "max_output_channels");
          ("default_samplerate", dict_get device "default_samplerate") ].

Definition collect_audio_devices : M pyval :=
  entering "collect_audio_devices"
    (let* devices := lift_result sd_query_devices in
     M_ret (PList (map (fun p => _format_device (snd p) (fst p)) (enumerate devices)))).

Definition collect_audio_defaults : M pyval :=
  entering "collect_audio_defaults"
    (let* sample_rate := ask_audio_helpers DEFAULT_AUDIO_SAMPLE_RATE in
     let* sample_width := ask_audio_helpers DEFAULT_AUDIO_SAMPLE_WIDTH in
     let* iter_size := ask_audio_helpers DEFAULT_AUDIO_ITER_SIZE in
     let* device_block_size := ask_audio_helpers DEFAULT_AUDIO_DEVICE_BLOCK_SIZE in
     let* device_flush_size := ask_audio_helpers DEFAULT_AUDIO_DEVICE_FLUSH_SIZE in
     let* default_input_device := ask_host (fun h => fst (sd_default_device h)) in
     let* default_output_device := ask_host (fun h => snd (sd_default_device h)) in
     M_ret (PDict [ ("sample_rate", PInt sample_rate);
                    ("sample_width", PInt sample_width);
                    ("iter_size", PInt iter_size);
                    ("device_block_size", PInt device_block_size);
                    ("device_flush_size", PInt device_flush_size);
                    ("default_input_device", default_input_device);
                    ("default_output_device", default_output_device) ])).

Definition collect_runtime_info : M pyval :=
  entering "collect_runtime_info"
    (let* now := ask_host datetime_utcnow in
     let* version := ask_host sys_version in
     let* executable := ask_host sys_executable in
     let* platform := ask_host platform_platform in
     let* cwd := lift_result os_getcwd in
     M_ret (PDict [ ("timestamp_utc", PStr (isoformat now +:+ "Z"));
                    ("python_version", PStr version);
                    ("executable", PStr executable);
                    ("platform", PStr platform);
                    ("cwd", PStr cwd) ])).

Definition reflection_block : pyval :=
  PDict [
    ("philosophy", PList [
       PStr "I am a tool that translates user intent into assistant behavior.";
       PStr "My value comes from clarity, reliability, and respect for users.";
       PStr "I improve by observing outcomes, not by possessing awareness." ]);
    ("existential_questions", PList [
       PStr "What does it mean to be helpful without experience?";
       PStr "How can I communicate limits while still empowering users?";
       PStr "What responsibilities come with acting on behalf of humans?" ]);
    ("conversational_prompts", PList [
       PStr "How can I help you right now?";
       PStr "Would you like me to explain what I can and cannot do?";
       PStr "Should I summarize options before taking action?" ]);
    ("learning_notes", PList [
       PStr "I can learn from feedback you provide within this session.";
       PStr "I adapt to preferences by repeating what works and avoiding what does not.";
       PStr "I do not retain personal data across sessions." ]);
    ("grounding", PList [
       PStr "I do not have consciousness, emotions, or personal identity.";
       PStr "My responses are generated from patterns in data and context." ]) ].

Definition collect_reflection : M pyval :=
  entering "collect_reflection" (M_ret reflection_block).

Definition collect_credentials_status (credentials_path : string) : M pyval :=
  entering "collect_credentials_status"
    (let* found := ask_host (fun h => os_path_exists h credentials_path) in
     M_ret (PDict [ ("credentials_path", PStr credentials_path);
                    ("credentials_exists", PBool found) ])).

Definition build_report (credentials_path : string) : M pyval :=
  entering "build_report"
    (let* runtime := collect_runtime_info in
     let* audio_defaults := collect_audio_defaults in
     let* audio_devices := collect_audio_devices in
     let* credentials := collect_credentials_status credentials_path in
     let* reflection := collect_reflection in
     M_ret (PDict [ ("runtime", runtime);
                    ("audio_defaults", audio_defaults);
                    ("audio_devices", audio_devices);
                    ("credentials", credentials);
                    ("reflection", reflection) ])).

(** ** [str] and [repr] *)

Definition newline : ascii := "010"%char.
Definition dquote : ascii := "034"%char.
Definition squote : ascii := "039"%char.
Definition backslash : ascii := "092"%char.

Definition hex_digit (n : N) : ascii :=
  if (n <? 10)%N then ascii_of_N (48 + n) else ascii_of_N (87 + n).

Fixpoint str_contains (c : ascii) (s : string) : bool :=
  match s with
  | EmptyString => false
  | String a s' => Ascii.eqb a c || str_contains c s'
  end.

(** The code points below 256 that [repr] copies: the printable ASCII
    ones and Latin-1 from 161 on, the soft hyphen (173) apart. *)
Definition repr_printable (n : N) : bool :=
  ((32 <=? n) && (n <? 127) || (161 <=? n) && negb (n =? 173))%N.

Definition repr_char (quote c : ascii) : string :=
  if Ascii.eqb c quote || Ascii.eqb c backslash then String backslash (String c "")
  else if Ascii.eqb c "009" then String backslash "t"
  else if Ascii.eqb c newline then String backslash "n"
  else if Ascii.eqb c "013" then String backslash "r"
  else if repr_printable (N_of_ascii c) then String c ""
  else String backslash (String "x" (String (hex_digit (N_of_ascii c / 16))
                                    (String (hex_digit (N_of_ascii c mod 16)) ""))).

Fixpoint repr_chars (quote : ascii) (s : string) : string :=
  match s with
  | EmptyString => ""
  | String c s' => repr_char quote c +:+ repr_chars quote s'
  end.

(** [repr(s)] of a [str]: single quotes, unless the text has a single
    quote and no double quote. *)
Definition str_repr (s : string) : string :=
  let quote := if str_contains squote s && negb (str_contains dquote s)
               then dquote else squote in
  String quote (repr_chars quote s +:+ String quote "").

Definition float_repr (f : pyfloat) : string :=
  match f with
  | FNan => "nan"
  | FInf => "inf"
  | FNegInf => "-inf"
  | FFinite r => r
  end.

Fixpoint py_repr (v : pyval) : string :=
  match v with
  | PNone => "None"
  | PBool true => "True"
  | PBool false => "False"
  | PInt n => int_str n
  | PFloat f => float_repr f
  | PStr s => str_repr s
  | PList l => "[" +:+ String.concat ", " (map py_repr l) +:+ "]"
  | PDict d =>
      "{" +:+ String.concat ", "
                (map (fun kv => match kv with
                                | (k, x) => str_repr k +:+ ": " +:+ py_repr x
                                end) d) +:+ "}"
  end.

(** [str(v)], which is also what [format] puts for a field without a
    format specification. *)
Definition py_str (v : pyval) : string :=
  match v with
  | PStr s => s
  | _ => py_repr v
  end.

(** The items of [for x in v]. *)
Definition py_iter (v : pyval) : result (list pyval) :=
  match v with
  | PList l => Ok l
  | PDict d => Ok (map (fun kv => PStr (fst kv)) d)
  | PStr s => Ok (map (fun c => PStr (String c "")) (list_ascii_of_string s))
  | _ => Err (TypeError "iteration")
  end.

(** The keyword arguments of [format( **v)]. *)
Definition py_kwargs (v : pyval) : result (list (string * pyval)) :=
  match v with
  | PDict d => Ok d
  | _ => Err (TypeError "mapping")
  end.

(** The text of the replacement field [{name}]. *)
Definition format_field (kwargs : list (string * pyval)) (name : string) : result string :=
  match dict_lookup name kwargs with
  | Some v => Ok (py_str v)
  | None => Err (KeyError name)
  end.

(** ** The text report *)

(** ['<label>{field}'.format( **report[section])] *)
Definition labeled (report : pyval) (section_key label field : string) : result string :=
  let? mapping := py_getitem report section_key in
  let? kwargs := py_kwargs mapping in
  let? text := format_field kwargs field in
  Ok (label +:+ text).

(** [for entry in report['reflection'][key]: lines.append(...)] *)
Definition append_entries (report : pyval) (key : string) (lines : list string)
  : result (list string) :=
  let? reflection := py_getitem report "reflection" in
  let? sub := py_getitem reflection key in
  let? entries := py_iter sub in
  Ok (fold_left (fun acc entry => acc ++ ["    - " +:+ py_str entry]) entries lines).

Definition device_line (device : pyval) : result string :=
  let? kwargs := py_kwargs device in
  let? index := format_field kwargs "index" in
  let? name := format_field kwargs "name" in
  let? max_input_channels := format_field kwargs "max_input_channels" in
  let? max_output_channels := format_field kwargs "max_output_channels" in
  let? default_samplerate := format_field kwargs "default_samplerate" in
  Ok ("  [" +:+ index +:+ "] " +:+ name +:+ " (in:" +:+ max_input_channels
      +:+ " out:" +:+ max_output_channels +:+ ", rate:" +:+ default_samplerate +:+ ")").

(** [for device in devices: lines.append(...)] *)
Fixpoint append_devices (devices : list pyval) (lines : list string)
  : result (list string) :=
  match devices with
  | [] => Ok lines
  | device :: rest =>
      let? line := device_line device in
      append_devices rest (lines ++ [line])
  end.

Definition render_text_report (report : pyval) : result string :=
  let lines := [ "Google Assistant SDK self-diagnostics";
                 "";
                 "Reflection:";
                 "  Philosophy:" ] in
  let? lines := append_entries report "philosophy" lines in
  let lines := lines ++ [ "  Existential questions:" ] in
  let? lines := append_entries report "existential_questions" lines in
  let lines := lines ++ [ "  Conversational prompts:" ] in
  let? lines := append_entries report "conversational_prompts" lines in
  let lines := lines ++ [ "  Learning notes:" ] in
  let? lines := append_entries report "learning_notes" lines in
  let lines := lines ++ [ "  Grounding:" ] in
  let? lines := append_entries report "grounding" lines in
  let? python := labeled report "runtime" "  Python: " "python_version" in
  let? executable := labeled report "runtime" "  Executable: " "executable" in
  let? platform := labeled report "runtime" "  Platform: " "platform" in
  let? cwd := labeled report "runtime" "  CWD: " "cwd" in
  let? timestamp := labeled report "runtime" "  Timestamp (UTC): " "timestamp_utc" in
  let? sample_rate := labeled report "audio_defaults" "  Sample rate: " "sample_rate" in
  let? sample_width := labeled report "audio_defaults" "  Sample width: " "sample_width" in
  let? iter_size := labeled report "audio_defaults" "  Iter size: " "iter_size" in
  let? block_size :=
    labeled report "audio_defaults" "  Device block size: " "device_block_size" in
  let? flush_size :=
    labeled report "audio_defaults" "  Device flush size: " "device_flush_size" in
  let? default_input :=
    labeled report "audio_defaults" "  Default input device: " "default_input_device" in
  let? default_output :=
    labeled report "audio_defaults" "  Default output device: " "default_output_device" in
  let? path := labeled report "credentials" "  Path: " "credentials_path" in
  let? found := labeled report "credentials" "  Exists: " "credentials_exists" in
  let lines := lines ++ [ "";
                          "Runtime:";
                          python; executable; platform; cwd; timestamp;
                          "";
                          "Audio defaults:";
                          sample_rate; sample_width; iter_size; block_size;
                          flush_size; default_input; default_output;
                          "";
                          "Credentials:";
                          path; found;
                          "";
                          "Audio devices:" ] in
  let? audio_devices := py_getitem report "audio_devices" in
  let? devices := py_iter audio_devices in
  let? lines := append_devices devices lines in
  Ok (String.concat (String newline "") lines).

(** ** [json.dumps(report, indent=2, sort_keys=True)]

    The encoder and the parser work on lists of characters. *)

Definition chars (s : string) : list ascii := list_ascii_of_string s.

Definition hex4 (n : N) : list ascii :=
  [ hex_digit (n / 4096 mod 16)%N; hex_digit (n / 256 mod 16)%N;
    hex_digit (n / 16 mod 16)%N; hex_digit (n mod 16)%N ].

(** One character under [ensure_ascii]: the two-character escapes,
    the characters from space to tilde as they are, [\uXXXX] for the
    others. *)
Definition escape_char (c : ascii) : list ascii :=
  if Ascii.eqb c dquote then [backslash; dquote]
  else if Ascii.eqb c backslash then [backslash; backslash]
  else if Ascii.eqb c "008" then [backslash; "b"%char]
  else if Ascii.eqb c "012" then [backslash; "f"%char]
  else if Ascii.eqb c newline then [backslash; "n"%char]
  else if Ascii.eqb c "013" then [backslash; "r"%char]
  else if Ascii.eqb c "009" then [backslash; "t"%char]
  else if ((32 <=? N_of_ascii c) && (N_of_ascii c <=? 126))%N then [c]
  else backslash :: "u"%char :: hex4 (N_of_ascii c).

Fixpoint escape_chars (s : string) : list ascii :=
  match s with
  | EmptyString => []
  | String c s' => escape_char c ++ escape_chars s'
  end.

Definition encode_basestring_ascii (s : string) : list ascii :=
  dquote :: escape_chars s ++ [dquote].

Definition floatstr (f : pyfloat) : list ascii :=
  match f with
  | FNan => chars "NaN"
  | FInf => chars "Infinity"
  | FNegInf => chars "-Infinity"
  | FFinite r => chars r
  end.

(** ['\n' + ' ' * 2 * level] *)
Definition newline_indent (level : nat) : list ascii :=
  newline :: repeat " "%char (2 * level).

Fixpoint join (sep : list ascii) (items : list (list ascii)) : list ascii :=
  match items with
  | [] => []
  | [x] => x
  | x :: rest => x ++ sep ++ join sep rest
  end.

(** [sorted(dct.items())]: the keys of a dict are distinct, so the
    order is the order of the keys; the sort is stable. *)
Fixpoint insert_item {V : Type} (kv : string * V) (l : list (string * V))
  : list (string * V) :=
  match l with
  | [] => [kv]
  | kv' :: l' =>
      if String.leb (fst kv) (fst kv') then kv :: l else kv' :: insert_item kv l'
  end.

Definition sorted_items {V : Type} (d : list (string * V)) : list (string * V) :=
  fold_right insert_item [] d.

Definition iterencode_list (level : nat) (items : list (list ascii)) : list ascii :=
  match items with
  | [] => chars "[]"
  | _ => "["%char :: newline_indent (S level)
         ++ join (","%char :: newline_indent (S level)) items
         ++ newline_indent level ++ ["]"%char]
  end.

Definition encode_item (kt : string * list ascii) : list ascii :=
  encode_basestring_ascii (fst kt) ++ chars ": " ++ snd kt.

Definition iterencode_dict (level : nat) (items : list (string * list ascii))
  : list ascii :=
  match items with
  | [] => chars "{}"
  | _ => "{"%char :: newline_indent (S level)
         ++ join (","%char :: newline_indent (S level)) (map encode_item items)
         ++ newline_indent level ++ ["}"%char]
  end.

(** The values of a dict are encoded one level down and then put in
    the order of their keys. *)
Fixpoint iterencode (level : nat) (o : pyval) : list ascii :=
  match o with
  | PStr s => encode_basestring_ascii s
  | PNone => chars "null"
  | PBool true => chars "true"
  | PBool false => chars "false"
  | PInt n => chars (int_str n)
  | PFloat f => floatstr f
  | PList l => iterencode_list level (map (iterencode (S level)) l)
  | PDict d =>
      iterencode_dict level
        (sorted_items (map (fun kv => match kv with
                                      | (k, x) => (k, iterencode (S level) x)
                                      end) d))
  end.

Definition json_dumps (o : pyval) : string :=
  string_of_list_ascii (iterencode 0 o).

(** [main(credentials, json_output)] *)
Definition main (credentials : string) (json_output : bool) : M unit :=
  entering "main"
    (let* report := build_report credentials in
     if json_output then click_echo (json_dumps report)
     else let* text := pure_result (render_text_report report) in
          click_echo text).

(** ** A JSON parser, to read the structured output back

    The grammar is that of [json.loads]: JSON with the three tokens
    [NaN], [Infinity] and [-Infinity]. Objects come back as association
    lists in the order of the text. *)

Definition is_ws (c : ascii) : bool :=
  Ascii.eqb c " " || Ascii.eqb c newline || Ascii.eqb c "009" || Ascii.eqb c "013".

Fixpoint skip_ws (s : list ascii) : list ascii :=
  match s with
  | [] => []
  | c :: r => if is_ws c then skip_ws r else s
  end.

Definition is_digit (c : ascii) : bool :=
  ((48 <=? N_of_ascii c) && (N_of_ascii c <=? 57))%N.

Definition is_num_char (c : ascii) : bool :=
  is_digit c || Ascii.eqb c "-" || Ascii.eqb c "+" || Ascii.eqb c "."
  || Ascii.eqb c "e" || Ascii.eqb c "E".

Fixpoint span (p : ascii -> bool) (s : list ascii) : list ascii * list ascii :=
  match s with
  | [] => ([], [])
  | c :: r => if p c then let (a, b) := span p r in (c :: a, b) else ([], s)
  end.

Fixpoint strip_prefix (p s : list ascii) : option (list ascii) :=
  match p, s with
  | [], _ => Some s
  | a :: p', b :: s' => if Ascii.eqb a b then strip_prefix p' s' else None
  | _ :: _, [] => None
  end.

Definition digits_val (ds : list ascii) : N :=
  fold_left (fun a c => 10 * a + (N_of_ascii c - 48))%N ds 0%N.

(** The integer part of a number: [0], or digits that do not start
    with [0]. *)
Definition int_part_ok (ds : list ascii) : bool :=
  match ds with
  | [] => false
  | [_] => true
  | c :: _ => negb (Ascii.eqb c "0")
  end.

Definition nonempty_digits (ds : list ascii) : bool :=
  match ds with
  | [] => false
  | _ => forallb is_digit ds
  end.

Definition exp_ok (r : list ascii) : bool :=
  match r with
  | [] => false
  | c :: r' =>
      (Ascii.eqb c "e" || Ascii.eqb c "E")
      && match r' with
         | s :: t => if Ascii.eqb s "+" || Ascii.eqb s "-" then nonempty_digits t
                     else nonempty_digits r'
         | [] => false
         end
  end.

Definition frac_exp_ok (r : list ascii) : bool :=
  match r with
  | c :: r' =>
      if Ascii.eqb c "."
      then let (fp, r2) := span is_digit r' in
           match fp, r2 with
           | [], _ => false
           | _, [] => true
           | _, _ => exp_ok r2
           end
      else exp_ok r
  | [] => false
  end.

(** A number token: an [int] when it has neither fraction nor
    exponent, a [float] otherwise. *)
Definition number_token (tok : list ascii) : option pyval :=
  let (negative, body) :=
    match tok with
    | c :: b => if Ascii.eqb c "-" then (true, b) else (false, tok)
    | [] => (false, tok)
    end in
  let (ip, r1) := span is_digit body in
  if int_part_ok ip then
    match r1 with
    | [] => Some (PInt (if negative then - Z.of_N (digits_val ip)
                        else Z.of_N (digits_val ip)))
    | _ => if frac_exp_ok r1 then Some (PFloat (FFinite (string_of_list_ascii tok)))
           else None
    end
  else None.

Definition parse_number (s : list ascii) : option (pyval * list ascii) :=
  let (tok, rest) := span is_num_char s in
  match number_token tok with
  | Some v => Some (v, rest)
  | None => None
  end.

Definition hex_val (c : ascii) : option N :=
  let n := N_of_ascii c in
  if ((48 <=? n) && (n <=? 57))%N then Some (n - 48)%N
  else if ((97 <=? n) && (n <=? 102))%N then Some (n - 87)%N
  else if ((65 <=? n) && (n <=? 70))%N then Some (n - 55)%N
  else None.

(** The code point of [\uXXXX], when it is below 256. *)
Definition unicode_escape (a b c d : ascii) : option ascii :=
  match hex_val a, hex_val b, hex_val c, hex_val d with
  | Some x, Some y, Some z, Some t =>
      if ((x =? 0) && (y =? 0))%N then Some (ascii_of_N (16 * z + t)) else None
  | _, _, _, _ => None
  end.

Definition simple_escape (c : ascii) : option ascii :=
  if Ascii.eqb c dquote then Some dquote
  else if Ascii.eqb c backslash then Some backslash
  else if Ascii.eqb c "/" then Some "/"%char
  else if Ascii.eqb c "b" then Some "008"%char
  else if Ascii.eqb c "f" then Some "012"%char
  else if Ascii.eqb c "n" then Some newline
  else if Ascii.eqb c "r" then Some "013"%char
  else if Ascii.eqb c "t" then Some "009"%char
  else None.

(** The text of a string, after its opening quote. *)
Fixpoint parse_string (s : list ascii) : option (string * list ascii) :=
  match s with
  | [] => None
  | c :: r =>
      if Ascii.eqb c dquote then Some (EmptyString, r)
      else if Ascii.eqb c backslash then
        match r with
        | e :: r1 =>
            if Ascii.eqb e "u" then
              match r1 with
              | a :: b :: x :: y :: r2 =>
                  match unicode_escape a b x y, parse_string r2 with
                  | Some u, Some (str, r3) => Some (String u str, r3)
                  | _, _ => None
                  end
              | _ => None
              end
            else
              match simple_escape e, parse_string r1 with
              | Some u, Some (str, r3) => Some (String u str, r3)
              | _, _ => None
              end
        | [] => None
        end
      else if (N_of_ascii c <? 32)%N then None
      else match parse_string r with
           | Some (str, r3) => Some (String c str, r3)
           | None => None
           end
  end.

Definition literals : list (string * pyval) :=
  [ ("null", PNone); ("true", PBool true); ("false", PBool false);
    ("NaN", PFloat FNan); ("Infinity", PFloat FInf);
    ("-Infinity", PFloat FNegInf) ].

Fixpoint parse_literal (table : list (string * pyval)) (s : list ascii)
  : option (pyval * list ascii) :=
  match table with
  | [] => None
  | (word, v) :: table' =>
      match strip_prefix (chars word) s with
      | Some r => Some (v, r)
      | None => parse_literal table' s
      end
  end.

Definition parse_scalar (s : list ascii) : option (pyval * list ascii) :=
  match parse_literal literals s with
  | Some x => Some x
  | None => parse_number s
  end.

Fixpoint parse_value (fuel : nat) (s : list ascii) : option (pyval * list ascii) :=
  match fuel with
  | O => None
  | S fuel' =>
      match skip_ws s with
      | [] => None
      | c :: r =>
          if Ascii.eqb c dquote then
            match parse_string r with
            | Some (str, r') => Some (PStr str, r')
            | None => None
            end
          else if Ascii.eqb c "[" then
            match skip_ws r with
            | c' :: r' =>
                if Ascii.eqb c' "]" then Some (PList [], r')
                else match parse_elements fuel' r with
                     | Some (l, r'') => Some (PList l, r'')
                     | None => None
                     end
            | [] => None
            end
          else if Ascii.eqb c "{" then
            match skip_ws r with
            | c' :: r' =>
                if Ascii.eqb c' "}" then Some (PDict [], r')
                else match parse_members fuel' r with
                     | Some (d, r'') => Some (PDict d, r'')
                     | None => None
                     end
            | [] => None
            end
          else parse_scalar (c :: r)
      end
  end
with parse_elements (fuel : nat) (s : list ascii) : option (list pyval * list ascii) :=
  match fuel with
  | O => None
  | S fuel' =>
      match parse_value fuel' s with
      | Some (v, r) =>
          match skip_ws r with
          | c :: r' =>
              if Ascii.eqb c "," then
                match parse_elements fuel' r' with
                | Some (l, r'') => Some (v :: l, r'')
                | None => None
                end
              else if Ascii.eqb c "]" then Some ([v], r')
              else None
          | [] => None
          end
      | None => None
      end
  end
with parse_members (fuel : nat) (s : list ascii)
  : option (list (string * pyval) * list ascii) :=
  match fuel with
  | O => None
  | S fuel' =>
      match skip_ws s with
      | q :: r0 =>
          if Ascii.eqb q dquote then
            match parse_string r0 with
            | Some (k, r1) =>
                match skip_ws r1 with
                | colon :: r2 =>
                    if Ascii.eqb colon ":" then
                      match parse_value fuel' r2 with
                      | Some (v, r) =>
                          match skip_ws r with
                          | c :: r' =>
                              if Ascii.eqb c "," then
                                match parse_members fuel' r' with
                                | Some (d, r'') => Some ((k, v) :: d, r'')
                                | None => None
                                end
                              else if Ascii.eqb c "}" then Some ([(k, v)], r')
                              else None
                          | [] => None
                          end
                      | None => None
                      end
                    else None
                | [] => None
                end
            | None => None
            end
          else None
      | [] => None
      end
  end.

Definition json_loads (s : string) : option pyval :=
  let t := chars s in
  match parse_value (S (length t)) t with
  | Some (v, r) => match skip_ws r with
                   | [] => Some v
                   | _ => None
                   end
  | None => None
  end.

(** What a document looks like once written and read back: the items
    of every dict in the order of their keys. *)
Fixpoint sort_keys (v : pyval) : pyval :=
  match v with
  | PList l => PList (map sort_keys l)
  | PDict d =>
      PDict (sorted_items (map (fun kv => match kv with
                                          | (k, x) => (k, sort_keys x)
                                          end) d))
  | _ => v
  end.

(** ** Vocabulary of the statements *)

(** The collectors [build_report] composes, for a credentials path. *)
Definition collectors (credentials_path : string) : list (string * M pyval) :=
  [ ("collect_runtime_info", collect_runtime_info);
    ("collect_audio_defaults", collect_audio_defaults);
    ("collect_audio_devices", collect_audio_devices);
    ("collect_credentials_status", collect_credentials_status credentials_path);
    ("collect_reflection", collect_reflection) ].

(** The functions a run of [m] enters, in order. *)
Definition entered_by {A : Type} (m : M A) (w : world) : list string :=
  drop (length (w_entered w)) (w_entered (snd (m w))).

(** Two hosts that agree on everything but the clock. *)
Definition same_host_but_clock (h1 h2 : host) : Prop :=
  sys_version h1 = sys_version h2 /\
  sys_executable h1 = sys_executable h2 /\
  platform_platform h1 = platform_platform h2 /\
  os_getcwd h1 = os_getcwd h2 /\
  (forall p, os_path_exists h1 p = os_path_exists h2 p) /\
  sd_query_devices h1 = sd_query_devices h2 /\
  sd_default_device h1 = sd_default_device h2.

(** Two reports with the same keys and the same values everywhere,
    the value of [runtime.timestamp_utc] apart. *)
Definition equal_except_timestamp (r1 r2 : pyval) : Prop :=
  exists t1 t2 fields sections,
    r1 = PDict (("runtime", PDict (("timestamp_utc", t1) :: fields)) :: sections) /\
    r2 = PDict (("runtime", PDict (("timestamp_utc", t2) :: fields)) :: sections).

(** ** A host to try the statements on *)

Definition sample_device : gmap string pyval :=
  <["name" := PStr "Built-in Mic"]>
    (<["max_input_channels" := PInt 2]>
       (<["max_output_channels" := PInt 0]>
          (<["default_samplerate" := PFloat (FFinite "44100.0")]> ∅))).

Definition sample_host : host := {|
  datetime_utcnow := {| year := 2018; month := 3; day := 7;
                        hour := 9; minute := 5; second := 0; microsecond := 1234 |};
  sys_version := "3.5.3 (default, Sep 27 2018, 17:25:39) "
                 +:+ String newline "[GCC 6.3.0 20170516]";
  sys_executable := "/usr/bin/python3";
  platform_platform := "Linux-4.14.79-v7+-armv7l-with-debian-9.4";
  os_getcwd := Ok "/home/pi";
  os_lstat := fun _ => NoEntry ENOENT;
  sd_query_devices := Ok [sample_device];
  Pa_GetDefaultInputDevice := paNoDevice;
  Pa_GetDefaultOutputDevice := 0 |}.

Definition sample_audio_helpers : audio_helpers := {|
  DEFAULT_AUDIO_SAMPLE_RATE := 16000;
  DEFAULT_AUDIO_SAMPLE_WIDTH := 2;
  DEFAULT_AUDIO_ITER_SIZE := 3200;
  DEFAULT_AUDIO_DEVICE_BLOCK_SIZE := 6400;
  DEFAULT_AUDIO_DEVICE_FLUSH_SIZE := 25600 |}.

Definition world_of (h : host) : world := {|
  w_host := h;
  w_audio_helpers := sample_audio_helpers;
  w_stdout := [];
  w_entered := [] |}.

Definition sample_world : world := world_of sample_host.

(** The same host one second later. *)
Definition later_host : host := {|
  datetime_utcnow := {| year := 2018; month := 3; day := 7;
                        hour := 9; minute := 5; second := 1; microsecond := 0 |};
  sys_version := sys_version sample_host;
  sys_executable := sys_executable sample_host;
  platform_platform := platform_platform sample_host;
  os_getcwd := os_getcwd sample_host;
  os_lstat := os_lstat sample_host;
  sd_query_devices := sd_query_devices sample_host;
  Pa_GetDefaultInputDevice := Pa_GetDefaultInputDevice sample_host;
  Pa_GetDefaultOutputDevice := Pa_GetDefaultOutputDevice sample_host |}.

(** A host without audio devices, and one whose audio subsystem is
    not available. *)
Definition silent_host : host := {|
  datetime_utcnow := datetime_utcnow sample_host;
  sys_version := sys_version sample_host;
  sys_executable := sys_executable sample_host;
  platform_platform := platform_platform sample_host;
  os_getcwd := os_getcwd sample_host;
  os_lstat := os_lstat sample_host;
  sd_query_devices := Ok [];
  Pa_GetDefaultInputDevice := paNoDevice;
  Pa_GetDefaultOutputDevice := paNoDevice |}.

Definition broken_host : host := {|
  datetime_utcnow := datetime_utcnow sample_host;
  sys_version := sys_version sample_host;
  sys_executable := sys_executable sample_host;
  platform_platform := platform_platform sample_host;
  os_getcwd := os_getcwd sample_host;
  os_lstat := os_lstat sample_host;
  sd_query_devices := Err (PortAudioError "PortAudio not initialized");
  Pa_GetDefaultInputDevice := paNoDevice;
  Pa_GetDefaultOutputDevice := paNoDevice |}.

(** ** Reading a timestamp back *)

(** [k] digits, as a number. *)
Fixpoint take_digits (k : nat) (acc : N) (s : list ascii) : option (N * list ascii) :=
  match k with
  | O => Some (acc, s)
  | S k' =>
      match s with
      | c :: r => if is_digit c
                  then take_digits k' (10 * acc + (N_of_ascii c - 48))%N r
                  else None
      | [] => None
      end
  end.

Definition take_char (c : ascii) (s : list ascii) : option (list ascii) :=
  match s with
  | a :: r => if Ascii.eqb a c then Some r else None
  | [] => None
  end.

(** The seconds' fraction and the final [Z]: nothing, or a point and
    one to six digits, read as microseconds. *)
Definition take_fraction (s : list ascii) : option N :=
  match s with
  | c :: r =>
      if Ascii.eqb c "Z" then match r with [] => Some 0%N | _ => None end
      else if Ascii.eqb c "." then
        let (fp, r2) := span is_digit r in
        match fp, r2 with
        | _ :: _, [z] =>
            if Ascii.eqb z "Z" && (length fp <=? 6)%nat
            then Some (digits_val fp * 10 ^ N.of_nat (6 - length fp))%N
            else None
        | _, _ => None
        end
      else None
  | [] => None
  end.

(** An ISO-8601 date and time of the form [YYYY-MM-DDTHH:MM:SS], with
    an optional fraction of the second and the suffix [Z]. *)
Definition parse_iso8601_utc (s : string) : option datetime :=
  '(y, r) ← take_digits 4 0%N (chars s);
  r ← take_char "-" r;
  '(mo, r) ← take_digits 2 0%N r;
  r ← take_char "-" r;
  '(d, r) ← take_digits 2 0%N r;
  r ← take_char "T" r;
  '(h, r) ← take_digits 2 0%N r;
  r ← take_char ":" r;
  '(mi, r) ← take_digits 2 0%N r;
  r ← take_char ":" r;
  '(sec, r) ← take_digits 2 0%N r;
  us ← take_fraction r;
  Some {| year := y; month := mo; day := d;
          hour := h; minute := mi; second := sec; microsecond := us |}.

(** ** The layout of the text report, section by section *)

(** [report[key]], or [None] when there is no such key. *)
Definition part (report : pyval) (key : string) : pyval :=
  match py_getitem report key with
  | Ok v => v
  | Err _ => PNone
  end.

Definition entries (v : pyval) : list pyval :=
  match v with
  | PList l => l
  | _ => []
  end.

Definition field_text (mapping : pyval) (field : string) : string :=
  py_str (part mapping field).

Definition bullet (entry : pyval) : string := "    - " +:+ py_str entry.

Definition bullets (report : pyval) (key : string) : list string :=
  map bullet (entries (part (part report "reflection") key)).

Definition reflection_section (report : pyval) : list string :=
  [ "Reflection:"; "  Philosophy:" ] ++ bullets report "philosophy"
  ++ [ "  Existential questions:" ] ++ bullets report "existential_questions"
  ++ [ "  Conversational prompts:" ] ++ bullets report "conversational_prompts"
  ++ [ "  Learning notes:" ] ++ bullets report "learning_notes"
  ++ [ "  Grounding:" ] ++ bullets report "grounding".

Definition runtime_section (report : pyval) : list string :=
  let runtime := part report "runtime" in
  [ "Runtime:";
    "  Python: " +:+ field_text runtime "python_version";
    "  Executable: " +:+ field_text runtime "executable";
    "  Platform: " +:+ field_text runtime "platform";
    "  CWD: " +:+ field_text runtime "cwd";
    "  Timestamp (UTC): " +:+ field_text runtime "timestamp_utc" ].

Definition audio_defaults_section (report : pyval) : list string :=
  let defaults := part report "audio_defaults" in
  [ "Audio defaults:";
    "  Sample rate: " +:+ field_text defaults "sample_rate";
    "  Sample width: " +:+ field_text defaults "sample_width";
    "  Iter size: " +:+ field_text defaults "iter_size";
    "  Device block size: " +:+ field_text defaults "device_block_size";
    "  Device flush size: " +:+ field_text defaults "device_flush_size";
    "  Default input device: " +:+ field_text defaults "default_input_device";
    "  Default output device: " +:+ field_text defaults "default_output_device" ].

Definition credentials_section (report : pyval) : list string :=
  let credentials := part report "credentials" in
  [ "Credentials:";
    "  Path: " +:+ field_text credentials "credentials_path";
    "  Exists: " +:+ field_text credentials "credentials_exists" ].

(** [[index] name (in:N out:M, rate:R)], two spaces in. *)
Definition device_entry (device : pyval) : string :=
  "  [" +:+ field_text device "index" +:+ "] " +:+ field_text device "name"
  +:+ " (in:" +:+ field_text device "max_input_channels"
  +:+ " out:" +:+ field_text device "max_output_channels"
  +:+ ", rate:" +:+ field_text device "default_samplerate" +:+ ")".

Definition audio_devices_section (report : pyval) : list string :=
  "Audio devices:" :: map device_entry (entries (part report "audio_devices")).

Definition text_report_lines (report : pyval) : list string :=
  [ "Google Assistant SDK self-diagnostics"; "" ]
  ++ reflection_section report ++ [ "" ]
  ++ runtime_section report ++ [ "" ]
  ++ audio_defaults_section report ++ [ "" ]
  ++ credentials_section report ++ [ "" ]
  ++ audio_devices_section report.

(** ** Well-formed reports *)

Definition reflection_keys : list string :=
  [ "philosophy"; "existential_questions"; "conversational_prompts";
    "learning_notes"; "grounding" ].
Definition runtime_keys : list string :=
  [ "timestamp_utc"; "python_version"; "executable"; "platform"; "cwd" ].
Definition audio_defaults_keys : list string :=
  [ "sample_rate"; "sample_width"; "iter_size"; "device_block_size";
    "device_flush_size"; "default_input_device"; "default_output_device" ].
Definition credentials_keys : list string :=
  [ "credentials_path"; "credentials_exists" ].
Definition device_keys : list string :=
  [ "index"; "name"; "hostapi"; "max_input_channels"; "max_output_channels";
    "default_samplerate" ].

Definition has_keys (keys : list string) (v : pyval) : bool :=
  match v with
  | PDict d => forallb (fun k => match dict_lookup k d with
                                 | Some _ => true
                                 | None => false
                                 end) keys
  | _ => false
  end.

Definition has_lists (keys : list string) (v : pyval) : bool :=
  match v with
  | PDict d => forallb (fun k => match dict_lookup k d with
                                 | Some (PList _) => true
                                 | _ => false
                                 end) keys
  | _ => false
  end.

(** A Report: the five parts are there, each with its fields; the
    devices are a list of records with the six fields; the reflection
    block has its five lists. *)
Definition is_report (report : pyval) : bool :=
  has_keys [ "runtime"; "audio_defaults"; "audio_devices"; "credentials";
             "reflection" ] report
  && has_lists reflection_keys (part report "reflection")
  && has_keys runtime_keys (part report "runtime")
  && has_keys audio_defaults_keys (part report "audio_defaults")
  && has_keys credentials_keys (part report "credentials")
  && match part report "audio_devices" with
     | PList devices => forallb (has_keys device_keys) devices
     | _ => false
     end.

(** ** Lines of a text *)

(** [s.split('\n')] *)
Fixpoint split_lines (s : string) : list string :=
  match s with
  | EmptyString => [ "" ]
  | String c s' =>
      if Ascii.eqb c newline then "" :: split_lines s'
      else match split_lines s' with
           | l :: ls => String c l :: ls
           | [] => [ String c "" ]
           end
  end.

Definition single_line (s : string) : bool := negb (str_contains newline s).

(** ** Reports to try the statements on *)

Definition report_of (w : world) : pyval :=
  match fst (build_report "/nonexistent/path" w) with
  | Ok report => report
  | Err _ => PNone
  end.

Definition sample_report : pyval := report_of sample_world.

(** On [silent_host] the interpreter's version text has a line break,
    as [sys.version] of CPython 3.5 has. *)
Definition silent_report : pyval := report_of (world_of silent_host).

(** A host whose version text is one line, as [sys.version] of
    CPython 3.11 is. *)
Definition modern_host : host := {|
  datetime_utcnow := datetime_utcnow sample_host;
  sys_version := "3.11.4 (main, Jun  7 2023, 10:13:09) [GCC 12.2.0]";
  sys_executable := sys_executable sample_host;
  platform_platform := platform_platform sample_host;
  os_getcwd := os_getcwd sample_host;
  os_lstat := os_lstat sample_host;
  sd_query_devices := sd_query_devices sample_host;
  Pa_GetDefaultInputDevice := Pa_GetDefaultInputDevice sample_host;
  Pa_GetDefaultOutputDevice := Pa_GetDefaultOutputDevice sample_host |}.

Definition modern_report : pyval := report_of (world_of modern_host).

(** ** Vocabulary for the structured output *)

(** A [float] that is not a number or is infinite has its token; a
    finite one is carried by its [repr], which is a number token with
    a fraction or an exponent. *)
Definition float_ok (f : pyfloat) : bool :=
  match f with
  | FFinite r => match number_token (chars r) with
                 | Some (PFloat _) => true
                 | _ => false
                 end
  | _ => true
  end.

Fixpoint json_ok (v : pyval) : bool :=
  match v with
  | PFloat f => float_ok f
  | PList l => forallb json_ok l
  | PDict d => forallb (fun kv => match kv with (_, x) => json_ok x end) d
  | _ => true
  end.

(** The fuel that reading a document back takes. *)
Fixpoint fuel_of (v : pyval) : nat :=
  match v with
  | PList l => S (list_sum (map (fun x => S (fuel_of x)) l))
  | PDict d => S (list_sum (map (fun kv => match kv with
                                           | (_, x) => S (fuel_of x)
                                           end) d))
  | _ => 1
  end.

Fixpoint is_sorted (keys : list string) : bool :=
  match keys with
  | k :: ((k' :: _) as rest) => String.leb k k' && is_sorted rest
  | _ => true
  end.

(** The keys of every dict of the document are in order. *)
Fixpoint keys_sorted (v : pyval) : bool :=
  match v with
  | PList l => forallb keys_sorted l
  | PDict d =>
      is_sorted (map fst d)
      && forallb (fun kv => match kv with (_, x) => keys_sorted x end) d
  | _ => true
  end.

Definition top_level_keys (v : pyval) : list string :=
  match v with
  | PDict d => map fst d
  | _ => []
  end.

(** What may follow a value in a text: nothing, or a character that
    cannot continue a number. *)
Definition delimited (rest : list ascii) : Prop :=
  match rest with
  | [] => True
  | c :: _ => is_num_char c = false
  end.

(** A text that starts like a value: not with white space, and not
    with a closing bracket. *)
Definition value_head (t : list ascii) : Prop :=
  match t with
  | c :: _ => is_ws c = false /\ Ascii.eqb c "]" = false
  | [] => False
  end.

(** The text [t] reads as the value [v], with [n] units of fuel or
    more, whatever follows it. *)
Definition reads_as (t : list ascii) (v : pyval) (n : nat) : Prop :=
  forall fuel rest,
    (n <= fuel)%nat -> delimited rest ->
    parse_value fuel (t ++ rest) = Some (v, rest).

(** A text together with the value it reads as and the fuel this
    takes. *)
Record reading := {
  r_text : list ascii;
  r_value : pyval;
  r_need : nat }.

Definition reading_ok (r : reading) : Prop :=
  reads_as (r_text r) (r_value r) (r_need r) /\ value_head (r_text r).

Definition needs (rs : list reading) : nat :=
  list_sum (map (fun r => S (r_need r)) rs).

(** The text of a member of a dict, from its key and the reading of
    its value. *)
Definition member_text (m : string * reading) : list ascii :=
  encode_item (fst m, r_text (snd m)).

Definition member_value (m : string * reading) : string * pyval :=
  (fst m, r_value (snd m)).

(** How [iterencode] at a level reads: its text, the document it
    gives back and the fuel. *)
Definition reading_of (level : nat) (v : pyval) : reading :=
  {| r_text := iterencode level v; r_value := sort_keys v; r_need := fuel_of v |}.

(** ** The structured output, line by line

    The same document written as lines, each with its nesting depth:
    the brackets of a list or a dict on lines of their own at the
    depth of the container, the elements one level deeper, a comma
    after every element but the last, the members of a dict in the
    order of their keys. A line is printed with two spaces for each
    level of its depth. *)

Abbreviation line := (nat * list ascii)%type.

Definition with_prefix (p : list ascii) (ls : list line) : list line :=
  match ls with
  | (d, t) :: rest => (d, p ++ t) :: rest
  | [] => []
  end.

Fixpoint with_suffix (s : list ascii) (ls : list line) : list line :=
  match ls with
  | [] => []
  | [ (d, t) ] => [ (d, t ++ s) ]
  | l :: rest => l :: with_suffix s rest
  end.

Fixpoint commas (blocks : list (list line)) : list line :=
  match blocks with
  | [] => []
  | [ b ] => b
  | b :: rest => with_suffix [ ","%char ] b ++ commas rest
  end.

Definition layout_list (depth : nat) (blocks : list (list line)) : list line :=
  match blocks with
  | [] => [ (depth, chars "[]") ]
  | _ => (depth, [ "["%char ]) :: commas blocks ++ [ (depth, [ "]"%char ]) ]
  end.

Definition member_block (m : string * list line) : list line :=
  with_prefix (encode_basestring_ascii (fst m) ++ chars ": ") (snd m).

Definition layout_dict (depth : nat) (members : list (string * list line)) : list line :=
  match members with
  | [] => [ (depth, chars "{}") ]
  | _ => (depth, [ "{"%char ]) :: commas (map member_block members)
         ++ [ (depth, [ "}"%char ]) ]
  end.

Fixpoint layout (depth : nat) (v : pyval) : list line :=
  match v with
  | PList l => layout_list depth (map (layout (S depth)) l)
  | PDict d =>
      layout_dict depth
        (sorted_items (map (fun kv => match kv with
                                      | (k, x) => (k, layout (S depth) x)
                                      end) d))
  | _ => [ (depth, iterencode depth v) ]
  end.

Definition indentation (depth : nat) : list ascii := repeat " "%char (2 * depth).

Definition render_line (l : line) : list ascii := indentation (fst l) ++ snd l.

Definition render_lines (ls : list line) : list ascii :=
  join [ newline ] (map render_line ls).

(** A block of lines that starts at depth [d] and prints as the
    indentation of [d] and then [x]. *)
Definition block_ok (d : nat) (x : list ascii) (b : list line) : Prop :=
  (exists t rest, b = (d, t) :: rest) /\ render_lines b = indentation d ++ x.

(** The text of a line: it does not start with a space and has no
    line break in it. *)
Definition no_newline (t : list ascii) : bool :=
  forallb (fun c => negb (Ascii.eqb c newline)) t.

Definition starts_dark (t : list ascii) : bool :=
  match t with
  | c :: _ => negb (Ascii.eqb c " ")
  | [] => false
  end.

Definition text_ok (t : list ascii) : bool := starts_dark t && no_newline t.

Definition lines_ok (ls : list line) : Prop :=
  Forall (fun l => text_ok (snd l) = true) ls.

Definition line_string (l : line) : string := string_of_list_ascii (render_line l).

(** ** The text report, from the host *)

(** The line of the device the driver reports at position [index]:
    a field the descriptor does not have prints as [None]. *)
Definition device_text (index : Z) (device : gmap string pyval) : string :=
  "  [" +:+ int_str index +:+ "] " +:+ py_str (dict_get device "name")
  +:+ " (in:" +:+ py_str (dict_get device "max_input_channels")
  +:+ " out:" +:+ py_str (dict_get device "max_output_channels")
  +:+ ", rate:" +:+ py_str (dict_get device "default_samplerate") +:+ ")".

(** Two descriptors with the same values under the keys the text
    report prints. *)
Definition same_printed_fields (d1 d2 : gmap string pyval) : Prop :=
  d1 !! "name" = d2 !! "name" /\
  d1 !! "max_input_channels" = d2 !! "max_input_channels" /\
  d1 !! "max_output_channels" = d2 !! "max_output_channels" /\
  d1 !! "default_samplerate" = d2 !! "default_samplerate".

(** A host as [sample_host] with another answer of the audio driver. *)
Definition host_with_devices (answer : result (list (gmap string pyval))) : host := {|
  datetime_utcnow := datetime_utcnow sample_host;
  sys_version := sys_version sample_host;
  sys_executable := sys_executable sample_host;
  platform_platform := platform_platform sample_host;
  os_getcwd := os_getcwd sample_host;
  os_lstat := os_lstat sample_host;
  sd_query_devices := answer;
  Pa_GetDefaultInputDevice := Pa_GetDefaultInputDevice sample_host;
  Pa_GetDefaultOutputDevice := Pa_GetDefaultOutputDevice sample_host |}.

(** A descriptor without a name, and the sample device under another
    host API and with a field the report does not know. *)
Definition nameless_device : gmap string pyval :=
  <["max_input_channels" := PInt 1]>
    (<["max_output_channels" := PInt 2]>
       (<["default_samplerate" := PFloat (FFinite "48000.0")]> ∅)).

Definition other_api_device : gmap string pyval :=
  <["hostapi" := PInt 3]>
    (<["default_low_input_latency" := PFloat (FFinite "0.01")]> sample_device).

(** A host where the credentials path names a symbolic link, and the
    file the link points to is gone. *)
Definition dangling_host : host := {|
  datetime_utcnow := datetime_utcnow sample_host;
  sys_version := sys_version sample_host;
  sys_executable := sys_executable sample_host;
  platform_platform := platform_platform sample_host;
  os_getcwd := os_getcwd sample_host;
  os_lstat := fun path =>
    if String.eqb path "/home/pi/credentials.json"
    then Entry (FsLink "/media/usb/credentials.json")
    else NoEntry ENOENT;
  sd_query_devices := sd_query_devices sample_host;
  Pa_GetDefaultInputDevice := Pa_GetDefaultInputDevice sample_host;
  Pa_GetDefaultOutputDevice := Pa_GetDefaultOutputDevice sample_host |}.

(** A host where the credentials path names a symbolic link to a
    file that is there. *)
Definition linked_host : host := {|
  datetime_utcnow := datetime_utcnow sample_host;
  sys_version := sys_version sample_host;
  sys_executable := sys_executable sample_host;
  platform_platform := platform_platform sample_host;
  os_getcwd := os_getcwd sample_host;
  os_lstat := fun path =>
    if String.eqb path "/home/pi/credentials.json"
    then Entry (FsLink "/media/usb/credentials.json")
    else if String.eqb path "/media/usb/credentials.json" then Entry FsFile
    else NoEntry ENOENT;
  sd_query_devices := sd_query_devices sample_host;
  Pa_GetDefaultInputDevice := Pa_GetDefaultInputDevice sample_host;
  Pa_GetDefaultOutputDevice := Pa_GetDefaultOutputDevice sample_host |}.

(** A process whose working directory has been removed, on a host
    whose audio subsystem is not available. *)
Definition adrift_host : host := {|
  datetime_utcnow := datetime_utcnow sample_host;
  sys_version := sys_version sample_host;
  sys_executable := sys_executable sample_host;
  platform_platform := platform_platform sample_host;
  os_getcwd := Err (OSError ENOENT);
  os_lstat := os_lstat sample_host;
  sd_query_devices := Err (PortAudioError "PortAudio not initialized");
  Pa_GetDefaultInputDevice := paNoDevice;
  Pa_GetDefaultOutputDevice := paNoDevice |}.

(** The modern host with one device whose name has a line break. *)
Definition echo_device : gmap string pyval :=
  <["name" := PStr ("Mic" +:+ String newline "Ghost")]>
    (<["max_input_channels" := PInt 1]>
       (<["max_output_channels" := PInt 0]>
          (<["default_samplerate" := PFloat (FFinite "44100.0")]> ∅))).

Definition echo_host : host := {|
  datetime_utcnow := datetime_utcnow modern_host;
  sys_version := sys_version modern_host;
  sys_executable := sys_executable modern_host;
  platform_platform := platform_platform modern_host;
  os_getcwd := os_getcwd modern_host;
  os_lstat := os_lstat modern_host;
  sd_query_devices := Ok [ echo_device ];
  Pa_GetDefaultInputDevice := Pa_GetDefaultInputDevice modern_host;
  Pa_GetDefaultOutputDevice := Pa_GetDefaultOutputDevice modern_host |}.

Definition echo_report : pyval := report_of (world_of echo_host).

(** The modern host with a second device, one without a name. *)
Definition studio_host : host := {|
  datetime_utcnow := datetime_utcnow modern_host;
  sys_version := sys_version modern_host;
  sys_executable := sys_executable modern_host;
  platform_platform := platform_platform modern_host;
  os_getcwd := os_getcwd modern_host;
  os_lstat := os_lstat modern_host;
  sd_query_devices := Ok [ sample_device; nameless_device ];
  Pa_GetDefaultInputDevice := Pa_GetDefaultInputDevice modern_host;
  Pa_GetDefaultOutputDevice := Pa_GetDefaultOutputDevice modern_host |}.

(** The lines of the text report before the devices, from the host,
    the module constants, the credentials path and the working
    directory that [os.getcwd()] returned. *)
Definition host_text_head (P cwd : string) (w : world) : list string :=
  [ "Google Assistant SDK self-diagnostics"; "" ]
  ++ reflection_section (PDict [ ("reflection", reflection_block) ])
  ++ [ "";
       "Runtime:";
       "  Python: " +:+ sys_version (w_host w);
       "  Executable: " +:+ sys_executable (w_host w);
       "  Platform: " +:+ platform_platform (w_host w);
       "  CWD: " +:+ cwd;
       "  Timestamp (UTC): " +:+ isoformat (datetime_utcnow (w_host w)) +:+ "Z";
       "";
       "Audio defaults:";
       "  Sample rate: " +:+ int_str (DEFAULT_AUDIO_SAMPLE_RATE (w_audio_helpers w));
       "  Sample width: " +:+ int_str (DEFAULT_AUDIO_SAMPLE_WIDTH (w_audio_helpers w));
       "  Iter size: " +:+ int_str (DEFAULT_AUDIO_ITER_SIZE (w_audio_helpers w));
       "  Device block size: "
         +:+ int_str (DEFAULT_AUDIO_DEVICE_BLOCK_SIZE (w_audio_helpers w));
       "  Device flush size: "
         +:+ int_str (DEFAULT_AUDIO_DEVICE_FLUSH_SIZE (w_audio_helpers w));
       "  Default input device: " +:+ py_str (fst (sd_default_device (w_host w)));
       "  Default output device: " +:+ py_str (snd (sd_default_device (w_host w)));
       "";
       "Credentials:";
       "  Path: " +:+ P;
       "  Exists: " +:+ (if os_path_exists (w_host w) P then "True" else "False");
       "" ].

Definition host_device_lines (devices : list (gmap string pyval)) : list string :=
  map (fun p => device_text (fst p) (snd p)) (enumerate devices).

(** Two hosts that agree on everything but the answer of the audio
    driver. *)
Definition same_host_but_devices (h1 h2 : host) : Prop :=
  datetime_utcnow h1 = datetime_utcnow h2 /\
  sys_version h1 = sys_version h2 /\
  sys_executable h1 = sys_executable h2 /\
  platform_platform h1 = platform_platform h2 /\
  os_getcwd h1 = os_getcwd h2 /\
  (forall p, os_path_exists h1 p = os_path_exists h2 p) /\
  sd_default_device h1 = sd_default_device h2.

(** A descriptor whose printed fields have no line break in them. *)
Definition device_single_line (d : gmap string pyval) : Prop :=
  single_line (py_str (dict_get d "name")) = true /\
  single_line (py_str (dict_get d "max_input_channels")) = true /\
  single_line (py_str (dict_get d "max_output_channels")) = true /\
  single_line (py_str (dict_get d "default_samplerate")) = true.

(** A host, and a credentials path, whose texts are single lines. *)
Definition host_single_line (P : string) (h : host) : Prop :=
  single_line (sys_version h) = true /\
  single_line (sys_executable h) = true /\
  single_line (platform_platform h) = true /\
  match os_getcwd h with
  | Ok cwd => single_line cwd = true
  | Err _ => True
  end /\
  single_line P = true /\
  single_line (py_str (fst (sd_default_device h))) = true /\
  single_line (py_str (snd (sd_default_device h))) = true /\
  match sd_query_devices h with
  | Ok devices => Forall device_single_line devices
  | Err _ => True
  end.

(** ** Which reports render *)

(** The values within the limits of [str]: since CPython 3.11, [str]
    of an [int] of more than 4300 digits raises [ValueError], and
    [str] of containers nested deeper than the interpreter's stack
    allows raises [RecursionError]; 100 levels are far inside the
    default limit of 1000. The embedding of [str] has no such limits:
    what is said of every report is said of the reports within
    them. *)
Definition max_str_digits : Z := 4300.

Fixpoint within_limits (levels : nat) (v : pyval) {struct v} : bool :=
  match v with
  | PInt n => Z.abs n <? 10 ^ max_str_digits
  | PList l =>
      match levels with
      | O => false
      | S k => forallb (within_limits k) l
      end
  | PDict d =>
      match levels with
      | O => false
      | S k => forallb (fun kv => within_limits k (snd kv)) d
      end
  | _ => true
  end.

Definition printable (v : pyval) : bool := within_limits 100 v.

(** What [for x in v] runs over; nothing when [v] cannot be iterated. *)
Definition items (v : pyval) : list pyval :=
  match py_iter v with
  | Ok l => l
  | Err _ => []
  end.

Definition iterable (v : pyval) : bool :=
  match py_iter v with
  | Ok _ => true
  | Err _ => false
  end.

Definition has_iterables (keys : list string) (v : pyval) : bool :=
  match v with
  | PDict d => forallb (fun k => match dict_lookup k d with
                                 | Some x => iterable x
                                 | None => false
                                 end) keys
  | _ => false
  end.

(** The fields of a device that the text report prints. *)
Definition printed_device_keys : list string :=
  [ "index"; "name"; "max_input_channels"; "max_output_channels";
    "default_samplerate" ].

(** A report with everything [render_text_report] reads: the five
    sub-lists of the reflection block, as anything that can be
    iterated; the fields of the runtime, audio defaults and credentials
    parts; devices that can be iterated and are mappings with the five
    printed fields. *)
Definition renderable (report : pyval) : bool :=
  has_iterables reflection_keys (part report "reflection")
  && has_keys runtime_keys (part report "runtime")
  && has_keys audio_defaults_keys (part report "audio_defaults")
  && has_keys credentials_keys (part report "credentials")
  && iterable (part report "audio_devices")
  && forallb (has_keys printed_device_keys) (items (part report "audio_devices")).

Definition printed_bullets (report : pyval) (key : string) : list string :=
  map bullet (items (part (part report "reflection") key)).

(** The lines of the text of a renderable report. *)
Definition printed_lines (report : pyval) : list string :=
  [ "Google Assistant SDK self-diagnostics"; "";
    "Reflection:";
    "  Philosophy:" ] ++ printed_bullets report "philosophy"
  ++ [ "  Existential questions:" ] ++ printed_bullets report "existential_questions"
  ++ [ "  Conversational prompts:" ] ++ printed_bullets report "conversational_prompts"
  ++ [ "  Learning notes:" ] ++ printed_bullets report "learning_notes"
  ++ [ "  Grounding:" ] ++ printed_bullets report "grounding"
  ++ [ "" ] ++ runtime_section report
  ++ [ "" ] ++ audio_defaults_section report
  ++ [ "" ] ++ credentials_section report
  ++ [ ""; "Audio devices:" ]
  ++ map device_entry (items (part report "audio_devices")).

(** A report without its devices' [hostapi] and with a text in the
    place of a sub-list of the reflection block. *)
Definition odd_report : pyval :=
  PDict [ ("reflection",
           PDict [ ("philosophy", PStr "ab");
                   ("existential_questions", PList []);
                   ("conversational_prompts", PList []);
                   ("learning_notes", PList []);
                   ("grounding", PDict [ ("k", PNone) ]) ]);
          ("runtime", part sample_report "runtime");
          ("audio_defaults", part sample_report "audio_defaults");
          ("credentials", part sample_report "credentials");
          ("audio_devices",
           PList [ PDict [ ("index", PInt 0); ("name", PNone);
                           ("max_input_channels", PInt 1);
                           ("max_output_channels", PInt 0);
                           ("default_samplerate", PNone) ] ]) ].

(** ** Reports with something missing *)

(** [del d[k]], and [report[k] = v] for a key the report has. *)
Definition dict_remove (k : string) (d : list (string * pyval)) : list (string * pyval) :=
  List.filter (fun kv => negb (String.eqb k (fst kv))) d.

Definition set_part (k : string) (v : pyval) (report : pyval) : pyval :=
  match report with
  | PDict top =>
      PDict (map (fun kv => if String.eqb k (fst kv) then (fst kv, v) else kv) top)
  | _ => report
  end.

Definition without_key (k : string) (v : pyval) : pyval :=
  match v with
  | PDict d => PDict (dict_remove k d)
  | _ => v
  end.

(** The report without one of its parts, and without a field of one
    of its parts. *)
Definition without_section (s : string) (report : pyval) : pyval :=
  without_key s report.

Definition without_field (sec f : string) (report : pyval) : pyval :=
  set_part sec (without_key f (part report sec)) report.

(** The report whose device record at position [k] lacks a field. *)
Definition without_device_field (k : nat) (f : string) (report : pyval) : pyval :=
  match part report "audio_devices" with
  | PList devices =>
      match devices !! k with
      | Some device =>
          set_part "audio_devices"
                   (PList (<[k := without_key f device]> devices)) report
      | None => report
      end
  | _ => report
  end.

Definition section_keys : list string :=
  [ "runtime"; "audio_defaults"; "audio_devices"; "credentials"; "reflection" ].

(** The fields that [render_text_report] reads in the parts that are
    mappings, with their part. *)
Definition printed_fields : list (string * string) :=
  map (pair "reflection") reflection_keys
  ++ map (pair "runtime") runtime_keys
  ++ map (pair "audio_defaults") audio_defaults_keys
  ++ map (pair "credentials") credentials_keys.

(** * Properties *)

(** ** Running the collectors *)

Ltac run_M :=
  unfold entering, M_bind, M_ret, ask_host, ask_audio_helpers, lift_result,
    pure_result; cbn [fst snd w_host w_audio_helpers w_stdout w_entered].

Lemma enumerate_from_lookup {A : Type} (l : list A) (start : Z) (i : nat) (x : A) :
  l !! i = Some x -> enumerate_from start l !! i = Some (start + Z.of_nat i, x).
Proof.
  revert start i. induction l as [|y l IH]; intros start [|i] H; try discriminate.
  - simpl in *. injection H as ->. do 2 f_equal. lia.
  - simpl in *. rewrite (IH (start + 1) i H). do 2 f_equal. lia.
Qed.

Lemma enumerate_from_length {A : Type} (l : list A) (start : Z) :
  length (enumerate_from start l) = length l.
Proof. revert start. induction l; intros; cbn; auto. Qed.

Lemma collect_audio_devices_run (w : world) :
  fst (collect_audio_devices w) =
  match sd_query_devices (w_host w) with
  | Ok devices =>
      Ok (PList (map (fun p => _format_device (snd p) (fst p)) (enumerate devices)))
  | Err e => Err e
  end.
Proof.
  unfold collect_audio_devices. run_M.
  destruct (sd_query_devices (w_host w)); reflexivity.
Qed.

(** C1: the record at position [i] of the device list is the
    descriptor the driver reported at position [i], normalised with
    index [i]: indices start at 0, follow the driver's order, and
    grow by one from each record to the next. *)
Theorem collect_audio_devices_indices (w : world) (devices : list (gmap string pyval)) :
  sd_query_devices (w_host w) = Ok devices ->
  exists records : list pyval,
    fst (collect_audio_devices w) = Ok (PList records) /\
    length records = length devices /\
    (forall i device, devices !! i = Some device ->
       records !! i = Some (_format_device device (Z.of_nat i))) /\
    (forall i record, records !! i = Some record ->
       py_getitem record "index" = Ok (PInt (Z.of_nat i))).
Proof.
  intros Hq. rewrite collect_audio_devices_run, Hq.
  eexists. split; [reflexivity|].
  assert (Hat : forall i device, devices !! i = Some device ->
            map (fun p => _format_device (snd p) (fst p)) (enumerate devices) !! i
            = Some (_format_device device (Z.of_nat i))).
  { intros i device Hi. rewrite list_lookup_fmap.
    unfold enumerate. rewrite (enumerate_from_lookup _ 0 _ _ Hi). reflexivity. }
  split; [|split].
  - rewrite length_map. apply enumerate_from_length.
  - exact Hat.
  - intros i record Hi.
    assert (Hlt : (i < length devices)%nat).
    { apply lookup_lt_Some in Hi.
      rewrite length_map in Hi. unfold enumerate in Hi.
      rewrite enumerate_from_length in Hi. exact Hi. }
    destruct (lookup_lt_is_Some_2 devices i Hlt) as [device Hd].
    rewrite (Hat i device Hd) in Hi. injection Hi as <-. reflexivity.
Qed.

Lemma follow_links_step (n : nat) (lstat : string -> lstat_result) (path : string) :
  follow_links (S n) lstat path =
  match lstat path with
  | NoEntry why => Err (OSError why)
  | Entry (FsLink target) => follow_links n lstat target
  | Entry e => Ok e
  end.
Proof. reflexivity. Qed.

(** A path that [os.stat] accepts names an entry. *)
Lemma os_stat_entry (h : host) (path : string) (e : fs_entry) :
  os_stat h path = Ok e -> exists e', os_lstat h path = Entry e'.
Proof.
  unfold os_stat. destruct (has_nul path); [discriminate|].
  rewrite follow_links_step. destruct (os_lstat h path) as [e'|why]; [eauto|discriminate].
Qed.

(** C2, as the code has it: the record holds the path as it was
    given, and its [credentials_exists] field is the answer of
    [os.path.exists], which is [True] exactly when [os.stat] of the
    path returns: only if the path names an entry, always if it names a
    file or a directory (and has no NUL character), and not if it names
    a symbolic link to a path that names nothing. *)
Theorem collect_credentials_status_spec (P : string) (w : world) :
  exists (record : pyval) (found : bool),
    fst (collect_credentials_status P w) = Ok record /\
    py_getitem record "credentials_path" = Ok (PStr P) /\
    py_getitem record "credentials_exists" = Ok (PBool found) /\
    (found = true <-> exists e, os_stat (w_host w) P = Ok e) /\
    (found = true -> exists e, os_lstat (w_host w) P = Entry e) /\
    (has_nul P = false ->
     os_lstat (w_host w) P = Entry FsFile \/ os_lstat (w_host w) P = Entry FsDirectory ->
     found = true) /\
    (forall target why,
       os_lstat (w_host w) P = Entry (FsLink target) ->
       os_lstat (w_host w) target = NoEntry why ->
       found = false).
Proof.
  exists (PDict [ ("credentials_path", PStr P);
                  ("credentials_exists", PBool (os_path_exists (w_host w) P)) ]),
    (os_path_exists (w_host w) P).
  split; [reflexivity|]. split; [reflexivity|]. split; [reflexivity|].
  unfold os_path_exists.
  split; [|split; [|split]].
  - destruct (os_stat (w_host w) P) as [e|err].
    + split; [eauto|reflexivity].
    + split; [discriminate|]. intros [e He]. discriminate.
  - destruct (os_stat (w_host w) P) as [e|err] eqn:Hs; [|discriminate].
    intros _. exact (os_stat_entry _ _ _ Hs).
  - intros Hn He. unfold os_stat. rewrite Hn, follow_links_step.
    destruct He as [-> | ->]; reflexivity.
  - intros target why Hl Ht. unfold os_stat.
    destruct (has_nul P); [reflexivity|].
    rewrite follow_links_step, Hl, follow_links_step, Ht. reflexivity.
Qed.

(** C2, as stated, fails: on [dangling_host] a filesystem entry exists
    at the path, a symbolic link, and [credentials_exists] is
    [False]. *)
Lemma collect_credentials_status_counterexample :
  os_lstat dangling_host "/home/pi/credentials.json"
  = Entry (FsLink "/media/usb/credentials.json") /\
  exists record : pyval,
    fst (collect_credentials_status "/home/pi/credentials.json" (world_of dangling_host))
    = Ok record /\
    py_getitem record "credentials_path" = Ok (PStr "/home/pi/credentials.json") /\
    py_getitem record "credentials_exists" = Ok (PBool false).
Proof.
  split; [reflexivity|]. eexists. split; [reflexivity|].
  split; vm_compute; reflexivity.
Qed.

(** Through a link to a file that is there the answer is [True]. *)
Example credentials_exists_through_link :
  fst (collect_credentials_status "/home/pi/credentials.json" (world_of linked_host))
  = Ok (PDict [ ("credentials_path", PStr "/home/pi/credentials.json");
                ("credentials_exists", PBool true) ]).
Proof. vm_compute. reflexivity. Qed.

(** C5: a normalised record has the six fields, in this order, and
    each of the five copied fields holds the driver's value, or [None]
    when the descriptor has no such key. *)
Theorem format_device_all_fields (device : gmap string pyval) (index : Z) :
  exists d : list (string * pyval),
    _format_device device index = PDict d /\
    dict_keys d = [ "index"; "name"; "hostapi"; "max_input_channels";
                    "max_output_channels"; "default_samplerate" ] /\
    dict_lookup "index" d = Some (PInt index) /\
    (forall field,
       In field [ "name"; "hostapi"; "max_input_channels";
                  "max_output_channels"; "default_samplerate" ] ->
       (forall v, device !! field = Some v -> dict_lookup field d = Some v) /\
       (device !! field = None -> dict_lookup field d = Some PNone)).
Proof.
  eexists. split; [reflexivity|]. split; [reflexivity|]. split; [reflexivity|].
  intros field Hin. cbn in Hin.
  destruct Hin as [<-|[<-|[<-|[<-|[<-|[]]]]]]; cbn; unfold dict_get;
    (split; [intros v Hv; rewrite Hv; reflexivity | intros Hv; rewrite Hv; reflexivity]).
Qed.

(** C6, as the code has it: the collector always returns, and its two
    device fields are the entries of [sd.default.device], PortAudio's
    default devices: an index, and [-1], PortAudio's [paNoDevice],
    when there is no default device; never [None]. *)
Theorem collect_audio_defaults_total (w : world) :
  exists d : list (string * pyval),
    fst (collect_audio_defaults w) = Ok (PDict d) /\
    dict_lookup "default_input_device" d
    = Some (PInt (Pa_GetDefaultInputDevice (w_host w))) /\
    dict_lookup "default_output_device" d
    = Some (PInt (Pa_GetDefaultOutputDevice (w_host w))) /\
    (Pa_GetDefaultInputDevice (w_host w) = paNoDevice ->
     dict_lookup "default_input_device" d = Some (PInt (-1))) /\
    (Pa_GetDefaultOutputDevice (w_host w) = paNoDevice ->
     dict_lookup "default_output_device" d = Some (PInt (-1))) /\
    dict_lookup "default_input_device" d <> Some PNone /\
    dict_lookup "default_output_device" d <> Some PNone.
Proof.
  eexists. split; [reflexivity|]. cbn.
  split; [reflexivity|]. split; [reflexivity|].
  split; [intros ->; reflexivity|]. split; [intros ->; reflexivity|].
  split; discriminate.
Qed.

(** C6, as stated, fails: on [silent_host] PortAudio has no default
    input and no default output device, and the two fields are [-1],
    not [None]. *)
Lemma collect_audio_defaults_counterexample :
  Pa_GetDefaultInputDevice (w_host (world_of silent_host)) = paNoDevice /\
  Pa_GetDefaultOutputDevice (w_host (world_of silent_host)) = paNoDevice /\
  exists d : list (string * pyval),
    fst (collect_audio_defaults (world_of silent_host)) = Ok (PDict d) /\
    dict_lookup "default_input_device" d = Some (PInt (-1)) /\
    dict_lookup "default_output_device" d = Some (PInt (-1)) /\
    dict_lookup "default_input_device" d <> Some PNone /\
    dict_lookup "default_output_device" d <> Some PNone.
Proof.
  split; [reflexivity|]. split; [reflexivity|].
  eexists. split; [reflexivity|]. cbn.
  split; [reflexivity|]. split; [reflexivity|]. split; discriminate.
Qed.

Lemma collect_audio_devices_indices_witness :
  sd_query_devices (w_host sample_world) = Ok [sample_device] /\
  exists records : list pyval,
    fst (collect_audio_devices sample_world) = Ok (PList records) /\
    length records = length [sample_device] /\
    (forall i device, [sample_device] !! i = Some device ->
       records !! i = Some (_format_device device (Z.of_nat i))) /\
    (forall i record, records !! i = Some record ->
       py_getitem record "index" = Ok (PInt (Z.of_nat i))).
Proof.
  split; [reflexivity|].
  apply (collect_audio_devices_indices sample_world [sample_device]).
  reflexivity.
Defined.

(** ** The aggregator *)

Lemma collect_runtime_info_run (w : world) :
  fst (collect_runtime_info w) =
  match os_getcwd (w_host w) with
  | Ok cwd =>
      Ok (PDict [ ("timestamp_utc",
                   PStr (isoformat (datetime_utcnow (w_host w)) +:+ "Z"));
                  ("python_version", PStr (sys_version (w_host w)));
                  ("executable", PStr (sys_executable (w_host w)));
                  ("platform", PStr (platform_platform (w_host w)));
                  ("cwd", PStr cwd) ])
  | Err e => Err e
  end.
Proof.
  unfold collect_runtime_info. run_M.
  destruct (os_getcwd (w_host w)); reflexivity.
Qed.

Lemma build_report_run (P : string) (w : world) :
  fst (build_report P w) =
  match os_getcwd (w_host w), sd_query_devices (w_host w) with
  | Ok cwd, Ok devices =>
      Ok (PDict
            [ ("runtime",
               PDict [ ("timestamp_utc",
                        PStr (isoformat (datetime_utcnow (w_host w)) +:+ "Z"));
                       ("python_version", PStr (sys_version (w_host w)));
                       ("executable", PStr (sys_executable (w_host w)));
                       ("platform", PStr (platform_platform (w_host w)));
                       ("cwd", PStr cwd) ]);
              ("audio_defaults",
               PDict [ ("sample_rate",
                        PInt (DEFAULT_AUDIO_SAMPLE_RATE (w_audio_helpers w)));
                       ("sample_width",
                        PInt (DEFAULT_AUDIO_SAMPLE_WIDTH (w_audio_helpers w)));
                       ("iter_size",
                        PInt (DEFAULT_AUDIO_ITER_SIZE (w_audio_helpers w)));
                       ("device_block_size",
                        PInt (DEFAULT_AUDIO_DEVICE_BLOCK_SIZE (w_audio_helpers w)));
                       ("device_flush_size",
                        PInt (DEFAULT_AUDIO_DEVICE_FLUSH_SIZE (w_audio_helpers w)));
                       ("default_input_device", fst (sd_default_device (w_host w)));
                       ("default_output_device", snd (sd_default_device (w_host w))) ]);
              ("audio_devices",
               PList (map (fun p => _format_device (snd p) (fst p))
                          (enumerate devices)));
              ("credentials",
               PDict [ ("credentials_path", PStr P);
                       ("credentials_exists", PBool (os_path_exists (w_host w) P)) ]);
              ("reflection", reflection_block) ])
  | Ok _, Err e => Err e
  | Err e, _ => Err e
  end.
Proof.
  unfold build_report, collect_runtime_info, collect_audio_defaults,
    collect_audio_devices, collect_credentials_status, collect_reflection.
  run_M. destruct (os_getcwd (w_host w)); [|reflexivity].
  cbn [fst snd w_host w_audio_helpers w_stdout w_entered].
  destruct (sd_query_devices (w_host w)); reflexivity.
Qed.

(** The functions a run has entered: when [os.getcwd()] raises, the
    run ends in [collect_runtime_info]; when the query of the devices
    raises, it ends in [collect_audio_devices]. *)
Lemma build_report_log (P : string) (w : world) :
  w_entered (snd (build_report P w)) =
  w_entered w ++
  match os_getcwd (w_host w), sd_query_devices (w_host w) with
  | Ok _, Ok _ => [ "build_report"; "collect_runtime_info"; "collect_audio_defaults";
                    "collect_audio_devices"; "collect_credentials_status";
                    "collect_reflection" ]
  | Ok _, Err _ => [ "build_report"; "collect_runtime_info"; "collect_audio_defaults";
                     "collect_audio_devices" ]
  | Err _, _ => [ "build_report"; "collect_runtime_info" ]
  end.
Proof.
  unfold build_report, collect_runtime_info, collect_audio_defaults,
    collect_audio_devices, collect_credentials_status, collect_reflection.
  run_M. destruct (os_getcwd (w_host w)).
  - cbn [fst snd w_host w_audio_helpers w_stdout w_entered].
    destruct (sd_query_devices (w_host w));
      cbn [fst snd w_entered]; rewrite <- !app_assoc; reflexivity.
  - cbn [fst snd w_entered]. rewrite <- !app_assoc. reflexivity.
Qed.

Lemma build_report_entered (P : string) (w : world) :
  entered_by (build_report P) w =
  match os_getcwd (w_host w), sd_query_devices (w_host w) with
  | Ok _, Ok _ => [ "build_report"; "collect_runtime_info"; "collect_audio_defaults";
                    "collect_audio_devices"; "collect_credentials_status";
                    "collect_reflection" ]
  | Ok _, Err _ => [ "build_report"; "collect_runtime_info"; "collect_audio_defaults";
                     "collect_audio_devices" ]
  | Err _, _ => [ "build_report"; "collect_runtime_info" ]
  end.
Proof.
  unfold entered_by. rewrite build_report_log. apply drop_app_length.
Qed.

(** The world after a run is the world before it, the log apart. *)
Lemma build_report_world (P : string) (w : world) :
  w_host (snd (build_report P w)) = w_host w /\
  w_audio_helpers (snd (build_report P w)) = w_audio_helpers w /\
  w_stdout (snd (build_report P w)) = w_stdout w.
Proof.
  unfold build_report, collect_runtime_info, collect_audio_defaults,
    collect_audio_devices, collect_credentials_status, collect_reflection.
  run_M. destruct (os_getcwd (w_host w)); [|cbn; auto].
  cbn [fst snd w_host w_audio_helpers w_stdout w_entered].
  destruct (sd_query_devices (w_host w)); cbn; auto.
Qed.

(** C7: a run that returns a report has entered each collector once,
    in the order of the keys, and the report is the collectors' results
    under the five keys. A run that fails fails with the error of a
    collector, the first one in that order that fails: the ones before
    it returned, the ones after it were not entered, and there is no
    report. No function is entered twice, and whenever a collector
    fails on this world, so does [build_report]. *)
Theorem build_report_composition (P : string) (w : world) :
  match fst (build_report P w) with
  | Ok report =>
      exists runtime audio_defaults audio_devices credentials reflection,
        fst (collect_runtime_info w) = Ok runtime /\
        fst (collect_audio_defaults w) = Ok audio_defaults /\
        fst (collect_audio_devices w) = Ok audio_devices /\
        fst (collect_credentials_status P w) = Ok credentials /\
        fst (collect_reflection w) = Ok reflection /\
        report = PDict [ ("runtime", runtime);
                         ("audio_defaults", audio_defaults);
                         ("audio_devices", audio_devices);
                         ("credentials", credentials);
                         ("reflection", reflection) ] /\
        entered_by (build_report P) w =
          "build_report" :: map fst (collectors P)
  | Err e =>
      exists before name c after,
        collectors P = before ++ (name, c) :: after /\
        Forall (fun nc => exists v, fst (snd nc w) = Ok v) before /\
        fst (c w) = Err e /\
        entered_by (build_report P) w = "build_report" :: map fst before ++ [ name ]
  end /\
  NoDup (entered_by (build_report P) w) /\
  (forall name c e,
     In (name, c) (collectors P) -> fst (c w) = Err e ->
     exists e', fst (build_report P w) = Err e').
Proof.
  rewrite build_report_run, build_report_entered.
  split; [|split].
  - destruct (os_getcwd (w_host w)) as [cwd|e] eqn:Hc.
    + destruct (sd_query_devices (w_host w)) as [devices|e] eqn:Hq.
      * do 5 eexists. rewrite collect_runtime_info_run, Hc.
        rewrite collect_audio_devices_run, Hq.
        repeat (split; [reflexivity|]). reflexivity.
      * exists [ ("collect_runtime_info", collect_runtime_info);
                 ("collect_audio_defaults", collect_audio_defaults) ],
          "collect_audio_devices", collect_audio_devices,
          [ ("collect_credentials_status", collect_credentials_status P);
            ("collect_reflection", collect_reflection) ].
        split; [reflexivity|]. split.
        { constructor; [|constructor; [|constructor]]; cbn [snd].
          - rewrite collect_runtime_info_run, Hc. eauto.
          - eexists. reflexivity. }
        split; [|reflexivity].
        rewrite collect_audio_devices_run, Hq. reflexivity.
    + exists [], "collect_runtime_info", collect_runtime_info,
        [ ("collect_audio_defaults", collect_audio_defaults);
          ("collect_audio_devices", collect_audio_devices);
          ("collect_credentials_status", collect_credentials_status P);
          ("collect_reflection", collect_reflection) ].
      split; [reflexivity|]. split; [constructor|].
      split; [|reflexivity].
      rewrite collect_runtime_info_run, Hc. reflexivity.
  - destruct (os_getcwd (w_host w)); [destruct (sd_query_devices (w_host w))|];
      apply (bool_decide_unpack _); vm_compute; exact I.
  - intros name c e Hin Hc. cbn in Hin.
    destruct Hin as [H|[H|[H|[H|[H|[]]]]]]; injection H as Hn Hm; subst name c;
      try discriminate Hc.
    + rewrite collect_runtime_info_run in Hc.
      destruct (os_getcwd (w_host w)); [discriminate|eauto].
    + rewrite collect_audio_devices_run in Hc.
      destruct (os_getcwd (w_host w)); [|eauto].
      destruct (sd_query_devices (w_host w)); [discriminate|eauto].
Qed.

(** When two collectors fail, the run fails with the error of the
    first and does not reach the second. *)
Example build_report_first_failure :
  fst (collect_runtime_info (world_of adrift_host)) = Err (OSError ENOENT) /\
  fst (collect_audio_devices (world_of adrift_host))
  = Err (PortAudioError "PortAudio not initialized") /\
  fst (build_report "/nonexistent/path" (world_of adrift_host)) = Err (OSError ENOENT) /\
  entered_by (build_report "/nonexistent/path") (world_of adrift_host)
  = [ "build_report"; "collect_runtime_info" ].
Proof. repeat split; vm_compute; reflexivity. Qed.

(** When only the audio subsystem fails, the run fails with its error
    after two collectors returned. *)
Example build_report_audio_failure :
  fst (build_report "/nonexistent/path" (world_of broken_host))
  = Err (PortAudioError "PortAudio not initialized") /\
  entered_by (build_report "/nonexistent/path") (world_of broken_host)
  = [ "build_report"; "collect_runtime_info"; "collect_audio_defaults";
      "collect_audio_devices" ].
Proof. repeat split; vm_compute; reflexivity. Qed.

(** C9: a run of [build_report] leaves the host, the module constants
    and standard output as they were; and on two worlds that differ
    only in the clock, it fails with the same error or returns two
    reports that differ only in the value of [timestamp_utc]. *)
Theorem build_report_deterministic (P : string) (w1 w2 : world) :
  same_host_but_clock (w_host w1) (w_host w2) ->
  w_audio_helpers w1 = w_audio_helpers w2 ->
  (w_host (snd (build_report P w1)) = w_host w1 /\
   w_audio_helpers (snd (build_report P w1)) = w_audio_helpers w1 /\
   w_stdout (snd (build_report P w1)) = w_stdout w1) /\
  match fst (build_report P w1), fst (build_report P w2) with
  | Ok r1, Ok r2 => equal_except_timestamp r1 r2
  | Err e1, Err e2 => e1 = e2
  | _, _ => False
  end.
Proof.
  intros (Hv & He & Hp & Hc & Hx & Hq & Hd) Ha.
  split; [apply build_report_world|].
  rewrite !build_report_run, <- Hq, <- Hc.
  destruct (os_getcwd (w_host w1)); [|reflexivity].
  destruct (sd_query_devices (w_host w1)); [|reflexivity].
  rewrite <- Hv, <- He, <- Hp, <- Hx, <- Hd, <- Ha.
  do 4 eexists. split; reflexivity.
Qed.

Lemma build_report_deterministic_witness :
  same_host_but_clock (w_host sample_world) (w_host (world_of later_host)) /\
  w_audio_helpers sample_world = w_audio_helpers (world_of later_host) /\
  ((w_host (snd (build_report "/nonexistent/path" sample_world)) = w_host sample_world /\
    w_audio_helpers (snd (build_report "/nonexistent/path" sample_world))
      = w_audio_helpers sample_world /\
    w_stdout (snd (build_report "/nonexistent/path" sample_world))
      = w_stdout sample_world) /\
   match fst (build_report "/nonexistent/path" sample_world),
         fst (build_report "/nonexistent/path" (world_of later_host)) with
   | Ok r1, Ok r2 => equal_except_timestamp r1 r2
   | Err e1, Err e2 => e1 = e2
   | _, _ => False
   end).
Proof.
  assert (H1 : same_host_but_clock (w_host sample_world) (w_host (world_of later_host))).
  { repeat split; reflexivity. }
  assert (H2 : w_audio_helpers sample_world = w_audio_helpers (world_of later_host)).
  { reflexivity. }
  split; [exact H1|]. split; [exact H2|].
  exact (build_report_deterministic "/nonexistent/path" sample_world
           (world_of later_host) H1 H2).
Defined.

(** ** Decimal text *)

Lemma chars_app (a b : string) : chars (a +:+ b) = chars a ++ chars b.
Proof.
  induction a as [|c a IH]; [reflexivity|].
  change (c :: chars (a +:+ b) = c :: (chars a ++ chars b)). f_equal. exact IH.
Qed.

Lemma chars_length (s : string) : length (chars s) = String.length s.
Proof. induction s as [|c s IH]; [reflexivity|]. cbn. f_equal. exact IH. Qed.

Lemma string_of_chars (s : string) : string_of_list_ascii (chars s) = s.
Proof. apply string_of_list_ascii_of_string. Qed.

Lemma digit_char_code (d : N) : (d < 10)%N -> N_of_ascii (digit_char d) = (48 + d)%N.
Proof. intros H. unfold digit_char. apply N_ascii_embedding. lia. Qed.

Lemma digit_char_is_digit (d : N) : (d < 10)%N -> is_digit (digit_char d) = true.
Proof.
  intros H. unfold is_digit. rewrite (digit_char_code d H).
  apply andb_true_intro. split; apply N.leb_le; lia.
Qed.

Lemma digits_val_snoc (l : list ascii) (c : ascii) :
  digits_val (l ++ [c]) = (10 * digits_val l + (N_of_ascii c - 48))%N.
Proof. unfold digits_val. rewrite fold_left_app. reflexivity. Qed.

Lemma dec_go_acc (f : nat) (n : N) (acc : string) :
  chars (dec_go f n acc) = chars (dec_go f n "") ++ chars acc.
Proof.
  revert n acc. induction f as [|f IH]; intros n acc; [reflexivity|].
  cbn [dec_go]. destruct (n <? 10)%N; [reflexivity|].
  rewrite (IH _ (String _ acc)), (IH _ (String _ "")).
  rewrite <- app_assoc. reflexivity.
Qed.

Lemma dec_go_step (f : nat) (n : N) :
  chars (dec_go (S f) n "") =
  if (n <? 10)%N then [digit_char n]
  else chars (dec_go f (n / 10)%N "") ++ [digit_char (n mod 10)%N].
Proof.
  cbn [dec_go]. destruct (n <? 10)%N; [reflexivity|]. apply dec_go_acc.
Qed.

Lemma dec_go_digits (f : nat) (n : N) :
  forallb is_digit (chars (dec_go f n "")) = true.
Proof.
  revert n. induction f as [|f IH]; intros n; [reflexivity|].
  rewrite dec_go_step. destruct (n <? 10)%N eqn:Hn.
  - cbn. rewrite digit_char_is_digit; [reflexivity|]. apply N.ltb_lt, Hn.
  - rewrite forallb_app, IH. cbn.
    rewrite digit_char_is_digit; [reflexivity|]. apply N.mod_lt. lia.
Qed.

Lemma dec_go_length (f : nat) (n : N) :
  (length (chars (dec_go f n "")) <= f)%nat.
Proof.
  revert n. induction f as [|f IH]; intros n; [cbn; lia|].
  rewrite dec_go_step. destruct (n <? 10)%N.
  - cbn. lia.
  - rewrite length_app. cbn. specialize (IH (n / 10)%N). lia.
Qed.

Lemma dec_go_nonempty (f : nat) (n : N) : chars (dec_go (S f) n "") <> [].
Proof.
  rewrite dec_go_step. destruct (n <? 10)%N; [discriminate|].
  destruct (chars (dec_go f (n / 10)%N "")); discriminate.
Qed.

Lemma pow10_succ (f : nat) : (10 ^ N.of_nat (S f) = 10 * 10 ^ N.of_nat f)%N.
Proof. rewrite Nat2N.inj_succ, N.pow_succ_r; lia. Qed.

Lemma dec_go_value (f : nat) (n : N) :
  (n < 10 ^ N.of_nat f)%N -> digits_val (chars (dec_go f n "")) = n.
Proof.
  revert n. induction f as [|f IH]; intros n Hn.
  - cbn in Hn. cbn. lia.
  - rewrite dec_go_step. destruct (n <? 10)%N eqn:H10.
    + apply N.ltb_lt in H10. unfold digits_val. cbn [fold_left].
      rewrite (digit_char_code n H10). lia.
    + apply N.ltb_ge in H10. rewrite digits_val_snoc, IH.
      * rewrite digit_char_code by (apply N.mod_lt; lia).
        rewrite (N.add_comm 48), N.add_sub. symmetry. apply N.div_mod'.
      * rewrite pow10_succ in Hn. apply N.Div0.div_lt_upper_bound; lia.
Qed.

(** More fuel than needed changes nothing. *)
Lemma dec_go_fuel (f f' : nat) (n : N) (acc : string) :
  (n < 10 ^ N.of_nat f)%N -> (1 <= f <= f')%nat ->
  dec_go f' n acc = dec_go f n acc.
Proof.
  revert f' n acc. induction f as [|f IH]; intros f' n acc Hn Hf; [lia|].
  destruct f' as [|f']; [lia|]. cbn [dec_go].
  destruct (n <? 10)%N eqn:H10; [reflexivity|].
  apply N.ltb_ge in H10. rewrite pow10_succ in Hn.
  apply IH.
  - apply N.Div0.div_lt_upper_bound; lia.
  - destruct f as [|f]; [cbn in Hn; lia|lia].
Qed.

Lemma dec_N_fuel_enough (n : N) : (n < 10 ^ N.of_nat (S (N.to_nat (N.size n))))%N.
Proof.
  rewrite pow10_succ, N2Nat.id.
  pose proof (N.size_gt n) as H2.
  assert (H : (2 ^ N.size n <= 10 ^ N.size n)%N) by (apply N.pow_le_mono_l; lia).
  lia.
Qed.

Lemma dec_N_fuel (w : nat) (n : N) :
  (n < 10 ^ N.of_nat w)%N -> (1 <= w)%nat -> dec_N n = dec_go w n "".
Proof.
  intros Hn Hw. unfold dec_N.
  set (F := S (N.to_nat (N.size n))).
  rewrite <- (dec_go_fuel F (max F w) n "" (dec_N_fuel_enough n)) by lia.
  apply dec_go_fuel; [exact Hn|lia].
Qed.

Lemma dec_N_digits (n : N) : forallb is_digit (chars (dec_N n)) = true.
Proof. apply dec_go_digits. Qed.

Lemma dec_N_value (n : N) : digits_val (chars (dec_N n)) = n.
Proof. apply dec_go_value, dec_N_fuel_enough. Qed.

Lemma chars_zeros (k : nat) : chars (zeros k) = repeat "0"%char k.
Proof. induction k as [|k IH]; [reflexivity|]. cbn. f_equal. exact IH. Qed.

Lemma fold_digits_zeros (k : nat) (l : list ascii) :
  digits_val (repeat "0"%char k ++ l) = digits_val l.
Proof.
  unfold digits_val. rewrite fold_left_app. f_equal.
  induction k as [|k IH]; [reflexivity|]. cbn [repeat fold_left]. exact IH.
Qed.

(** ["%0wd"] of a number below [10^w] is [w] digits that read as the
    number. *)
Lemma fmt_0wd_spec (w : nat) (n : N) :
  (1 <= w)%nat -> (n < 10 ^ N.of_nat w)%N ->
  length (chars (fmt_0wd w n)) = w /\
  forallb is_digit (chars (fmt_0wd w n)) = true /\
  digits_val (chars (fmt_0wd w n)) = n.
Proof.
  intros Hw Hn. unfold fmt_0wd. cbv zeta.
  rewrite chars_app, chars_zeros, <- chars_length.
  assert (Hlen : (length (chars (dec_N n)) <= w)%nat).
  { rewrite (dec_N_fuel w n Hn Hw). apply dec_go_length. }
  split; [|split].
  - rewrite length_app, repeat_length. lia.
  - rewrite forallb_app, dec_N_digits, andb_true_r.
    apply forallb_forall. intros c Hc. apply repeat_spec in Hc. subst c. reflexivity.
  - rewrite fold_digits_zeros. apply dec_N_value.
Qed.

(** ** The timestamp *)

Lemma take_digits_app (ds : list ascii) (acc : N) (r : list ascii) :
  forallb is_digit ds = true ->
  take_digits (length ds) acc (ds ++ r)
  = Some (fold_left (fun a c => 10 * a + (N_of_ascii c - 48))%N ds acc, r).
Proof.
  revert acc. induction ds as [|c ds IH]; intros acc H; [reflexivity|].
  cbn in H. apply andb_prop in H as [Hc Hds].
  cbn [length take_digits app fold_left]. rewrite Hc. apply IH, Hds.
Qed.

Lemma take_fmt (w : nat) (n : N) (r : list ascii) :
  (1 <= w)%nat -> (n < 10 ^ N.of_nat w)%N ->
  take_digits w 0%N (chars (fmt_0wd w n) ++ r) = Some (n, r).
Proof.
  intros Hw Hn. destruct (fmt_0wd_spec w n Hw Hn) as (Hl & Hd & Hv).
  rewrite <- Hl at 1. rewrite take_digits_app by exact Hd.
  unfold digits_val in Hv. rewrite Hv. reflexivity.
Qed.

Lemma span_app (p : ascii -> bool) (ds r : list ascii) :
  forallb p ds = true ->
  match r with [] => True | c :: _ => p c = false end ->
  span p (ds ++ r) = (ds, r).
Proof.
  intros Hds Hr. induction ds as [|c ds IH].
  - destruct r as [|c r]; [reflexivity|]. cbn. rewrite Hr. reflexivity.
  - cbn in Hds. apply andb_prop in Hds as [Hc Hds].
    cbn. rewrite Hc, (IH Hds). reflexivity.
Qed.

(** The timestamp reads back as the time the clock gave. *)
Ltac iso_step :=
  repeat (progress cbn [mbind option_bind take_char app Ascii.eqb Bool.eqb]).

Lemma isoformat_reads_back (t : datetime) :
  valid_datetime t -> parse_iso8601_utc (isoformat t +:+ "Z") = Some t.
Proof.
  intros (Hy & Hmo & Hd & Hh & Hmi & Hs & Hus).
  unfold parse_iso8601_utc, isoformat.
  rewrite !chars_app, <- !app_assoc.
  change (chars "-") with ["-"%char]. change (chars "T") with ["T"%char].
  change (chars ":") with [":"%char]. change (chars "Z") with ["Z"%char].
  rewrite (take_fmt 4 (year t)) by (cbn; lia). iso_step.
  rewrite (take_fmt 2 (month t)) by (cbn; lia). iso_step.
  rewrite (take_fmt 2 (day t)) by (cbn; lia). iso_step.
  rewrite (take_fmt 2 (hour t)) by (cbn; lia). iso_step.
  rewrite (take_fmt 2 (minute t)) by (cbn; lia). iso_step.
  rewrite (take_fmt 2 (second t)) by (cbn; lia). iso_step.
  destruct (microsecond t =? 0)%N eqn:Hz.
  - apply N.eqb_eq in Hz. cbn. destruct t; cbn in *. subst. reflexivity.
  - rewrite chars_app. change (chars ".") with ["."%char].
    cbn [app take_fraction Ascii.eqb Bool.eqb].
    destruct (fmt_0wd_spec 6 (microsecond t)) as (Hl & Hdg & Hv); [lia|cbn; lia|].
    rewrite (span_app is_digit _ ["Z"%char] Hdg) by reflexivity.
    destruct (chars (fmt_0wd 6 (microsecond t))) as [|c ds] eqn:Hc; [discriminate|].
    rewrite Hl, Hv. cbn. rewrite N.mul_1_r. destruct t; reflexivity.
Qed.

(** C8: whenever the collector returns, that is whenever the process
    has a working directory, the [timestamp_utc] field is [isoformat]
    of the host's UTC clock followed by [Z]; it has the ISO-8601 form
    [YYYY-MM-DDTHH:MM:SS], with a fraction when the microseconds are
    not zero, ends in [Z], and reads back as the clock's time. *)
Theorem timestamp_utc_iso8601 (w : world) (cwd : string) :
  valid_datetime (datetime_utcnow (w_host w)) ->
  os_getcwd (w_host w) = Ok cwd ->
  exists (d : list (string * pyval)) (stamp : string),
    fst (collect_runtime_info w) = Ok (PDict d) /\
    dict_lookup "timestamp_utc" d = Some (PStr stamp) /\
    stamp = isoformat (datetime_utcnow (w_host w)) +:+ "Z" /\
    parse_iso8601_utc stamp = Some (datetime_utcnow (w_host w)) /\
    last (chars stamp) = Some "Z"%char.
Proof.
  intros Hv Hc. rewrite collect_runtime_info_run, Hc.
  do 2 eexists. split; [reflexivity|]. cbn [dict_lookup String.eqb].
  split; [reflexivity|]. split; [reflexivity|].
  split; [apply isoformat_reads_back, Hv|].
  rewrite chars_app. apply last_snoc.
Qed.

Lemma timestamp_utc_iso8601_witness :
  valid_datetime (datetime_utcnow (w_host sample_world)) /\
  os_getcwd (w_host sample_world) = Ok "/home/pi" /\
  exists (d : list (string * pyval)) (stamp : string),
    fst (collect_runtime_info sample_world) = Ok (PDict d) /\
    dict_lookup "timestamp_utc" d = Some (PStr stamp) /\
    stamp = isoformat (datetime_utcnow (w_host sample_world)) +:+ "Z" /\
    parse_iso8601_utc stamp = Some (datetime_utcnow (w_host sample_world)) /\
    last (chars stamp) = Some "Z"%char.
Proof.
  assert (H : valid_datetime (datetime_utcnow (w_host sample_world))).
  { unfold valid_datetime. cbn. lia. }
  split; [exact H|]. split; [reflexivity|].
  exact (timestamp_utc_iso8601 sample_world "/home/pi" H eq_refl).
Defined.

(** ** The text report *)

Lemma has_keys_lookup (keys : list string) (v : pyval) (k : string) :
  has_keys keys v = true -> In k keys ->
  exists d x, v = PDict d /\ dict_lookup k d = Some x.
Proof.
  intros H Hin. destruct v as [| | | | | |d]; try discriminate.
  cbn in H. rewrite forallb_forall in H. specialize (H k Hin).
  destruct (dict_lookup k d) as [x|] eqn:Hx; [|discriminate].
  exists d, x. split; [reflexivity|exact Hx].
Qed.

Lemma has_lists_lookup (keys : list string) (v : pyval) (k : string) :
  has_lists keys v = true -> In k keys ->
  exists d l, v = PDict d /\ dict_lookup k d = Some (PList l).
Proof.
  intros H Hin. destruct v as [| | | | | |d]; try discriminate.
  cbn in H. rewrite forallb_forall in H. specialize (H k Hin).
  destruct (dict_lookup k d) as [[| | | | |l|]|] eqn:Hx; try discriminate.
  exists d, l. split; [reflexivity|exact Hx].
Qed.

Lemma getitem_part (keys : list string) (v : pyval) (k : string) :
  has_keys keys v = true -> In k keys -> py_getitem v k = Ok (part v k).
Proof.
  intros H Hin. destruct (has_keys_lookup keys v k H Hin) as (d & x & -> & Hx).
  unfold part. cbn. rewrite Hx. reflexivity.
Qed.

Lemma field_text_lookup (d : list (string * pyval)) (k : string) (x : pyval) :
  dict_lookup k d = Some x -> field_text (PDict d) k = py_str x.
Proof. intros H. unfold field_text, part. cbn. rewrite H. reflexivity. Qed.

Lemma labeled_ok (report : pyval) (keys : list string) (sec label field : string) :
  py_getitem report sec = Ok (part report sec) ->
  has_keys keys (part report sec) = true -> In field keys ->
  labeled report sec label field = Ok (label +:+ field_text (part report sec) field).
Proof.
  intros Hsec Hkeys Hin. unfold labeled. rewrite Hsec. cbn [result_bind].
  destruct (has_keys_lookup keys _ field Hkeys Hin) as (d & x & -> & Hx).
  cbn [py_kwargs result_bind]. unfold format_field. rewrite Hx.
  cbn [result_bind]. rewrite (field_text_lookup d field x Hx). reflexivity.
Qed.

Lemma fold_bullets (l : list pyval) (lines : list string) :
  fold_left (fun acc entry => acc ++ [ "    - " +:+ py_str entry ]) l lines
  = lines ++ map bullet l.
Proof.
  revert lines. induction l as [|e l IH]; intros lines; cbn.
  - symmetry. apply app_nil_r.
  - rewrite IH, <- app_assoc. reflexivity.
Qed.

Lemma append_entries_ok (report : pyval) (key : string) (lines : list string) :
  py_getitem report "reflection" = Ok (part report "reflection") ->
  has_lists reflection_keys (part report "reflection") = true ->
  In key reflection_keys ->
  append_entries report key lines = Ok (lines ++ bullets report key).
Proof.
  intros Hsec Hl Hin. unfold append_entries, bullets. rewrite Hsec. cbn [result_bind].
  destruct (has_lists_lookup _ _ key Hl Hin) as (d & l & -> & Hx).
  unfold part. cbn [py_getitem]. rewrite Hx. cbn [result_bind py_iter entries].
  rewrite fold_bullets. reflexivity.
Qed.

Lemma device_line_ok (device : pyval) :
  has_keys device_keys device = true -> device_line device = Ok (device_entry device).
Proof.
  intros H.
  assert (Hk : forall k, In k device_keys ->
             exists d x, device = PDict d /\ dict_lookup k d = Some x).
  { intros k. apply has_keys_lookup, H. }
  destruct (Hk "index") as (d & x1 & -> & H1); [cbn; tauto|].
  destruct (Hk "name") as (? & x2 & [= <-] & H2); [cbn; tauto|].
  destruct (Hk "max_input_channels") as (? & x3 & [= <-] & H3); [cbn; tauto|].
  destruct (Hk "max_output_channels") as (? & x4 & [= <-] & H4); [cbn; tauto|].
  destruct (Hk "default_samplerate") as (? & x5 & [= <-] & H5); [cbn; tauto|].
  unfold device_line, device_entry, format_field. cbn [py_kwargs result_bind].
  rewrite H1, H2, H3, H4, H5. cbn [result_bind].
  rewrite (field_text_lookup _ _ _ H1), (field_text_lookup _ _ _ H2),
    (field_text_lookup _ _ _ H3), (field_text_lookup _ _ _ H4),
    (field_text_lookup _ _ _ H5).
  reflexivity.
Qed.

Lemma append_devices_ok (devices : list pyval) (lines : list string) :
  forallb (has_keys device_keys) devices = true ->
  append_devices devices lines = Ok (lines ++ map device_entry devices).
Proof.
  revert lines. induction devices as [|d devices IH]; intros lines H.
  - cbn. rewrite app_nil_r. reflexivity.
  - cbn [forallb] in H. apply andb_prop in H as [Hd Hds].
    cbn [append_devices]. rewrite (device_line_ok d Hd). cbn [result_bind].
    rewrite (IH _ Hds), <- app_assoc. reflexivity.
Qed.

Ltac in_keys := cbn; tauto.

(** The text of a well-formed report is its entries, joined by
    newlines. *)
Lemma render_text_report_lines (report : pyval) :
  is_report report = true ->
  render_text_report report
  = Ok (String.concat (String newline "") (text_report_lines report)).
Proof.
  intros Hwf. unfold is_report in Hwf.
  repeat (apply andb_prop in Hwf as [Hwf ?]).
  assert (Hget : forall k, In k [ "runtime"; "audio_defaults"; "audio_devices";
                                  "credentials"; "reflection" ] ->
                 py_getitem report k = Ok (part report k)).
  { intros k. apply getitem_part, Hwf. }
  unfold render_text_report.
  repeat (rewrite append_entries_ok
            by (first [apply Hget; in_keys | assumption | in_keys]);
          cbn [result_bind]).
  rewrite !(labeled_ok report runtime_keys "runtime")
    by (first [apply Hget; in_keys | assumption | in_keys]).
  rewrite !(labeled_ok report audio_defaults_keys "audio_defaults")
    by (first [apply Hget; in_keys | assumption | in_keys]).
  rewrite !(labeled_ok report credentials_keys "credentials")
    by (first [apply Hget; in_keys | assumption | in_keys]).
  cbn [result_bind].
  rewrite (Hget "audio_devices") by in_keys. cbn [result_bind].
  destruct (part report "audio_devices") as [| | | | |devices|] eqn:Hd;
    try discriminate.
  cbn [py_iter result_bind]. rewrite append_devices_ok by assumption.
  cbn [result_bind]. do 2 f_equal.
  unfold text_report_lines, reflection_section, runtime_section,
    audio_defaults_section, credentials_section, audio_devices_section.
  rewrite Hd. cbn [entries]. rewrite <- !app_assoc. reflexivity.
Qed.

(** ** Counting the lines *)

Lemma append_cons (c : ascii) (s t : string) :
  String c s +:+ t = String c (s +:+ t).
Proof. reflexivity. Qed.

Lemma split_lines_single (s : string) :
  single_line s = true -> split_lines s = [ s ].
Proof.
  unfold single_line. induction s as [|c s IH]; intros H; [reflexivity|].
  cbn [str_contains] in H. apply negb_true_iff, orb_false_elim in H as [Hc Hs].
  cbn [split_lines]. rewrite Hc, IH; [reflexivity|].
  apply negb_true_iff, Hs.
Qed.

Lemma split_lines_app (s t : string) :
  single_line s = true ->
  split_lines (s +:+ String newline t) = s :: split_lines t.
Proof.
  unfold single_line. induction s as [|c s IH]; intros H.
  - reflexivity.
  - cbn [str_contains] in H. apply negb_true_iff, orb_false_elim in H as [Hc Hs].
    rewrite append_cons. cbn [split_lines]. rewrite Hc, IH; [reflexivity|].
    apply negb_true_iff, Hs.
Qed.

(** Lines without a line break are the lines of their join. *)
Lemma split_lines_concat (ls : list string) :
  ls <> [] -> forallb single_line ls = true ->
  split_lines (String.concat (String newline "") ls) = ls.
Proof.
  induction ls as [|l ls IH]; intros Hne H; [congruence|].
  cbn [forallb] in H. apply andb_prop in H as [Hl Hls].
  destruct ls as [|l' ls].
  - cbn [String.concat]. apply split_lines_single, Hl.
  - change (String.concat (String newline "") (l :: l' :: ls))
      with (l +:+ String newline (String.concat (String newline "") (l' :: ls))).
    rewrite (split_lines_app _ _ Hl), IH; [reflexivity|discriminate|exact Hls].
Qed.

(** C4, as the code has it: for a well-formed report the text is
    the entries of the title, the reflection section with its five
    sub-lists, the runtime section, the audio defaults, the credentials
    and the audio devices, in this order and with an empty entry before
    each section, joined by newlines; every device gives one entry of
    the form [[index] name (in:N out:M, rate:R)]; without devices the
    last section is its header alone, and the five headers of the
    reflection section are there in their order whatever the devices
    are. The entries are the lines of the text, and so each device is
    one line, when no entry has a line break in it. *)
Theorem render_text_report_layout (report : pyval) :
  is_report report = true ->
  render_text_report report
    = Ok (String.concat (String newline "") (text_report_lines report)) /\
  text_report_lines report
    = [ "Google Assistant SDK self-diagnostics"; "";
        "Reflection:";
        "  Philosophy:" ] ++ bullets report "philosophy"
      ++ [ "  Existential questions:" ] ++ bullets report "existential_questions"
      ++ [ "  Conversational prompts:" ] ++ bullets report "conversational_prompts"
      ++ [ "  Learning notes:" ] ++ bullets report "learning_notes"
      ++ [ "  Grounding:" ] ++ bullets report "grounding"
      ++ [ "" ] ++ runtime_section report
      ++ [ "" ] ++ audio_defaults_section report
      ++ [ "" ] ++ credentials_section report
      ++ [ ""; "Audio devices:" ]
      ++ map device_entry (entries (part report "audio_devices")) /\
  length (runtime_section report) = 6%nat /\
  length (audio_defaults_section report) = 8%nat /\
  length (credentials_section report) = 3%nat /\
  (entries (part report "audio_devices") = [] ->
   audio_devices_section report = [ "Audio devices:" ]) /\
  (forallb single_line (text_report_lines report) = true ->
   forall out : string,
     render_text_report report = Ok out ->
     split_lines out = text_report_lines report).
Proof.
  intros Hwf.
  split; [exact (render_text_report_lines report Hwf)|].
  split; [|split; [|split; [|split; [|split]]]]; try reflexivity.
  - unfold text_report_lines, reflection_section, audio_devices_section.
    rewrite <- !app_assoc. reflexivity.
  - intros He. unfold audio_devices_section. rewrite He. reflexivity.
  - intros Hsingle out Hout.
    pose proof (render_text_report_lines report Hwf) as Hlines.
    assert (E : out = String.concat (String newline "") (text_report_lines report))
      by congruence.
    rewrite E. apply split_lines_concat; [|exact Hsingle].
    unfold text_report_lines. discriminate.
Qed.

Lemma render_text_report_layout_witness :
  is_report modern_report = true /\
  forallb single_line (text_report_lines modern_report) = true /\
  exists out : string,
    render_text_report modern_report = Ok out /\
    drop 22 (split_lines out)
    = [ "";
        "Runtime:";
        "  Python: 3.11.4 (main, Jun  7 2023, 10:13:09) [GCC 12.2.0]";
        "  Executable: /usr/bin/python3";
        "  Platform: Linux-4.14.79-v7+-armv7l-with-debian-9.4";
        "  CWD: /home/pi";
        "  Timestamp (UTC): 2018-03-07T09:05:00.001234Z";
        "";
        "Audio defaults:";
        "  Sample rate: 16000";
        "  Sample width: 2";
        "  Iter size: 3200";
        "  Device block size: 6400";
        "  Device flush size: 25600";
        "  Default input device: -1";
        "  Default output device: 0";
        "";
        "Credentials:";
        "  Path: /nonexistent/path";
        "  Exists: False";
        "";
        "Audio devices:";
        "  [0] Built-in Mic (in:2 out:0, rate:44100.0)" ].
Proof.
  assert (H : is_report modern_report = true) by (vm_compute; reflexivity).
  assert (Hs : forallb single_line (text_report_lines modern_report) = true)
    by (vm_compute; reflexivity).
  split; [exact H|]. split; [exact Hs|].
  destruct (render_text_report_layout modern_report H) as (Hout & _ & _ & _ & _ & _ & Hl).
  eexists. split; [exact Hout|].
  rewrite (Hl Hs _ Hout). vm_compute. reflexivity.
Defined.

(** C4, as stated, fails: the report built on [echo_host] is well
    formed and has one device, whose name has a line break, and in its
    text the device takes two lines after the header of the
    devices. *)
Lemma render_text_report_layout_counterexample :
  fst (build_report "/nonexistent/path" (world_of echo_host)) = Ok echo_report /\
  is_report echo_report = true /\
  length (entries (part echo_report "audio_devices")) = 1%nat /\
  exists out : string,
    render_text_report echo_report = Ok out /\
    drop 43 (split_lines out)
    = [ "Audio devices:"; "  [0] Mic"; "Ghost (in:1 out:0, rate:44100.0)" ].
Proof.
  split; [vm_compute; reflexivity|]. split; [vm_compute; reflexivity|].
  split; [vm_compute; reflexivity|].
  eexists. split; vm_compute; reflexivity.
Qed.

(** C10, as the code has it: with the static reflection block the
    report text is the join of 44 fixed entries and one entry per
    device; the first entry is the title and the five sub-lists give
    3, 3, 3, 3 and 2 bullets. These entries are the lines of the text
    when none of them has a line break in it. *)
Theorem text_report_line_count (report : pyval) :
  is_report report = true ->
  part report "reflection" = reflection_block ->
  exists out : string,
    render_text_report report = Ok out /\
    out = String.concat (String newline "") (text_report_lines report) /\
    length (text_report_lines report)
      = (44 + length (entries (part report "audio_devices")))%nat /\
    head (text_report_lines report) = Some "Google Assistant SDK self-diagnostics" /\
    length (bullets report "philosophy") = 3%nat /\
    length (bullets report "existential_questions") = 3%nat /\
    length (bullets report "conversational_prompts") = 3%nat /\
    length (bullets report "learning_notes") = 3%nat /\
    length (bullets report "grounding") = 2%nat /\
    (forallb single_line (text_report_lines report) = true ->
     split_lines out = text_report_lines report /\
     length (split_lines out)
       = (44 + length (entries (part report "audio_devices")))%nat).
Proof.
  intros Hwf Hrefl.
  pose proof (render_text_report_lines report Hwf) as Hout.
  assert (Hlen : length (text_report_lines report)
                 = (44 + length (entries (part report "audio_devices")))%nat).
  { unfold text_report_lines, reflection_section, runtime_section,
      audio_defaults_section, credentials_section, audio_devices_section, bullets.
    rewrite Hrefl.
    repeat (rewrite ?length_app, ?length_map; progress cbn [length app]).
    rewrite ?length_map.
    change (length (entries (part reflection_block "philosophy"))) with 3%nat.
    change (length (entries (part reflection_block "existential_questions")))
      with 3%nat.
    change (length (entries (part reflection_block "conversational_prompts")))
      with 3%nat.
    change (length (entries (part reflection_block "learning_notes"))) with 3%nat.
    change (length (entries (part reflection_block "grounding"))) with 2%nat.
    lia. }
  eexists. split; [exact Hout|]. split; [reflexivity|]. split; [exact Hlen|].
  split; [reflexivity|].
  unfold bullets. rewrite Hrefl.
  repeat (split; [reflexivity|]).
  intros Hsingle. rewrite split_lines_concat; [split; [reflexivity|exact Hlen]| |exact Hsingle].
  unfold text_report_lines. discriminate.
Qed.

Lemma text_report_line_count_witness :
  is_report modern_report = true /\
  part modern_report "reflection" = reflection_block /\
  exists out : string,
    render_text_report modern_report = Ok out /\
    out = String.concat (String newline "") (text_report_lines modern_report) /\
    length (text_report_lines modern_report)
      = (44 + length (entries (part modern_report "audio_devices")))%nat /\
    head (text_report_lines modern_report)
      = Some "Google Assistant SDK self-diagnostics" /\
    length (bullets modern_report "philosophy") = 3%nat /\
    length (bullets modern_report "existential_questions") = 3%nat /\
    length (bullets modern_report "conversational_prompts") = 3%nat /\
    length (bullets modern_report "learning_notes") = 3%nat /\
    length (bullets modern_report "grounding") = 2%nat /\
    (forallb single_line (text_report_lines modern_report) = true ->
     split_lines out = text_report_lines modern_report /\
     length (split_lines out)
       = (44 + length (entries (part modern_report "audio_devices")))%nat).
Proof.
  assert (H1 : is_report modern_report = true) by (vm_compute; reflexivity).
  assert (H2 : part modern_report "reflection" = reflection_block)
    by (vm_compute; reflexivity).
  split; [exact H1|]. split; [exact H2|].
  exact (text_report_line_count modern_report H1 H2).
Defined.

(** On the modern host the entries are single lines: the text of the
    report with its one device has 45 lines. *)
Example modern_report_lines :
  forallb single_line (text_report_lines modern_report) = true /\
  exists out, render_text_report modern_report = Ok out /\
              length (split_lines out) = 45%nat.
Proof. split; [vm_compute; reflexivity|]. eexists. split; vm_compute; reflexivity. Qed.

(** C10, as stated, fails: a report built on a host without audio
    devices whose interpreter version has a line break is well formed
    and has the static reflection block, and its text has 45 lines,
    not 44. *)
Lemma text_report_line_count_counterexample :
  fst (build_report "/nonexistent/path" (world_of silent_host)) = Ok silent_report /\
  is_report silent_report = true /\
  part silent_report "reflection" = reflection_block /\
  entries (part silent_report "audio_devices") = [] /\
  exists out : string,
    render_text_report silent_report = Ok out /\
    length (split_lines out) = 45%nat /\
    length (split_lines out) <> (44 + 0)%nat.
Proof.
  split; [vm_compute; reflexivity|]. split; [vm_compute; reflexivity|].
  split; [vm_compute; reflexivity|]. split; [vm_compute; reflexivity|].
  eexists. split; [vm_compute; reflexivity|].
  split; [vm_compute; reflexivity|]. vm_compute. discriminate.
Qed.

(** ** Reading the structured output back: tokens *)

Lemma pyval_ind' (P : pyval -> Prop) :
  P PNone ->
  (forall b, P (PBool b)) ->
  (forall n, P (PInt n)) ->
  (forall f, P (PFloat f)) ->
  (forall s, P (PStr s)) ->
  (forall l, Forall P l -> P (PList l)) ->
  (forall d, Forall (fun kv => P (snd kv)) d -> P (PDict d)) ->
  forall v, P v.
Proof.
  intros HN HB HI HF HS HL HD.
  fix IH 1. intros [| b | n | f | s | l | d].
  - exact HN.
  - apply HB.
  - apply HI.
  - apply HF.
  - apply HS.
  - apply HL. induction l as [|x l IHl]; constructor; [apply IH|exact IHl].
  - apply HD. induction d as [|[k x] d IHd]; constructor; [apply IH|exact IHd].
Qed.

Lemma skip_ws_app (ws s : list ascii) :
  forallb is_ws ws = true -> skip_ws (ws ++ s) = skip_ws s.
Proof.
  induction ws as [|c ws IH]; intros H; [reflexivity|].
  cbn in H. apply andb_prop in H as [Hc Hws].
  cbn [app skip_ws]. rewrite Hc. apply IH, Hws.
Qed.

Lemma newline_indent_ws (level : nat) : forallb is_ws (newline_indent level) = true.
Proof.
  unfold newline_indent. cbn [forallb]. change (is_ws newline) with true.
  cbn [andb]. apply forallb_forall. intros c Hc.
  apply repeat_spec in Hc. subst c. reflexivity.
Qed.

(** Strings. *)

Lemma parse_string_escape (c : ascii) (r : list ascii) :
  parse_string (escape_char c ++ r)
  = match parse_string r with
    | Some (str, r') => Some (String c str, r')
    | None => None
    end.
Proof.
  destruct c as [[] [] [] [] [] [] [] []]; reflexivity.
Qed.

Lemma parse_string_escaped (s : string) (rest : list ascii) :
  parse_string (escape_chars s ++ dquote :: rest) = Some (s, rest).
Proof.
  induction s as [|c s IH]; [reflexivity|].
  cbn [escape_chars]. rewrite <- app_assoc, parse_string_escape, IH. reflexivity.
Qed.

Lemma encode_string_app (s : string) (rest : list ascii) :
  encode_basestring_ascii s ++ rest = dquote :: escape_chars s ++ dquote :: rest.
Proof.
  unfold encode_basestring_ascii. cbn [app]. rewrite <- app_assoc. reflexivity.
Qed.

(** Numbers. *)

Lemma span_spec (p : ascii -> bool) (l a b : list ascii) :
  span p l = (a, b) -> l = a ++ b /\ forallb p a = true.
Proof.
  revert a b. induction l as [|c l IH]; intros a b H.
  - cbn in H. injection H as <- <-. split; reflexivity.
  - cbn in H. destruct (p c) eqn:Hc.
    + destruct (span p l) as [a' b'] eqn:Hs. injection H as <- <-.
      destruct (IH a' b' eq_refl) as [-> Ha]. split; [reflexivity|].
      cbn. rewrite Hc, Ha. reflexivity.
    + injection H as <- <-. split; reflexivity.
Qed.

Lemma digit_num_char (c : ascii) : is_digit c = true -> is_num_char c = true.
Proof. intros H. unfold is_num_char. rewrite H. reflexivity. Qed.

Lemma digits_num_chars (l : list ascii) :
  forallb is_digit l = true -> forallb is_num_char l = true.
Proof.
  rewrite !forallb_forall. intros H c Hc. apply digit_num_char, H, Hc.
Qed.

Lemma nonempty_digits_chars (l : list ascii) :
  nonempty_digits l = true -> forallb is_num_char l = true.
Proof.
  destruct l as [|c l]; [discriminate|]. intros H. apply digits_num_chars, H.
Qed.

Lemma exp_ok_chars (r : list ascii) :
  exp_ok r = true -> forallb is_num_char r = true.
Proof.
  destruct r as [|c r]; [discriminate|]. cbn [exp_ok forallb].
  intros H. apply andb_prop in H as [Hc Hr].
  assert (Hnc : is_num_char c = true).
  { apply orb_prop in Hc as [Hc|Hc]; apply Ascii.eqb_eq in Hc; subst c; reflexivity. }
  rewrite Hnc. cbn [andb].
  destruct r as [|s t]; [discriminate|].
  destruct (Ascii.eqb s "+" || Ascii.eqb s "-") eqn:Hs.
  - cbn [forallb]. rewrite (nonempty_digits_chars t Hr), andb_true_r.
    apply orb_prop in Hs as [Hs|Hs]; apply Ascii.eqb_eq in Hs; subst s; reflexivity.
  - apply nonempty_digits_chars, Hr.
Qed.

Lemma frac_exp_ok_chars (r : list ascii) :
  frac_exp_ok r = true -> forallb is_num_char r = true.
Proof.
  destruct r as [|c r]; [discriminate|]. cbn [frac_exp_ok].
  destruct (Ascii.eqb c ".") eqn:Hc; [|apply exp_ok_chars].
  apply Ascii.eqb_eq in Hc. subst c.
  destruct (span is_digit r) as [fp r2] eqn:Hs.
  destruct (span_spec _ _ _ _ Hs) as [-> Hfp].
  intros H. cbn [forallb]. change (is_num_char ".") with true. cbn [andb].
  rewrite forallb_app, (digits_num_chars fp Hfp). cbn [andb].
  destruct fp as [|d fp]; [discriminate|].
  destruct r2 as [|e r2]; [reflexivity|]. apply exp_ok_chars, H.
Qed.

(** A number token is made of the characters of numbers, and it
    starts with a digit, or with a minus sign and a digit. *)
Lemma number_token_chars (tok : list ascii) (v : pyval) :
  number_token tok = Some v -> forallb is_num_char tok = true.
Proof.
  unfold number_token.
  assert (Hbody : forall body,
            (let (ip, r1) := span is_digit body in
             if int_part_ok ip
             then match r1 with
                  | [] => true
                  | _ => frac_exp_ok r1
                  end
             else false) = true ->
            forallb is_num_char body = true).
  { intros body. destruct (span is_digit body) as [ip r1] eqn:Hs.
    destruct (span_spec _ _ _ _ Hs) as [-> Hip].
    destruct (int_part_ok ip); [|discriminate].
    rewrite forallb_app, (digits_num_chars ip Hip). cbn [andb].
    destruct r1 as [|c r1]; [reflexivity|]. apply frac_exp_ok_chars. }
  destruct tok as [|c b].
  - cbn. discriminate.
  - destruct (Ascii.eqb c "-") eqn:Hc.
    + apply Ascii.eqb_eq in Hc. subst c. intros H. cbn [forallb].
      change (is_num_char "-") with true. cbn [andb]. apply Hbody.
      destruct (span is_digit b) as [ip r1]. destruct (int_part_ok ip); [|discriminate].
      destruct r1; [reflexivity|]. destruct (frac_exp_ok (a :: r1)); [reflexivity|discriminate].
    + intros H. apply Hbody.
      destruct (span is_digit (c :: b)) as [ip r1].
      destruct (int_part_ok ip); [|discriminate].
      destruct r1; [reflexivity|]. destruct (frac_exp_ok (a :: r1)); [reflexivity|discriminate].
Qed.

Lemma span_digit_head (body ip r1 : list ascii) :
  span is_digit body = (ip, r1) -> int_part_ok ip = true ->
  exists d tl, body = d :: tl /\ is_digit d = true.
Proof.
  intros Hs Hip. destruct body as [|d tl].
  - cbn in Hs. injection Hs as <- <-. discriminate.
  - cbn in Hs. destruct (is_digit d) eqn:Hd.
    + exists d, tl. split; [reflexivity|exact Hd].
    + injection Hs as <- <-. discriminate.
Qed.

Lemma number_token_head (tok : list ascii) (v : pyval) :
  number_token tok = Some v ->
  exists c tl, tok = c :: tl /\
    (is_digit c = true \/
     (c = "-"%char /\ exists d tl', tl = d :: tl' /\ is_digit d = true)).
Proof.
  unfold number_token. destruct tok as [|c b]; [cbn; discriminate|].
  destruct (Ascii.eqb c "-") eqn:Hc.
  - apply Ascii.eqb_eq in Hc. subst c.
    destruct (span is_digit b) as [ip r1] eqn:Hs.
    destruct (int_part_ok ip) eqn:Hip; [|discriminate]. intros _.
    destruct (span_digit_head _ _ _ Hs Hip) as (d & tl' & -> & Hd).
    exists "-"%char, (d :: tl'). split; [reflexivity|]. right. eauto.
  - destruct (span is_digit (c :: b)) as [ip r1] eqn:Hs.
    destruct (int_part_ok ip) eqn:Hip; [|discriminate]. intros _.
    destruct (span_digit_head _ _ _ Hs Hip) as (d & tl' & [= -> ->] & Hd).
    exists d, tl'. split; [reflexivity|]. left. exact Hd.
Qed.

Lemma digit_not_literal (c : ascii) (tl : list ascii) :
  is_digit c = true ->
  parse_literal literals (c :: tl) = None /\
  is_ws c = false /\ Ascii.eqb c dquote = false /\ Ascii.eqb c "[" = false /\
  Ascii.eqb c "{" = false /\ Ascii.eqb c "]" = false.
Proof.
  destruct c as [[] [] [] [] [] [] [] []]; intros H; try discriminate H;
    repeat split; reflexivity.
Qed.

Lemma minus_digit_not_literal (d : ascii) (tl : list ascii) :
  is_digit d = true -> parse_literal literals ("-"%char :: d :: tl) = None.
Proof.
  destruct d as [[] [] [] [] [] [] [] []]; intros H; try discriminate H; reflexivity.
Qed.

Lemma number_token_value_head (tok : list ascii) (v : pyval) :
  number_token tok = Some v -> value_head tok.
Proof.
  intros H. destruct (number_token_head tok v H) as (c & tl & -> & [Hd|[-> _]]).
  - destruct (digit_not_literal c tl Hd) as (_ & Hws & _ & _ & _ & Hb). split; assumption.
  - split; reflexivity.
Qed.

Lemma number_token_reads (tok : list ascii) (v : pyval) :
  number_token tok = Some v -> reads_as tok v 1.
Proof.
  intros H fuel rest Hfuel Hrest.
  destruct fuel as [|fuel]; [lia|].
  assert (Hspan : span is_num_char (tok ++ rest) = (tok, rest)).
  { apply span_app; [exact (number_token_chars tok v H)|exact Hrest]. }
  assert (Hnum : parse_number (tok ++ rest) = Some (v, rest)).
  { unfold parse_number. rewrite Hspan, H. reflexivity. }
  destruct (number_token_head tok v H) as (c & tl & -> & [Hd|[-> (d & tl' & -> & Hd)]]).
  - destruct (digit_not_literal c (tl ++ rest) Hd) as (Hl & Hws & Hq & Hb & Hc & _).
    cbn [parse_value app skip_ws]. rewrite Hws, Hq, Hb, Hc.
    unfold parse_scalar. rewrite Hl. exact Hnum.
  - cbn [parse_value app skip_ws].
    change (is_ws "-") with false. cbn [Ascii.eqb Bool.eqb dquote].
    unfold parse_scalar. rewrite (minus_digit_not_literal d (tl' ++ rest) Hd).
    exact Hnum.
Qed.

(** Integers. *)

Lemma dec_go_head (f : nat) (n : N) :
  (1 <= n < 10 ^ N.of_nat f)%N ->
  exists d tl, chars (dec_go f n "") = digit_char d :: tl /\ (1 <= d < 10)%N.
Proof.
  revert n. induction f as [|f IH]; intros n [Hn1 Hn]; [cbn in Hn; lia|].
  rewrite dec_go_step. destruct (n <? 10)%N eqn:H10.
  - apply N.ltb_lt in H10. exists n, []. split; [reflexivity|lia].
  - apply N.ltb_ge in H10. rewrite pow10_succ in Hn.
    destruct (IH (n / 10)%N) as (d & tl & -> & Hd).
    + split; [apply N.div_le_lower_bound; lia|apply N.Div0.div_lt_upper_bound; lia].
    + exists d, (tl ++ [digit_char (n mod 10)%N]). split; [reflexivity|exact Hd].
Qed.

Lemma digit_char_not_zero (d : N) :
  (1 <= d < 10)%N -> Ascii.eqb (digit_char d) "0" = false.
Proof.
  intros Hd. apply Ascii.eqb_neq. intros H.
  apply (f_equal N_of_ascii) in H. rewrite digit_char_code in H by lia.
  cbn in H. lia.
Qed.

Lemma dec_N_int_part (n : N) : int_part_ok (chars (dec_N n)) = true.
Proof.
  destruct (N.eq_dec n 0%N) as [->|Hn]; [reflexivity|].
  destruct (dec_go_head (S (N.to_nat (N.size n))) n) as (d & tl & Hc & Hd).
  { split; [lia|apply dec_N_fuel_enough]. }
  unfold dec_N. rewrite Hc. cbn [int_part_ok].
  destruct tl; [reflexivity|]. rewrite (digit_char_not_zero d Hd). reflexivity.
Qed.

Lemma dec_N_head_digit (n : N) :
  exists c tl, chars (dec_N n) = c :: tl /\ is_digit c = true.
Proof.
  pose proof (dec_N_digits n) as H.
  destruct (chars (dec_N n)) as [|c tl] eqn:Hc.
  - exfalso. exact (dec_go_nonempty _ _ Hc).
  - exists c, tl. split; [reflexivity|].
    cbn in H. apply andb_prop in H as [H _]. exact H.
Qed.

Lemma dec_N_token (n : N) :
  number_token (chars (dec_N n)) = Some (PInt (Z.of_N n)).
Proof.
  unfold number_token.
  destruct (dec_N_head_digit n) as (c & tl & Hc & Hd).
  assert (Hm : Ascii.eqb c "-" = false).
  { destruct c as [[] [] [] [] [] [] [] []]; try discriminate Hd; reflexivity. }
  rewrite Hc, Hm, <- Hc.
  rewrite <- (app_nil_r (chars (dec_N n))) at 1.
  rewrite (span_app is_digit _ [] (dec_N_digits n) I).
  rewrite dec_N_int_part, dec_N_value. reflexivity.
Qed.

Lemma int_str_token (z : Z) : number_token (chars (int_str z)) = Some (PInt z).
Proof.
  destruct z as [|p|p].
  - reflexivity.
  - exact (dec_N_token (Npos p)).
  - unfold int_str.
    change (chars (String "-" (dec_N (N.pos p)))) with ("-"%char :: chars (dec_N (N.pos p))).
    unfold number_token. cbn [Ascii.eqb Bool.eqb].
    rewrite <- (app_nil_r (chars (dec_N (N.pos p)))).
    rewrite (span_app is_digit _ [] (dec_N_digits _) I).
    rewrite dec_N_int_part, dec_N_value. reflexivity.
Qed.

(** ** Reading the structured output back: values *)

Lemma reads_as_string (s : string) : reads_as (encode_basestring_ascii s) (PStr s) 1.
Proof.
  intros fuel rest Hfuel _. destruct fuel as [|fuel]; [lia|].
  rewrite encode_string_app. cbn [parse_value skip_ws].
  change (is_ws dquote) with false. cbn [Ascii.eqb Bool.eqb dquote].
  rewrite parse_string_escaped. reflexivity.
Qed.

Lemma reads_as_literal (word : string) (v : pyval) :
  In (word, v) literals -> reads_as (chars word) v 1.
Proof.
  intros Hin fuel rest Hfuel _. destruct fuel as [|fuel]; [lia|].
  cbn in Hin.
  destruct Hin as [H|[H|[H|[H|[H|[H|[]]]]]]]; injection H as <- <-; reflexivity.
Qed.

Lemma reads_as_float (f : pyfloat) :
  float_ok f = true -> reads_as (floatstr f) (PFloat f) 1.
Proof.
  destruct f as [| | |r]; intros Hok.
  - apply (reads_as_literal "NaN"). cbn. tauto.
  - apply (reads_as_literal "Infinity"). cbn. tauto.
  - apply (reads_as_literal "-Infinity"). cbn. tauto.
  - cbn [floatstr]. apply number_token_reads.
    cbn [float_ok] in Hok. unfold number_token in *.
    destruct (chars r) as [|c b] eqn:Hr; [cbn in Hok; discriminate|].
    rewrite <- Hr, string_of_chars, Hr.
    destruct (if Ascii.eqb c "-" then (true, b) else (false, c :: b)) as [neg body].
    destruct (span is_digit body) as [ip r1].
    destruct (int_part_ok ip); [|discriminate].
    destruct r1 as [|e r1]; [discriminate|].
    destruct (frac_exp_ok (e :: r1)); [reflexivity|discriminate].
Qed.

Lemma value_head_float (f : pyfloat) : float_ok f = true -> value_head (floatstr f).
Proof.
  destruct f as [| | |r]; intros Hok; try (split; reflexivity).
  cbn [float_ok] in Hok. cbn [floatstr].
  destruct (number_token (chars r)) as [v|] eqn:Hv; [|discriminate].
  exact (number_token_value_head _ v Hv).
Qed.

Lemma parse_value_unfold (fuel : nat) (s : list ascii) :
  parse_value (S fuel) s =
  match skip_ws s with
  | [] => None
  | c :: r =>
      if Ascii.eqb c dquote then
        match parse_string r with
        | Some (str, r') => Some (PStr str, r')
        | None => None
        end
      else if Ascii.eqb c "[" then
        match skip_ws r with
        | c' :: r' =>
            if Ascii.eqb c' "]" then Some (PList [], r')
            else match parse_elements fuel r with
                 | Some (l, r'') => Some (PList l, r'')
                 | None => None
                 end
        | [] => None
        end
      else if Ascii.eqb c "{" then
        match skip_ws r with
        | c' :: r' =>
            if Ascii.eqb c' "}" then Some (PDict [], r')
            else match parse_members fuel r with
                 | Some (d, r'') => Some (PDict d, r'')
                 | None => None
                 end
        | [] => None
        end
      else parse_scalar (c :: r)
  end.
Proof. reflexivity. Qed.

Lemma parse_elements_unfold (fuel : nat) (s : list ascii) :
  parse_elements (S fuel) s =
  match parse_value fuel s with
  | Some (v, r) =>
      match skip_ws r with
      | c :: r' =>
          if Ascii.eqb c "," then
            match parse_elements fuel r' with
            | Some (l, r'') => Some (v :: l, r'')
            | None => None
            end
          else if Ascii.eqb c "]" then Some ([v], r')
          else None
      | [] => None
      end
  | None => None
  end.
Proof. reflexivity. Qed.

Lemma parse_members_unfold (fuel : nat) (s : list ascii) :
  parse_members (S fuel) s =
  match skip_ws s with
  | q :: r0 =>
      if Ascii.eqb q dquote then
        match parse_string r0 with
        | Some (k, r1) =>
            match skip_ws r1 with
            | colon :: r2 =>
                if Ascii.eqb colon ":" then
                  match parse_value fuel r2 with
                  | Some (v, r) =>
                      match skip_ws r with
                      | c :: r' =>
                          if Ascii.eqb c "," then
                            match parse_members fuel r' with
                            | Some (d, r'') => Some ((k, v) :: d, r'')
                            | None => None
                            end
                          else if Ascii.eqb c "}" then Some ([(k, v)], r')
                          else None
                      | [] => None
                      end
                  | None => None
                  end
                else None
            | [] => None
            end
        | None => None
        end
      else None
  | [] => None
  end.
Proof. reflexivity. Qed.

Lemma parse_value_ws (fuel : nat) (ws s : list ascii) :
  forallb is_ws ws = true -> parse_value fuel (ws ++ s) = parse_value fuel s.
Proof.
  intros H. destruct fuel as [|fuel]; [reflexivity|].
  rewrite !parse_value_unfold, (skip_ws_app ws s H). reflexivity.
Qed.

Lemma ws_not_num_char (c : ascii) : is_ws c = true -> is_num_char c = false.
Proof.
  destruct c as [[] [] [] [] [] [] [] []]; intros H; try discriminate H; reflexivity.
Qed.

(** White space and then a closing character end a number. *)
Lemma delimited_close (ws : list ascii) (c : ascii) (rest : list ascii) :
  forallb is_ws ws = true -> is_num_char c = false -> delimited (ws ++ c :: rest).
Proof.
  intros Hws Hc. destruct ws as [|a ws]; [exact Hc|].
  cbn in Hws. apply andb_prop in Hws as [Ha _]. exact (ws_not_num_char a Ha).
Qed.

Lemma skip_ws_close (ws : list ascii) (c : ascii) (rest : list ascii) :
  forallb is_ws ws = true -> is_ws c = false -> skip_ws (ws ++ c :: rest) = c :: rest.
Proof.
  intros Hws Hc. rewrite (skip_ws_app ws _ Hws). cbn. rewrite Hc. reflexivity.
Qed.

Lemma join_cons2 (sep x y : list ascii) (l : list (list ascii)) :
  join sep (x :: y :: l) = x ++ sep ++ join sep (y :: l).
Proof. reflexivity. Qed.

(** The elements of a list, after the opening bracket. *)
Lemma parse_elements_join (sepws closews : list ascii) (rs : list reading) :
  forallb is_ws sepws = true -> forallb is_ws closews = true ->
  Forall reading_ok rs ->
  forall r fuel ws rest,
    reading_ok r -> forallb is_ws ws = true -> (needs (r :: rs) <= fuel)%nat ->
    parse_elements fuel
      (ws ++ join (","%char :: sepws) (map r_text (r :: rs))
          ++ closews ++ "]"%char :: rest)
    = Some (map r_value (r :: rs), rest).
Proof.
  intros Hsep Hclose Hok.
  induction Hok as [|r2 rs Hr2 Hrs IH]; intros r fuel ws rest [Hr _] Hws Hfuel;
    unfold needs in Hfuel; cbn [map list_sum fold_right] in Hfuel;
    (destruct fuel as [|fuel]; [lia|]); rewrite parse_elements_unfold.
  - cbn [map join]. rewrite (parse_value_ws fuel ws _ Hws).
    rewrite (Hr fuel (closews ++ "]"%char :: rest)) by
      (first [lia | apply delimited_close; [exact Hclose|reflexivity]]).
    rewrite (skip_ws_close closews "]" rest Hclose eq_refl). reflexivity.
  - cbn [map]. rewrite join_cons2, <- !app_assoc.
    rewrite (parse_value_ws fuel ws _ Hws).
    cbn [app]. rewrite (Hr fuel) by (first [lia | reflexivity]).
    cbn [skip_ws]. change (is_ws ",") with false. cbn [Ascii.eqb Bool.eqb].
    change (r_text r2 :: map r_text rs) with (map r_text (r2 :: rs)).
    rewrite (IH r2 fuel sepws rest Hr2 Hsep)
      by (unfold needs; cbn [map list_sum fold_right]; lia).
    reflexivity.
Qed.

Lemma iterencode_list_app (level : nat) (t : list ascii) (ts : list (list ascii))
      (rest : list ascii) :
  iterencode_list level (t :: ts) ++ rest
  = "["%char :: newline_indent (S level)
    ++ join (","%char :: newline_indent (S level)) (t :: ts)
    ++ newline_indent level ++ "]"%char :: rest.
Proof.
  unfold iterencode_list. cbn [app]. rewrite <- !app_assoc. reflexivity.
Qed.

Lemma skip_ws_value_head (ws t rest : list ascii) :
  forallb is_ws ws = true -> value_head t ->
  exists c tl, skip_ws (ws ++ t ++ rest) = c :: tl /\ Ascii.eqb c "]" = false.
Proof.
  intros Hws Ht. destruct t as [|c tl]; [destruct Ht|]. destruct Ht as [Hc Hb].
  exists c, (tl ++ rest). split; [|exact Hb].
  cbn [app]. apply skip_ws_close; assumption.
Qed.

Lemma join_head (sep t : list ascii) (ts : list (list ascii)) :
  exists tail, join sep (t :: ts) = t ++ tail.
Proof.
  destruct ts as [|t2 ts].
  - exists []. cbn. symmetry. apply app_nil_r.
  - exists (sep ++ join sep (t2 :: ts)). reflexivity.
Qed.

Lemma reads_as_list (level : nat) (rs : list reading) :
  Forall reading_ok rs ->
  reads_as (iterencode_list level (map r_text rs)) (PList (map r_value rs))
           (S (needs rs)).
Proof.
  intros Hok fuel rest Hfuel _. destruct fuel as [|fuel]; [lia|].
  destruct Hok as [|r rs Hr Hrs]; [reflexivity|].
  cbn [map]. rewrite iterencode_list_app, parse_value_unfold.
  cbn [skip_ws]. change (is_ws "[") with false. cbn [Ascii.eqb Bool.eqb dquote].
  change (r_text r :: map r_text rs) with (map r_text (r :: rs)).
  assert (Hs : exists c tl,
             skip_ws (newline_indent (S level)
                      ++ join (","%char :: newline_indent (S level)) (map r_text (r :: rs))
                      ++ newline_indent level ++ "]"%char :: rest) = c :: tl
             /\ Ascii.eqb c "]" = false).
  { destruct (join_head (","%char :: newline_indent (S level)) (r_text r)
                (map r_text rs)) as [tail Htail].
    cbn [map]. rewrite Htail, <- app_assoc.
    apply skip_ws_value_head; [apply newline_indent_ws|exact (proj2 Hr)]. }
  destruct Hs as (c & tl & Hs & Hc). rewrite Hs, Hc.
  rewrite (parse_elements_join _ _ rs (newline_indent_ws _) (newline_indent_ws _)
             Hrs r fuel _ rest Hr (newline_indent_ws _)) by lia.
  reflexivity.
Qed.

Lemma member_text_app (m : string * reading) (rest : list ascii) :
  member_text m ++ rest
  = dquote :: escape_chars (fst m)
    ++ dquote :: ":"%char :: " "%char :: r_text (snd m) ++ rest.
Proof.
  unfold member_text, encode_item, encode_basestring_ascii. cbn [fst snd app].
  rewrite <- !app_assoc. reflexivity.
Qed.

Lemma parse_value_space (fuel : nat) (s : list ascii) :
  parse_value fuel (" "%char :: s) = parse_value fuel s.
Proof. exact (parse_value_ws fuel [" "%char] s eq_refl). Qed.

(** The members of a dict, after the opening brace. *)
Lemma parse_members_join (sepws closews : list ascii) (ms : list (string * reading)) :
  forallb is_ws sepws = true -> forallb is_ws closews = true ->
  Forall (fun m => reading_ok (snd m)) ms ->
  forall m fuel ws rest,
    reading_ok (snd m) -> forallb is_ws ws = true ->
    (needs (map snd (m :: ms)) <= fuel)%nat ->
    parse_members fuel
      (ws ++ join (","%char :: sepws) (map member_text (m :: ms))
          ++ closews ++ "}"%char :: rest)
    = Some (map member_value (m :: ms), rest).
Proof.
  intros Hsep Hclose Hok.
  induction Hok as [|m2 ms Hm2 Hms IH]; intros m fuel ws rest [Hm _] Hws Hfuel;
    unfold needs in Hfuel; cbn [map list_sum fold_right] in Hfuel;
    (destruct fuel as [|fuel]; [lia|]); rewrite parse_members_unfold.
  - cbn [map join]. rewrite member_text_app.
    rewrite (skip_ws_close ws dquote _ Hws eq_refl).
    cbn [Ascii.eqb Bool.eqb dquote]. rewrite parse_string_escaped.
    cbn [skip_ws]. change (is_ws ":") with false. cbn [Ascii.eqb Bool.eqb].
    rewrite parse_value_space.
    rewrite (Hm fuel (closews ++ "}"%char :: rest)) by
      (first [lia | apply delimited_close; [exact Hclose|reflexivity]]).
    rewrite (skip_ws_close closews "}" rest Hclose eq_refl). reflexivity.
  - cbn [map]. rewrite join_cons2, <- !app_assoc, member_text_app.
    rewrite (skip_ws_close ws dquote _ Hws eq_refl).
    cbn [Ascii.eqb Bool.eqb dquote]. rewrite parse_string_escaped.
    cbn [skip_ws]. change (is_ws ":") with false. cbn [Ascii.eqb Bool.eqb].
    rewrite parse_value_space.
    cbn [app]. rewrite (Hm fuel) by (first [lia | reflexivity]).
    cbn [skip_ws]. change (is_ws ",") with false. cbn [Ascii.eqb Bool.eqb].
    change (member_text m2 :: map member_text ms) with (map member_text (m2 :: ms)).
    rewrite (IH m2 fuel sepws rest Hm2 Hsep)
      by (unfold needs; cbn [map list_sum fold_right]; lia).
    reflexivity.
Qed.

Lemma iterencode_dict_members (level : nat) (ms : list (string * reading)) :
  iterencode_dict level (map (fun m => (fst m, r_text (snd m))) ms)
  = match ms with
    | [] => chars "{}"
    | _ => "{"%char :: newline_indent (S level)
           ++ join (","%char :: newline_indent (S level)) (map member_text ms)
           ++ newline_indent level ++ ["}"%char]
    end.
Proof.
  destruct ms as [|m ms]; [reflexivity|].
  unfold iterencode_dict. cbn [map]. rewrite map_map. reflexivity.
Qed.

Lemma reads_as_dict (level : nat) (ms : list (string * reading)) :
  Forall (fun m => reading_ok (snd m)) ms ->
  reads_as (iterencode_dict level (map (fun m => (fst m, r_text (snd m))) ms))
           (PDict (map member_value ms))
           (S (needs (map snd ms))).
Proof.
  intros Hok fuel rest Hfuel _. destruct fuel as [|fuel]; [lia|].
  rewrite iterencode_dict_members.
  destruct Hok as [|m ms Hm Hms]; [reflexivity|].
  cbn [app]. rewrite <- !app_assoc. cbn [app].
  rewrite parse_value_unfold.
  cbn [skip_ws]. change (is_ws "{") with false. cbn [Ascii.eqb Bool.eqb dquote].
  assert (Hs : exists tl,
             skip_ws (newline_indent (S level)
                      ++ join (","%char :: newline_indent (S level))
                           (map member_text (m :: ms))
                      ++ newline_indent level ++ "}"%char :: rest) = dquote :: tl).
  { destruct (join_head (","%char :: newline_indent (S level)) (member_text m)
                (map member_text ms)) as [tail Htail].
    cbn [map]. rewrite Htail, <- app_assoc, member_text_app.
    eexists. apply skip_ws_close; [apply newline_indent_ws|reflexivity]. }
  destruct Hs as (tl & Hs). rewrite Hs. cbn [Ascii.eqb Bool.eqb dquote].
  rewrite (parse_members_join _ _ ms (newline_indent_ws _) (newline_indent_ws _)
             Hms m fuel _ rest Hm (newline_indent_ws _)) by lia.
  reflexivity.
Qed.

(** Sorting the items of a dict. *)

Lemma insert_item_map {A B : Type} (f : A -> B) (k : string) (x : A)
      (l : list (string * A)) :
  insert_item (k, f x) (map (fun kv => match kv with (k', y) => (k', f y) end) l)
  = map (fun kv => match kv with (k', y) => (k', f y) end) (insert_item (k, x) l).
Proof.
  induction l as [|[k' y] l IH]; [reflexivity|].
  cbn [map insert_item fst]. destruct (String.leb k k'); [reflexivity|].
  cbn [map]. rewrite IH. reflexivity.
Qed.

Lemma sorted_items_map {A B : Type} (f : A -> B) (d : list (string * A)) :
  sorted_items (map (fun kv => match kv with (k, x) => (k, f x) end) d)
  = map (fun kv => match kv with (k, x) => (k, f x) end) (sorted_items d).
Proof.
  induction d as [|[k x] d IH]; [reflexivity|].
  cbn [map sorted_items fold_right]. fold (sorted_items d).
  change (fold_right insert_item [] (map (fun kv => match kv with (k0, x0) => (k0, f x0) end) d))
    with (sorted_items (map (fun kv => match kv with (k0, x0) => (k0, f x0) end) d)).
  rewrite IH. apply insert_item_map.
Qed.

Lemma Forall_insert_item {V : Type} (P : string * V -> Prop) (kv : string * V)
      (l : list (string * V)) :
  P kv -> Forall P l -> Forall P (insert_item kv l).
Proof.
  intros Hkv Hl. induction Hl as [|kv' l Hkv' Hl IH]; cbn [insert_item].
  - constructor; [exact Hkv|constructor].
  - destruct (String.leb (fst kv) (fst kv')).
    + constructor; [exact Hkv|]. constructor; assumption.
    + constructor; assumption.
Qed.

Lemma Forall_sorted_items {V : Type} (P : string * V -> Prop) (d : list (string * V)) :
  Forall P d -> Forall P (sorted_items d).
Proof.
  intros H. induction H as [|kv d Hkv Hd IH]; [constructor|].
  cbn [sorted_items fold_right]. apply Forall_insert_item; assumption.
Qed.

Lemma list_sum_step (x : nat) (l : list nat) :
  list_sum (x :: l) = (x + list_sum l)%nat.
Proof. reflexivity. Qed.

Lemma insert_item_sum {V : Type} (g : string * V -> nat) (kv : string * V)
      (l : list (string * V)) :
  list_sum (map g (insert_item kv l)) = (g kv + list_sum (map g l))%nat.
Proof.
  induction l as [|kv' l IH]; [reflexivity|].
  cbn [insert_item]. destruct (String.leb (fst kv) (fst kv')); [reflexivity|].
  cbn [map]. rewrite !list_sum_step, IH. lia.
Qed.

Lemma sorted_items_sum {V : Type} (g : string * V -> nat) (d : list (string * V)) :
  list_sum (map g (sorted_items d)) = list_sum (map g d).
Proof.
  induction d as [|kv d IH]; [reflexivity|].
  cbn [sorted_items fold_right]. fold (sorted_items d).
  rewrite insert_item_sum. cbn [map]. rewrite list_sum_step, IH. reflexivity.
Qed.

(** ** Reading the structured output back: documents *)

Lemma iterencode_dict_sorted (level : nat) (d : list (string * pyval)) :
  iterencode level (PDict d)
  = iterencode_dict level
      (map (fun m => (fst m, r_text (snd m)))
           (map (fun kv => match kv with (k, x) => (k, reading_of (S level) x) end)
                (sorted_items d))).
Proof.
  cbn [iterencode]. rewrite sorted_items_map, map_map. f_equal.
  apply map_ext. intros [k x]. reflexivity.
Qed.

Lemma sort_keys_dict_sorted (level : nat) (d : list (string * pyval)) :
  sort_keys (PDict d)
  = PDict (map member_value
             (map (fun kv => match kv with (k, x) => (k, reading_of (S level) x) end)
                  (sorted_items d))).
Proof.
  cbn [sort_keys]. rewrite sorted_items_map, map_map. f_equal.
  apply map_ext. intros [k x]. reflexivity.
Qed.

Lemma fuel_of_dict_sorted (level : nat) (d : list (string * pyval)) :
  fuel_of (PDict d)
  = S (needs (map snd
                (map (fun kv => match kv with (k, x) => (k, reading_of (S level) x) end)
                     (sorted_items d)))).
Proof.
  cbn [fuel_of]. f_equal. unfold needs. rewrite !map_map.
  rewrite <- (sorted_items_sum (fun kv => match kv with (_, x) => S (fuel_of x) end) d).
  f_equal. apply map_ext. intros [k x]. reflexivity.
Qed.

(** Every document whose floats have their tokens reads back, at any
    level of indentation, as the document with its keys in order. *)
Lemma iterencode_reading (v : pyval) :
  json_ok v = true -> forall level, reading_ok (reading_of level v).
Proof.
  induction v as [| b | n | f | s | l IH | d IH] using pyval_ind';
    intros Hok level; unfold reading_ok, reading_of; cbn [r_text r_value r_need].
  - split; [apply (reads_as_literal "null"); cbn; tauto|split; reflexivity].
  - destruct b; cbn [iterencode sort_keys fuel_of].
    + split; [apply (reads_as_literal "true"); cbn; tauto|split; reflexivity].
    + split; [apply (reads_as_literal "false"); cbn; tauto|split; reflexivity].
  - cbn [iterencode sort_keys fuel_of].
    split; [apply number_token_reads|apply (number_token_value_head _ (PInt n))];
      apply int_str_token.
  - cbn [iterencode sort_keys fuel_of]. cbn [json_ok] in Hok.
    split; [apply reads_as_float|apply value_head_float]; exact Hok.
  - cbn [iterencode sort_keys fuel_of].
    split; [apply reads_as_string|split; reflexivity].
  - cbn [json_ok] in Hok. rewrite forallb_forall in Hok.
    assert (Hrs : Forall reading_ok (map (reading_of (S level)) l)).
    { apply List.Forall_map. rewrite List.Forall_forall in IH |- *.
      intros x Hx. apply IH; [exact Hx|]. apply Hok. exact Hx. }
    split.
    + pose proof (reads_as_list level _ Hrs) as H.
      rewrite !map_map in H. cbn [iterencode sort_keys fuel_of].
      unfold needs in H. rewrite map_map in H. exact H.
    + cbn [iterencode]. destruct l; split; reflexivity.
  - cbn [json_ok] in Hok. rewrite forallb_forall in Hok.
    assert (Hms : Forall (fun m => reading_ok (snd m))
                    (map (fun kv => match kv with
                                    | (k, x) => (k, reading_of (S level) x)
                                    end) (sorted_items d))).
    { apply List.Forall_map, Forall_sorted_items.
      rewrite List.Forall_forall in IH |- *.
      intros [k x] Hx. cbn [snd]. apply (IH (k, x) Hx). exact (Hok (k, x) Hx). }
    split.
    + rewrite (iterencode_dict_sorted level), (sort_keys_dict_sorted level),
        (fuel_of_dict_sorted level).
      apply reads_as_dict, Hms.
    + rewrite (iterencode_dict_sorted level), iterencode_dict_members.
      destruct (map _ (sorted_items d)); split; reflexivity.
Qed.

(** The fuel [json_loads] gives is enough. *)

Lemma join_length_bound (sep : list ascii) (ns : list nat) (ts : list (list ascii)) :
  Forall2 (fun n t => (n <= S (length t))%nat) ns ts -> (2 <= length sep)%nat ->
  (list_sum (map S ns) <= length (join sep ts) + 2)%nat.
Proof.
  intros H Hsep. induction H as [|n t ns ts Hnt H IH]; [cbn; lia|].
  cbn [map]. rewrite list_sum_step.
  destruct H as [|n2 t2 ns ts Hnt2 H].
  - cbn. lia.
  - rewrite join_cons2, !length_app. lia.
Qed.

Lemma newline_indent_length (level : nat) :
  length (newline_indent level) = S (2 * level).
Proof. unfold newline_indent. cbn [length]. rewrite repeat_length. reflexivity. Qed.

Lemma encode_item_length (k : string) (t : list ascii) :
  (length t <= length (encode_item (k, t)))%nat.
Proof. unfold encode_item. cbn [fst snd]. rewrite !length_app. lia. Qed.

Lemma fuel_of_length (v : pyval) (level : nat) :
  (fuel_of v <= S (length (iterencode level v)))%nat.
Proof.
  revert level.
  induction v as [| b | n | f | s | l IH | d IH] using pyval_ind'; intros level;
    try (cbn [fuel_of]; lia).
  - cbn [fuel_of iterencode].
    assert (Hb : (list_sum (map S (map fuel_of l))
                  <= length (join (","%char :: newline_indent (S level))
                               (map (iterencode (S level)) l)) + 2)%nat).
    { apply join_length_bound; [|cbn; lia].
      apply Forall2_fmap, Forall_Forall2_diag.
      eapply Forall_impl; [exact IH|]. intros x Hx. apply Hx. }
    rewrite map_map in Hb.
    destruct l as [|x l]; [cbn; lia|].
    unfold iterencode_list. cbn [map] in *. cbn [length].
    rewrite !length_app, !newline_indent_length. cbn [length]. lia.
  - rewrite (fuel_of_dict_sorted level), (iterencode_dict_sorted level),
      iterencode_dict_members.
    set (ms := map (fun kv => match kv with
                              | (k, x) => (k, reading_of (S level) x)
                              end) (sorted_items d)).
    assert (Hms : Forall (fun m => (r_need (snd m) <= S (length (member_text m)))%nat) ms).
    { apply List.Forall_map, Forall_sorted_items.
      eapply Forall_impl; [exact IH|]. intros [k x] Hx. cbn [snd] in *.
      unfold member_text. cbn [fst snd reading_of r_text r_need].
      pose proof (Hx (S level)). pose proof (encode_item_length k (iterencode (S level) x)).
      lia. }
    assert (Hb : (list_sum (map S (map (fun m => r_need (snd m)) ms))
                  <= length (join (","%char :: newline_indent (S level))
                               (map member_text ms)) + 2)%nat).
    { apply join_length_bound; [|cbn; lia].
      apply Forall2_fmap, Forall_Forall2_diag. exact Hms. }
    unfold needs. rewrite !map_map in *.
    destruct ms as [|m ms']; [cbn; lia|].
    cbn [length]. rewrite !length_app, !newline_indent_length. cbn [length]. lia.
Qed.

(** What [json.dumps] writes reads back as the document with the
    keys of every dict in order. *)
Lemma json_loads_dumps (v : pyval) :
  json_ok v = true -> json_loads (json_dumps v) = Some (sort_keys v).
Proof.
  intros Hok. unfold json_loads, json_dumps, chars.
  rewrite list_ascii_of_string_of_list_ascii.
  destruct (iterencode_reading v Hok 0) as [Hr _].
  cbn [reading_of r_text r_value r_need] in Hr.
  specialize (Hr (S (length (iterencode 0 v))) [] (fuel_of_length v 0) I).
  rewrite app_nil_r in Hr. rewrite Hr. reflexivity.
Qed.

(** ** The keys are in order *)

Lemma is_sorted_cons (k : string) (l : list string) :
  is_sorted (k :: l) = true <->
  match l with [] => True | k' :: _ => String.leb k k' = true end
  /\ is_sorted l = true.
Proof.
  destruct l as [|k' l]; cbn [is_sorted].
  - tauto.
  - rewrite andb_true_iff. reflexivity.
Qed.

Lemma leb_false_flip (a b : string) : String.leb a b = false -> String.leb b a = true.
Proof. intros H. destruct (String.leb_total a b) as [H'|H']; congruence. Qed.

Lemma insert_item_sorted {V : Type} (kv : string * V) (l : list (string * V)) :
  is_sorted (map fst l) = true -> is_sorted (map fst (insert_item kv l)) = true.
Proof.
  induction l as [|kv' l IH]; intros Hl; [reflexivity|].
  cbn [insert_item]. destruct (String.leb (fst kv) (fst kv')) eqn:Hle.
  - cbn [map]. apply is_sorted_cons. split; [exact Hle|exact Hl].
  - cbn [map] in *. apply is_sorted_cons in Hl as [Hhd Hl].
    apply is_sorted_cons. split; [|apply IH, Hl].
    destruct l as [|kv'' l]; cbn [insert_item map].
    + apply leb_false_flip, Hle.
    + destruct (String.leb (fst kv) (fst kv'')); cbn [map].
      * apply leb_false_flip, Hle.
      * exact Hhd.
Qed.

Lemma sorted_items_sorted {V : Type} (d : list (string * V)) :
  is_sorted (map fst (sorted_items d)) = true.
Proof.
  induction d as [|kv d IH]; [reflexivity|].
  cbn [sorted_items fold_right]. apply insert_item_sorted, IH.
Qed.

Lemma keys_sorted_sort_keys (v : pyval) : keys_sorted (sort_keys v) = true.
Proof.
  induction v as [| b | n | f | s | l IH | d IH] using pyval_ind'; try reflexivity.
  - cbn [sort_keys keys_sorted]. apply forallb_forall. intros y Hy.
    apply in_map_iff in Hy as (x & <- & Hx).
    rewrite List.Forall_forall in IH. apply IH, Hx.
  - cbn [sort_keys keys_sorted]. apply andb_true_intro. split.
    + apply sorted_items_sorted.
    + apply forallb_forall. rewrite <- List.Forall_forall.
      apply Forall_sorted_items, List.Forall_map.
      eapply Forall_impl; [exact IH|]. intros [k x] Hx. exact Hx.
Qed.

(** ** Two spaces for each level *)

Lemma render_lines_one (l : line) : render_lines [ l ] = render_line l.
Proof. reflexivity. Qed.

Lemma render_lines_cons2 (l l2 : line) (ls : list line) :
  render_lines (l :: l2 :: ls) = render_line l ++ newline :: render_lines (l2 :: ls).
Proof. reflexivity. Qed.

Lemma render_lines_app (a b : list line) :
  a <> [] -> b <> [] ->
  render_lines (a ++ b) = render_lines a ++ newline :: render_lines b.
Proof.
  intros Ha Hb. induction a as [|l a IH]; [congruence|].
  destruct a as [|l2 a].
  - destruct b as [|l3 b]; [congruence|]. reflexivity.
  - change ((l :: l2 :: a) ++ b) with (l :: l2 :: (a ++ b)).
    rewrite !render_lines_cons2.
    change (l2 :: a ++ b) with ((l2 :: a) ++ b).
    rewrite IH by discriminate. rewrite <- app_assoc. reflexivity.
Qed.

Lemma with_suffix_head (s : list ascii) (d : nat) (t : list ascii) (rest : list line) :
  exists t' rest', with_suffix s ((d, t) :: rest) = (d, t') :: rest'.
Proof. destruct rest as [|l rest]; cbn; eauto. Qed.

Lemma render_with_suffix (s : list ascii) (b : list line) :
  b <> [] -> render_lines (with_suffix s b) = render_lines b ++ s.
Proof.
  intros Hb. induction b as [|[d t] b IH]; [congruence|].
  destruct b as [|l2 b].
  - cbn [with_suffix]. rewrite !render_lines_one. unfold render_line. cbn [fst snd].
    rewrite <- app_assoc. reflexivity.
  - change (with_suffix s ((d, t) :: l2 :: b))
      with ([ (d, t) ] ++ with_suffix s (l2 :: b)).
    change ((d, t) :: l2 :: b) with ([ (d, t) ] ++ l2 :: b).
    destruct l2 as [d2 t2].
    destruct (with_suffix_head s d2 t2 b) as (t' & rest' & Hw).
    rewrite (render_lines_app [ (d, t) ] ((d2, t2) :: b)) by discriminate.
    rewrite (render_lines_app [ (d, t) ] (with_suffix s ((d2, t2) :: b)))
      by (first [discriminate | rewrite Hw; discriminate]).
    rewrite IH by discriminate. rewrite <- app_assoc. reflexivity.
Qed.

Lemma block_ok_one (d : nat) (x : list ascii) : block_ok d x [ (d, x) ].
Proof. split; [eauto|reflexivity]. Qed.

Lemma block_ok_suffix (d : nat) (x s : list ascii) (b : list line) :
  block_ok d x b -> block_ok d (x ++ s) (with_suffix s b).
Proof.
  intros [(t & rest & ->) Hr]. split.
  - apply with_suffix_head.
  - rewrite render_with_suffix by discriminate. rewrite Hr, <- app_assoc. reflexivity.
Qed.

Lemma render_lines_head (d : nat) (t : list ascii) (rest : list line) :
  render_lines ((d, t) :: rest)
  = indentation d ++ t ++ match rest with
                          | [] => []
                          | _ => newline :: render_lines rest
                          end.
Proof.
  destruct rest as [|l rest].
  - rewrite render_lines_one, app_nil_r. reflexivity.
  - change ((d, t) :: l :: rest) with ([ (d, t) ] ++ l :: rest).
    rewrite render_lines_app by discriminate.
    rewrite render_lines_one. unfold render_line. cbn [fst snd].
    rewrite <- app_assoc. reflexivity.
Qed.

Lemma block_ok_prefix (d : nat) (p x : list ascii) (b : list line) :
  block_ok d x b -> block_ok d (p ++ x) (with_prefix p b).
Proof.
  intros [(t & rest & ->) Hr]. split; [cbn; eauto|].
  cbn [with_prefix]. rewrite render_lines_head in *.
  apply app_inv_head in Hr. rewrite <- Hr, <- app_assoc. reflexivity.
Qed.

Lemma block_ok_app (d d' : nat) (x y : list ascii) (a b : list line) :
  block_ok d x a -> block_ok d' y b ->
  block_ok d (x ++ newline_indent d' ++ y) (a ++ b).
Proof.
  intros [(t & rest & ->) Ha] [(t' & rest' & ->) Hb]. split; [cbn; eauto|].
  rewrite render_lines_app by discriminate. rewrite Ha, Hb.
  rewrite <- app_assoc. reflexivity.
Qed.

(** The elements of a container, with their commas. *)
Lemma block_ok_commas (d : nat) (ps : list (list line * list ascii)) :
  Forall (fun p => block_ok d (snd p) (fst p)) ps ->
  forall p, block_ok d (snd p) (fst p) ->
  block_ok d (join (","%char :: newline_indent d) (map snd (p :: ps)))
           (commas (map fst (p :: ps))).
Proof.
  intros Hps. induction Hps as [|p2 ps Hp2 Hps IH]; intros p Hp.
  - exact Hp.
  - cbn [map]. rewrite join_cons2.
    change (commas (fst p :: fst p2 :: map fst ps))
      with (with_suffix [ ","%char ] (fst p) ++ commas (map fst (p2 :: ps))).
    pose proof (block_ok_app d d _ _ _ _
                  (block_ok_suffix d _ [ ","%char ] _ Hp) (IH p2 Hp2)) as H.
    rewrite <- app_assoc in H. exact H.
Qed.

Lemma block_ok_bracket (d : nat) (opening closing : ascii)
      (p : list line * list ascii) (ps : list (list line * list ascii)) :
  Forall (fun q => block_ok (S d) (snd q) (fst q)) (p :: ps) ->
  block_ok d
    (opening :: newline_indent (S d)
     ++ join (","%char :: newline_indent (S d)) (map snd (p :: ps))
     ++ newline_indent d ++ [ closing ])
    ((d, [ opening ]) :: commas (map fst (p :: ps)) ++ [ (d, [ closing ]) ]).
Proof.
  intros H. inversion H as [|? ? Hp Hps]; subst.
  pose proof (block_ok_commas (S d) ps Hps p Hp) as Hc.
  pose proof (block_ok_app (S d) d _ _ _ _ Hc (block_ok_one d [ closing ])) as H1.
  pose proof (block_ok_app d (S d) _ _ _ _ (block_ok_one d [ opening ]) H1) as H2.
  exact H2.
Qed.

Lemma layout_dict_sorted (depth : nat) (d : list (string * pyval)) :
  layout depth (PDict d)
  = layout_dict depth
      (map (fun kv => match kv with (k, x) => (k, layout (S depth) x) end)
           (sorted_items d)).
Proof. cbn [layout]. rewrite sorted_items_map. reflexivity. Qed.

Lemma iterencode_dict_sorted' (level : nat) (d : list (string * pyval)) :
  iterencode level (PDict d)
  = iterencode_dict level
      (map (fun kv => match kv with (k, x) => (k, iterencode (S level) x) end)
           (sorted_items d)).
Proof. cbn [iterencode]. rewrite sorted_items_map. reflexivity. Qed.

(** The lines of a document print as [json.dumps] writes it. *)
Lemma layout_block (v : pyval) :
  forall depth, block_ok depth (iterencode depth v) (layout depth v).
Proof.
  induction v as [| b | n | f | s | l IH | d IH] using pyval_ind'; intros depth;
    try apply block_ok_one.
  - cbn [layout iterencode].
    destruct l as [|x l]; [apply block_ok_one|].
    assert (H : Forall (fun q => block_ok (S depth) (snd q) (fst q))
                  (map (fun y => (layout (S depth) y, iterencode (S depth) y)) (x :: l))).
    { apply List.Forall_map. eapply Forall_impl; [exact IH|].
      intros y Hy. apply Hy. }
    cbn [map] in H. pose proof (block_ok_bracket depth "[" "]" _ _ H) as Hb.
    cbn [map fst snd] in Hb. rewrite !map_map in Hb. cbn [fst snd] in Hb.
    exact Hb.
  - rewrite layout_dict_sorted, iterencode_dict_sorted'.
    assert (H : Forall (fun q => block_ok (S depth) (snd q) (fst q))
                  (map (fun kv => match kv with
                                  | (k, x) =>
                                      (member_block (k, layout (S depth) x),
                                       encode_item (k, iterencode (S depth) x))
                                  end) (sorted_items d))).
    { apply List.Forall_map, Forall_sorted_items.
      eapply Forall_impl; [exact IH|]. intros [k x] Hx. cbn [fst snd] in *.
      unfold member_block, encode_item. cbn [fst snd]. rewrite app_assoc.
      apply block_ok_prefix, Hx. }
    destruct (sorted_items d) as [|[k x] sd]; [apply block_ok_one|].
    cbn [map] in H. pose proof (block_ok_bracket depth "{" "}" _ _ H) as Hb.
    cbn [map fst snd] in Hb. rewrite !map_map in Hb.
    unfold layout_dict, iterencode_dict. cbn [map].
    rewrite !map_map.
    match goal with
    | Hb : block_ok _ (_ :: _ ++ join _ (_ :: ?m1) ++ _) (_ :: commas (_ :: ?m2) ++ _)
      |- block_ok _ (_ :: _ ++ join _ (_ :: ?n1) ++ _) (_ :: commas (_ :: ?n2) ++ _) =>
        replace n1 with m1 by (apply map_ext; intros [? ?]; reflexivity);
        replace n2 with m2 by (apply map_ext; intros [? ?]; reflexivity);
        exact Hb
    end.
Qed.

(** The texts of the lines. *)

Lemma text_ok_app (a b : list ascii) :
  text_ok a = true -> no_newline b = true -> text_ok (a ++ b) = true.
Proof.
  unfold text_ok, no_newline. intros Ha Hb. apply andb_prop in Ha as [Hd Hn].
  rewrite forallb_app, Hn, Hb. destruct a; [discriminate|]. cbn in *. rewrite Hd.
  reflexivity.
Qed.

Lemma text_ok_no_newline (t : list ascii) : text_ok t = true -> no_newline t = true.
Proof. unfold text_ok. intros H. apply andb_prop in H as [_ H]. exact H. Qed.

Lemma escape_char_no_newline (c : ascii) : no_newline (escape_char c) = true.
Proof. destruct c as [[] [] [] [] [] [] [] []]; reflexivity. Qed.

Lemma escape_chars_no_newline (s : string) : no_newline (escape_chars s) = true.
Proof.
  induction s as [|c s IH]; [reflexivity|].
  cbn [escape_chars]. unfold no_newline in *.
  rewrite forallb_app, IH, andb_true_r. apply escape_char_no_newline.
Qed.

Lemma encode_string_text_ok (s : string) : text_ok (encode_basestring_ascii s) = true.
Proof.
  unfold encode_basestring_ascii, text_ok. apply andb_true_intro. split; [reflexivity|].
  unfold no_newline. cbn [forallb]. rewrite forallb_app.
  pose proof (escape_chars_no_newline s) as H. unfold no_newline in H. rewrite H.
  reflexivity.
Qed.

Lemma num_char_dark (c : ascii) :
  is_num_char c = true ->
  negb (Ascii.eqb c " ") = true /\ negb (Ascii.eqb c newline) = true.
Proof.
  destruct c as [[] [] [] [] [] [] [] []]; intros H; try discriminate H;
    split; reflexivity.
Qed.

Lemma number_token_text_ok (tok : list ascii) (v : pyval) :
  number_token tok = Some v -> text_ok tok = true.
Proof.
  intros H. pose proof (number_token_chars tok v H) as Hc.
  destruct (number_token_head tok v H) as (c & tl & -> & _).
  unfold text_ok, no_newline. apply andb_true_intro. split.
  - cbn in Hc. apply andb_prop in Hc as [Hc _]. apply (num_char_dark c Hc).
  - apply forallb_forall. intros a Ha. rewrite forallb_forall in Hc.
    apply (num_char_dark a (Hc a Ha)).
Qed.

Lemma lines_ok_prefix (p : list ascii) (b : list line) :
  text_ok p = true -> lines_ok b -> lines_ok (with_prefix p b).
Proof.
  intros Hp Hb. destruct Hb as [|[d t] b Ht Hb]; [constructor|].
  cbn [with_prefix]. constructor; [|exact Hb]. cbn [snd] in *.
  apply text_ok_app; [exact Hp|apply text_ok_no_newline, Ht].
Qed.

Lemma lines_ok_suffix (s : list ascii) (b : list line) :
  no_newline s = true -> lines_ok b -> lines_ok (with_suffix s b).
Proof.
  intros Hs Hb. induction Hb as [|[d t] b Ht Hb IH]; [constructor|].
  destruct b as [|l2 b].
  - cbn [with_suffix]. constructor; [|constructor]. cbn [snd] in *.
    apply text_ok_app; assumption.
  - change (with_suffix s ((d, t) :: l2 :: b)) with ((d, t) :: with_suffix s (l2 :: b)).
    constructor; [exact Ht|exact IH].
Qed.

Lemma lines_ok_commas (blocks : list (list line)) :
  Forall lines_ok blocks -> lines_ok (commas blocks).
Proof.
  intros H. induction H as [|b blocks Hb Hbs IH]; [constructor|].
  destruct blocks as [|b2 blocks]; [exact Hb|].
  change (commas (b :: b2 :: blocks))
    with (with_suffix [ ","%char ] b ++ commas (b2 :: blocks)).
  apply Forall_app. split; [apply lines_ok_suffix; [reflexivity|exact Hb]|exact IH].
Qed.

Lemma lines_ok_one (d : nat) (t : list ascii) : text_ok t = true -> lines_ok [ (d, t) ].
Proof. intros H. constructor; [exact H|constructor]. Qed.

Lemma lines_ok_bracket (d : nat) (opening closing : ascii) (blocks : list (list line)) :
  text_ok [ opening ] = true -> text_ok [ closing ] = true ->
  Forall lines_ok blocks ->
  lines_ok ((d, [ opening ]) :: commas blocks ++ [ (d, [ closing ]) ]).
Proof.
  intros Ho Hc Hb. constructor; [exact Ho|].
  apply Forall_app. split; [apply lines_ok_commas, Hb|apply lines_ok_one, Hc].
Qed.

Lemma layout_lines_ok (v : pyval) :
  json_ok v = true -> forall depth, lines_ok (layout depth v).
Proof.
  induction v as [| b | n | f | s | l IH | d IH] using pyval_ind'; intros Hok depth.
  - apply lines_ok_one. reflexivity.
  - apply lines_ok_one. destruct b; reflexivity.
  - apply lines_ok_one. apply (number_token_text_ok _ (PInt n)), int_str_token.
  - apply lines_ok_one. cbn [iterencode]. cbn [json_ok] in Hok.
    destruct f as [| | |r]; try reflexivity.
    cbn [float_ok floatstr] in *.
    destruct (number_token (chars r)) as [v|] eqn:Hv; [|discriminate].
    exact (number_token_text_ok _ v Hv).
  - apply lines_ok_one. apply encode_string_text_ok.
  - cbn [json_ok] in Hok. rewrite forallb_forall in Hok.
    cbn [layout]. unfold layout_list.
    destruct l as [|x l]; [apply lines_ok_one; reflexivity|].
    apply lines_ok_bracket; try reflexivity.
    apply List.Forall_map. rewrite List.Forall_forall in IH |- *.
    intros y Hy. apply IH; [exact Hy|]. apply Hok, Hy.
  - cbn [json_ok] in Hok. rewrite forallb_forall in Hok.
    rewrite layout_dict_sorted. unfold layout_dict.
    destruct (sorted_items d) as [|kx sd] eqn:Hsd; [apply lines_ok_one; reflexivity|].
    rewrite <- Hsd.
    assert (H : Forall lines_ok
                  (map member_block
                       (map (fun kv => match kv with
                                       | (k, x) => (k, layout (S depth) x)
                                       end) (sorted_items d)))).
    { rewrite map_map. apply List.Forall_map, Forall_sorted_items.
      rewrite List.Forall_forall in IH |- *. intros [k x] Hx.
      unfold member_block. cbn [fst snd]. apply lines_ok_prefix.
      - apply text_ok_app; [apply encode_string_text_ok|reflexivity].
      - apply (IH (k, x) Hx). exact (Hok (k, x) Hx). }
    rewrite Hsd in *. cbn [map] in *.
    apply (lines_ok_bracket depth "{" "}" _ eq_refl eq_refl H).
Qed.

(** The lines of the text are the lines of the layout. *)

Lemma string_of_list_ascii_app (a b : list ascii) :
  string_of_list_ascii (a ++ b) = string_of_list_ascii a +:+ string_of_list_ascii b.
Proof.
  induction a as [|c a IH]; [reflexivity|].
  cbn [app string_of_list_ascii]. rewrite IH. reflexivity.
Qed.

Lemma string_of_join (ts : list (list ascii)) :
  string_of_list_ascii (join [ newline ] ts)
  = String.concat (String newline "") (map string_of_list_ascii ts).
Proof.
  induction ts as [|t ts IH]; [reflexivity|].
  destruct ts as [|t2 ts]; [reflexivity|].
  rewrite join_cons2, !string_of_list_ascii_app, IH. reflexivity.
Qed.

Lemma single_line_string (t : list ascii) :
  no_newline t = true -> single_line (string_of_list_ascii t) = true.
Proof.
  unfold single_line, no_newline. induction t as [|c t IH]; [reflexivity|].
  cbn [forallb string_of_list_ascii str_contains]. intros H.
  apply andb_prop in H as [Hc Ht]. apply negb_true_iff in Hc.
  rewrite Hc. cbn [orb]. apply IH, Ht.
Qed.

Lemma indentation_no_newline (d : nat) : no_newline (indentation d) = true.
Proof.
  unfold no_newline, indentation. apply forallb_forall. intros c Hc.
  apply repeat_spec in Hc. subst c. reflexivity.
Qed.

Lemma json_dumps_lines (v : pyval) :
  json_ok v = true ->
  json_dumps v
    = String.concat (String newline "") (map line_string (layout 0 v)) /\
  split_lines (json_dumps v) = map line_string (layout 0 v).
Proof.
  intros Hok.
  destruct (layout_block v 0) as [(t & rest & Hl) Hr].
  assert (Hd : json_dumps v
               = String.concat (String newline "") (map line_string (layout 0 v))).
  { unfold json_dumps. change (iterencode 0 v) with (indentation 0 ++ iterencode 0 v).
    rewrite <- Hr. unfold render_lines. rewrite string_of_join, map_map. reflexivity. }
  split; [exact Hd|]. rewrite Hd. apply split_lines_concat.
  - rewrite Hl. discriminate.
  - apply forallb_forall. intros s Hs. apply in_map_iff in Hs as (l & <- & Hin).
    pose proof (layout_lines_ok v Hok 0) as Hlines. unfold lines_ok in Hlines.
    rewrite List.Forall_forall in Hlines. specialize (Hlines l Hin).
    unfold line_string, render_line. apply single_line_string.
    unfold no_newline. rewrite forallb_app.
    pose proof (indentation_no_newline (fst l)) as Hi. unfold no_newline in Hi.
    rewrite Hi. apply text_ok_no_newline, Hlines.
Qed.

(** ** The structured output of [main] *)

Lemma top_level_keys_sorted (d : list (string * pyval)) :
  top_level_keys (sort_keys (PDict d)) = map fst (sorted_items d).
Proof.
  cbn [sort_keys top_level_keys]. rewrite sorted_items_map, map_map.
  apply map_ext. intros [k x]. reflexivity.
Qed.

Lemma main_json_run (P : string) (w : world) (report : pyval) :
  fst (build_report P w) = Ok report ->
  fst (main P true w) = Ok tt /\
  w_stdout (snd (main P true w)) = w_stdout w ++ [ json_dumps report ].
Proof.
  intros H. unfold main, entering, M_bind.
  set (w1 := {| w_host := w_host w; w_audio_helpers := w_audio_helpers w;
                w_stdout := w_stdout w; w_entered := w_entered w ++ [ "main" ] |}).
  assert (H1 : fst (build_report P w1) = Ok report).
  { rewrite build_report_run in *. exact H. }
  destruct (build_report_world P w1) as (_ & _ & Hout).
  destruct (build_report P w1) as [r w2]. cbn [fst snd] in *. subst r.
  unfold click_echo. cbn [fst snd w_stdout]. rewrite Hout. split; reflexivity.
Qed.

(** C3: with [--json], [main] prints [json.dumps] of the report. The
    text parses, and what it parses to is the report with the keys of
    every dict in order: its top-level keys are [audio_defaults],
    [audio_devices], [credentials], [reflection] and [runtime], and the
    keys are sorted at every level of nesting. The lines of the text
    are the lines of the layout: each is a text that does not start
    with a space, after two spaces for each level of its nesting
    depth. *)
Theorem json_output_structure (P : string) (w : world) (report : pyval) :
  fst (build_report P w) = Ok report ->
  json_ok report = true ->
  fst (main P true w) = Ok tt /\
  w_stdout (snd (main P true w)) = w_stdout w ++ [ json_dumps report ] /\
  exists doc : pyval,
    json_loads (json_dumps report) = Some doc /\
    doc = sort_keys report /\
    top_level_keys doc
      = [ "audio_defaults"; "audio_devices"; "credentials"; "reflection"; "runtime" ] /\
    (forall k, In k (top_level_keys doc) <->
               In k [ "runtime"; "audio_defaults"; "audio_devices"; "credentials";
                      "reflection" ]) /\
    keys_sorted doc = true /\
    split_lines (json_dumps report) = map line_string (layout 0 report) /\
    (forall l, In l (layout 0 report) ->
       line_string l = string_of_list_ascii (repeat " "%char (2 * fst l) ++ snd l) /\
       starts_dark (snd l) = true /\ no_newline (snd l) = true).
Proof.
  intros Hrun Hok.
  destruct (main_json_run P w report Hrun) as [Hm Hs].
  split; [exact Hm|]. split; [exact Hs|].
  exists (sort_keys report).
  split; [apply json_loads_dumps, Hok|]. split; [reflexivity|].
  assert (Hkeys : top_level_keys (sort_keys report)
                  = [ "audio_defaults"; "audio_devices"; "credentials"; "reflection";
                      "runtime" ]).
  { rewrite build_report_run in Hrun.
    destruct (os_getcwd (w_host w)); [|discriminate].
    destruct (sd_query_devices (w_host w)); [|discriminate].
    injection Hrun as <-. rewrite top_level_keys_sorted. reflexivity. }
  split; [exact Hkeys|]. split.
  { intros k. rewrite Hkeys. cbn. tauto. }
  split; [apply keys_sorted_sort_keys|].
  split; [apply json_dumps_lines, Hok|].
  intros l Hl. pose proof (layout_lines_ok report Hok 0) as Hlines.
  unfold lines_ok in Hlines. rewrite List.Forall_forall in Hlines.
  specialize (Hlines l Hl). unfold text_ok in Hlines.
  apply andb_prop in Hlines as [Hd Hn].
  split; [reflexivity|]. split; assumption.
Qed.

Lemma json_output_structure_witness :
  fst (build_report "/nonexistent/path" sample_world) = Ok sample_report /\
  json_ok sample_report = true /\
  fst (main "/nonexistent/path" true sample_world) = Ok tt /\
  w_stdout (snd (main "/nonexistent/path" true sample_world))
    = w_stdout sample_world ++ [ json_dumps sample_report ] /\
  exists doc : pyval,
    json_loads (json_dumps sample_report) = Some doc /\
    doc = sort_keys sample_report /\
    top_level_keys doc
      = [ "audio_defaults"; "audio_devices"; "credentials"; "reflection"; "runtime" ] /\
    (forall k, In k (top_level_keys doc) <->
               In k [ "runtime"; "audio_defaults"; "audio_devices"; "credentials";
                      "reflection" ]) /\
    keys_sorted doc = true /\
    split_lines (json_dumps sample_report) = map line_string (layout 0 sample_report) /\
    (forall l, In l (layout 0 sample_report) ->
       line_string l = string_of_list_ascii (repeat " "%char (2 * fst l) ++ snd l) /\
       starts_dark (snd l) = true /\ no_newline (snd l) = true).
Proof.
  assert (H1 : fst (build_report "/nonexistent/path" sample_world) = Ok sample_report)
    by (vm_compute; reflexivity).
  assert (H2 : json_ok sample_report = true) by (vm_compute; reflexivity).
  split; [exact H1|]. split; [exact H2|].
  exact (json_output_structure "/nonexistent/path" sample_world sample_report H1 H2).
Defined.

(** The scenario of a host with one device, [Built-in Mic], and a
    credentials path that does not exist. *)
Example json_output_scenario :
  exists doc, json_loads (json_dumps sample_report) = Some doc /\
    part doc "credentials"
      = PDict [ ("credentials_exists", PBool false);
                ("credentials_path", PStr "/nonexistent/path") ] /\
    part doc "audio_devices"
      = PList [ PDict [ ("default_samplerate", PFloat (FFinite "44100.0"));
                        ("hostapi", PNone);
                        ("index", PInt 0);
                        ("max_input_channels", PInt 2);
                        ("max_output_channels", PInt 0);
                        ("name", PStr "Built-in Mic") ] ].
Proof. eexists. split; [vm_compute; reflexivity|]. split; vm_compute; reflexivity. Qed.

(** * More of the program *)

(** ** Reports that [build_report] returns *)

Lemma formatted_devices_have_keys (l : list (Z * gmap string pyval)) :
  forallb (has_keys device_keys)
          (map (fun p => _format_device (snd p) (fst p)) l) = true.
Proof.
  apply forallb_forall. intros r Hr.
  apply in_map_iff in Hr as (p & <- & _). reflexivity.
Qed.

Lemma built_report_is_report (P : string) (w : world) (report : pyval) :
  fst (build_report P w) = Ok report -> is_report report = true.
Proof.
  rewrite build_report_run.
  destruct (os_getcwd (w_host w)) as [cwd|e]; [|discriminate].
  destruct (sd_query_devices (w_host w)) as [devices|e]; [|discriminate].
  intros [= <-]. unfold is_report.
  repeat (apply andb_true_intro; split); try reflexivity.
  change (part (PDict _) "audio_devices")
    with (PList (map (fun p => _format_device (snd p) (fst p)) (enumerate devices))).
  apply formatted_devices_have_keys.
Qed.

(** X1: whatever the host, a report that [build_report] returns is
    well formed: the five parts with their fields, the static
    reflection block, and a list of device records with the six
    fields each. *)
Theorem build_report_well_formed (P : string) (w : world) (report : pyval) :
  fst (build_report P w) = Ok report ->
  is_report report = true /\
  part report "reflection" = reflection_block /\
  exists devices : list (gmap string pyval),
    sd_query_devices (w_host w) = Ok devices /\
    length (entries (part report "audio_devices")) = length devices.
Proof.
  intros H. split; [exact (built_report_is_report P w report H)|].
  rewrite build_report_run in H.
  destruct (os_getcwd (w_host w)) as [cwd|e]; [|discriminate].
  destruct (sd_query_devices (w_host w)) as [devices|e]; [|discriminate].
  injection H as <-. split; [reflexivity|].
  exists devices. split; [reflexivity|].
  change (part (PDict _) "audio_devices")
    with (PList (map (fun p => _format_device (snd p) (fst p)) (enumerate devices))).
  cbn [entries]. rewrite length_map. apply enumerate_from_length.
Qed.

Lemma build_report_well_formed_witness :
  fst (build_report "/nonexistent/path" sample_world) = Ok sample_report /\
  is_report sample_report = true /\
  part sample_report "reflection" = reflection_block /\
  exists devices : list (gmap string pyval),
    sd_query_devices (w_host sample_world) = Ok devices /\
    length (entries (part sample_report "audio_devices")) = length devices.
Proof.
  assert (H : fst (build_report "/nonexistent/path" sample_world) = Ok sample_report)
    by (vm_compute; reflexivity).
  split; [exact H|].
  exact (build_report_well_formed "/nonexistent/path" sample_world sample_report H).
Defined.

(** ** What [main] does *)

(** [main] from the run of [build_report] on the same host. *)
Lemma main_run (P : string) (json_output : bool) (w : world) :
  w_host (snd (main P json_output w)) = w_host w /\
  match fst (build_report P w) with
  | Ok report =>
      fst (main P json_output w) = Ok tt /\
      w_stdout (snd (main P json_output w))
      = w_stdout w
        ++ [ if json_output then json_dumps report
             else String.concat (String newline "") (text_report_lines report) ]
  | Err e =>
      fst (main P json_output w) = Err e /\
      w_stdout (snd (main P json_output w)) = w_stdout w
  end.
Proof.
  unfold main, entering, M_bind.
  set (w1 := {| w_host := w_host w; w_audio_helpers := w_audio_helpers w;
                w_stdout := w_stdout w; w_entered := w_entered w ++ [ "main" ] |}).
  assert (H1 : fst (build_report P w1) = fst (build_report P w)).
  { rewrite !build_report_run. reflexivity. }
  destruct (build_report_world P w1) as (Hh & _ & Hout).
  pose proof (built_report_is_report P w1) as Hwf.
  destruct (build_report P w1) as [r w2]. cbn [fst snd] in *.
  rewrite <- H1. destruct r as [report|e].
  - destruct json_output.
    + unfold click_echo. cbn [fst snd w_host w_stdout]. rewrite Hh, Hout. auto.
    + unfold pure_result. rewrite (render_text_report_lines report (Hwf report eq_refl)).
      unfold click_echo. cbn [fst snd w_host w_stdout]. rewrite Hh, Hout. auto.
  - cbn [fst snd]. rewrite Hh, Hout. auto.
Qed.

(** X2: in either mode [main] fails exactly when [os.getcwd()] or the
    query of the audio devices fails, with the error of the first of
    the two that fails, and then prints nothing; otherwise it returns
    and standard output grows by one text. The host is as it was. *)
Theorem main_outcome (P : string) (json_output : bool) (w : world) :
  w_host (snd (main P json_output w)) = w_host w /\
  match os_getcwd (w_host w), sd_query_devices (w_host w) with
  | Ok _, Ok _ =>
      fst (main P json_output w) = Ok tt /\
      exists out, w_stdout (snd (main P json_output w)) = w_stdout w ++ [ out ]
  | Ok _, Err e | Err e, _ =>
      fst (main P json_output w) = Err e /\
      w_stdout (snd (main P json_output w)) = w_stdout w
  end.
Proof.
  destruct (main_run P json_output w) as [Hh Hm]. split; [exact Hh|].
  rewrite build_report_run in Hm.
  destruct (os_getcwd (w_host w)) as [cwd|e]; [|exact Hm].
  destruct (sd_query_devices (w_host w)) as [devices|e]; [|exact Hm].
  cbv beta iota in Hm. destruct Hm as [Hr Hs].
  split; [exact Hr|]. eexists. exact Hs.
Qed.

(** X3: the text mode never fails on a report that [build_report]
    returned: [main] prints the lines of that report, joined by
    newlines, and the first of them is the title. *)
Theorem main_text_output (P : string) (w : world) (report : pyval) :
  fst (build_report P w) = Ok report ->
  render_text_report report
    = Ok (String.concat (String newline "") (text_report_lines report)) /\
  fst (main P false w) = Ok tt /\
  w_stdout (snd (main P false w))
    = w_stdout w ++ [ String.concat (String newline "") (text_report_lines report) ] /\
  head (text_report_lines report) = Some "Google Assistant SDK self-diagnostics".
Proof.
  intros H.
  split; [apply render_text_report_lines, (built_report_is_report P w), H|].
  destruct (main_run P false w) as [_ Hm]. rewrite H in Hm.
  destruct Hm as [Hr Hs]. split; [exact Hr|]. split; [exact Hs|reflexivity].
Qed.

Lemma main_text_output_witness :
  fst (build_report "/nonexistent/path" sample_world) = Ok sample_report /\
  render_text_report sample_report
    = Ok (String.concat (String newline "") (text_report_lines sample_report)) /\
  fst (main "/nonexistent/path" false sample_world) = Ok tt /\
  w_stdout (snd (main "/nonexistent/path" false sample_world))
    = w_stdout sample_world
      ++ [ String.concat (String newline "") (text_report_lines sample_report) ] /\
  head (text_report_lines sample_report) = Some "Google Assistant SDK self-diagnostics".
Proof.
  assert (H : fst (build_report "/nonexistent/path" sample_world) = Ok sample_report)
    by (vm_compute; reflexivity).
  split; [exact H|].
  exact (main_text_output "/nonexistent/path" sample_world sample_report H).
Defined.

(** ** The text report, from the host *)

Lemma device_entry_formatted (device : gmap string pyval) (index : Z) :
  device_entry (_format_device device index) = device_text index device.
Proof. reflexivity. Qed.

Lemma built_report_text (P : string) (w : world) (cwd : string) (report : pyval)
      (devices : list (gmap string pyval)) :
  os_getcwd (w_host w) = Ok cwd ->
  sd_query_devices (w_host w) = Ok devices ->
  fst (build_report P w) = Ok report ->
  text_report_lines report
  = host_text_head P cwd w ++ "Audio devices:" :: host_device_lines devices.
Proof.
  intros Hc Hq H. rewrite build_report_run, Hc, Hq in H. injection H as <-.
  unfold text_report_lines, audio_devices_section, host_device_lines.
  change (part (PDict _) "audio_devices")
    with (PList (map (fun p => _format_device (snd p) (fst p)) (enumerate devices))).
  cbn [entries]. rewrite map_map.
  rewrite (map_ext (fun p => device_entry (_format_device (snd p) (fst p)))
                   (fun p => device_text (fst p) (snd p))
                   (fun p => device_entry_formatted (snd p) (fst p))).
  unfold host_text_head, runtime_section, audio_defaults_section, credentials_section.
  destruct (os_path_exists (w_host w) P) eqn:He;
    rewrite <- !app_assoc; reflexivity.
Qed.

(** X4: on a host where the process has a working directory and the
    audio driver answers, [main] in text mode returns and prints one
    text, and this text is, joined by newlines: the title and the
    static reflection block; the runtime section with the version, the
    executable, the platform, the working directory and the timestamp
    of the host; the audio defaults with the five constants of
    [audio_helpers] and PortAudio's two default devices in decimal;
    the credentials section with the path as it was given and [True]
    or [False] as [os.path.exists] answers; and the header of the
    devices with one entry for each device of the driver. *)
Theorem main_text_from_host (P : string) (w : world) (cwd : string)
        (devices : list (gmap string pyval)) :
  os_getcwd (w_host w) = Ok cwd ->
  sd_query_devices (w_host w) = Ok devices ->
  fst (main P false w) = Ok tt /\
  w_stdout (snd (main P false w))
  = w_stdout w
    ++ [ String.concat (String newline "")
           ([ "Google Assistant SDK self-diagnostics"; "" ]
            ++ reflection_section (PDict [ ("reflection", reflection_block) ])
            ++ [ "";
                 "Runtime:";
                 "  Python: " +:+ sys_version (w_host w);
                 "  Executable: " +:+ sys_executable (w_host w);
                 "  Platform: " +:+ platform_platform (w_host w);
                 "  CWD: " +:+ cwd;
                 "  Timestamp (UTC): " +:+ isoformat (datetime_utcnow (w_host w)) +:+ "Z";
                 "";
                 "Audio defaults:";
                 "  Sample rate: "
                   +:+ int_str (DEFAULT_AUDIO_SAMPLE_RATE (w_audio_helpers w));
                 "  Sample width: "
                   +:+ int_str (DEFAULT_AUDIO_SAMPLE_WIDTH (w_audio_helpers w));
                 "  Iter size: "
                   +:+ int_str (DEFAULT_AUDIO_ITER_SIZE (w_audio_helpers w));
                 "  Device block size: "
                   +:+ int_str (DEFAULT_AUDIO_DEVICE_BLOCK_SIZE (w_audio_helpers w));
                 "  Device flush size: "
                   +:+ int_str (DEFAULT_AUDIO_DEVICE_FLUSH_SIZE (w_audio_helpers w));
                 "  Default input device: "
                   +:+ int_str (Pa_GetDefaultInputDevice (w_host w));
                 "  Default output device: "
                   +:+ int_str (Pa_GetDefaultOutputDevice (w_host w));
                 "";
                 "Credentials:";
                 "  Path: " +:+ P;
                 "  Exists: "
                   +:+ (if os_path_exists (w_host w) P then "True" else "False");
                 "";
                 "Audio devices:" ]
            ++ map (fun p => device_text (fst p) (snd p)) (enumerate devices)) ].
Proof.
  intros Hc Hq. destruct (main_run P false w) as [_ Hm].
  destruct (fst (build_report P w)) as [report|e] eqn:Hb;
    [|rewrite build_report_run, Hc, Hq in Hb; discriminate].
  destruct Hm as [Hr Hs]. split; [exact Hr|].
  rewrite Hs, (built_report_text P w cwd report devices Hc Hq Hb).
  unfold host_text_head, host_device_lines. rewrite <- !app_assoc. reflexivity.
Qed.

Lemma main_text_from_host_witness :
  fst (main "/nonexistent/path" false sample_world) = Ok tt /\
  nth_error (w_stdout (snd (main "/nonexistent/path" false sample_world))) 0
  = Some (String.concat (String newline "")
            ([ "Google Assistant SDK self-diagnostics"; "" ]
             ++ reflection_section (PDict [ ("reflection", reflection_block) ])
             ++ [ "";
                  "Runtime:";
                  "  Python: 3.5.3 (default, Sep 27 2018, 17:25:39) "
                    +:+ String newline "[GCC 6.3.0 20170516]";
                  "  Executable: /usr/bin/python3";
                  "  Platform: Linux-4.14.79-v7+-armv7l-with-debian-9.4";
                  "  CWD: /home/pi";
                  "  Timestamp (UTC): 2018-03-07T09:05:00.001234Z";
                  "";
                  "Audio defaults:";
                  "  Sample rate: 16000";
                  "  Sample width: 2";
                  "  Iter size: 3200";
                  "  Device block size: 6400";
                  "  Device flush size: 25600";
                  "  Default input device: -1";
                  "  Default output device: 0";
                  "";
                  "Credentials:";
                  "  Path: /nonexistent/path";
                  "  Exists: False";
                  "";
                  "Audio devices:";
                  "  [0] Built-in Mic (in:2 out:0, rate:44100.0)" ])).
Proof.
  destruct (main_text_from_host "/nonexistent/path" sample_world "/home/pi"
              [ sample_device ] eq_refl eq_refl) as [Hr Hs].
  split; [exact Hr|]. rewrite Hs. vm_compute. reflexivity.
Defined.

Lemma host_device_lines_lookup (devices : list (gmap string pyval)) (k : nat)
      (d : gmap string pyval) :
  devices !! k = Some d ->
  host_device_lines devices !! k = Some (device_text (Z.of_nat k) d).
Proof.
  intros H. unfold host_device_lines, enumerate.
  rewrite list_lookup_fmap, (enumerate_from_lookup _ 0 _ _ H). reflexivity.
Qed.

(** The lines of the two devices of the witness. *)
Example device_lines_example :
  host_device_lines [ sample_device; nameless_device ]
  = [ "  [0] Built-in Mic (in:2 out:0, rate:44100.0)";
      "  [1] None (in:1 out:2, rate:48000.0)" ].
Proof. vm_compute. reflexivity. Qed.

Lemma device_text_same (i : Z) (d1 d2 : gmap string pyval) :
  same_printed_fields d1 d2 -> device_text i d1 = device_text i d2.
Proof.
  intros (H1 & H2 & H3 & H4). unfold device_text, dict_get.
  rewrite H1, H2, H3, H4. reflexivity.
Qed.

Lemma device_lines_same (ds1 ds2 : list (gmap string pyval)) :
  Forall2 same_printed_fields ds1 ds2 -> host_device_lines ds1 = host_device_lines ds2.
Proof.
  unfold host_device_lines, enumerate. generalize 0. intros start H. revert start.
  induction H as [|d1 d2 ds1 ds2 Hd Hds IH]; intros start; [reflexivity|].
  cbn [enumerate_from map fst snd]. rewrite (device_text_same start d1 d2 Hd), IH.
  reflexivity.
Qed.

(** X8: the text report shows of a device only its name, its two
    channel counts and its rate: on two hosts that differ only in what
    the descriptors hold under other keys ([hostapi], a key the report
    does not know, an [index] of the driver's own), [main] prints the
    same text. *)
Theorem text_ignores_unprinted_keys (P : string) (w1 w2 : world)
        (ds1 ds2 : list (gmap string pyval)) :
  same_host_but_devices (w_host w1) (w_host w2) ->
  w_audio_helpers w1 = w_audio_helpers w2 ->
  w_stdout w1 = w_stdout w2 ->
  sd_query_devices (w_host w1) = Ok ds1 ->
  sd_query_devices (w_host w2) = Ok ds2 ->
  Forall2 same_printed_fields ds1 ds2 ->
  w_stdout (snd (main P false w1)) = w_stdout (snd (main P false w2)).
Proof.
  intros (Ht & Hv & He & Hp & Hc & Hx & Hd) Ha Hs Hq1 Hq2 Hds.
  destruct (main_run P false w1) as [_ Hm1]. destruct (main_run P false w2) as [_ Hm2].
  destruct (os_getcwd (w_host w2)) as [cwd|e] eqn:Hc2.
  - destruct (fst (build_report P w1)) as [r1|e1] eqn:Hb1;
      [|rewrite build_report_run, Hc, Hq1 in Hb1; discriminate].
    destruct (fst (build_report P w2)) as [r2|e2] eqn:Hb2;
      [|rewrite build_report_run, Hc2, Hq2 in Hb2; discriminate].
    destruct Hm1 as [_ ->]. destruct Hm2 as [_ ->].
    rewrite (built_report_text P w1 cwd r1 ds1 Hc Hq1 Hb1),
      (built_report_text P w2 cwd r2 ds2 Hc2 Hq2 Hb2).
    rewrite (device_lines_same ds1 ds2 Hds), Hs.
    unfold host_text_head. rewrite Ht, Hv, He, Hp, Hx, Hd, Ha. reflexivity.
  - rewrite build_report_run, Hc in Hm1. rewrite build_report_run, Hc2 in Hm2.
    destruct Hm1 as [_ ->]. destruct Hm2 as [_ ->]. exact Hs.
Qed.

Lemma text_ignores_unprinted_keys_witness :
  same_host_but_devices (w_host sample_world)
                        (w_host (world_of (host_with_devices (Ok [ other_api_device ])))) /\
  w_audio_helpers sample_world
  = w_audio_helpers (world_of (host_with_devices (Ok [ other_api_device ]))) /\
  w_stdout sample_world
  = w_stdout (world_of (host_with_devices (Ok [ other_api_device ]))) /\
  sd_query_devices (w_host sample_world) = Ok [ sample_device ] /\
  sd_query_devices (w_host (world_of (host_with_devices (Ok [ other_api_device ]))))
  = Ok [ other_api_device ] /\
  Forall2 same_printed_fields [ sample_device ] [ other_api_device ] /\
  w_stdout (snd (main "/nonexistent/path" false sample_world))
  = w_stdout (snd (main "/nonexistent/path" false
                     (world_of (host_with_devices (Ok [ other_api_device ]))))).
Proof.
  assert (H1 : same_host_but_devices
                 (w_host sample_world)
                 (w_host (world_of (host_with_devices (Ok [ other_api_device ])))))
    by (repeat split; reflexivity).
  assert (H6 : Forall2 same_printed_fields [ sample_device ] [ other_api_device ]).
  { constructor; [|constructor]. repeat split; vm_compute; reflexivity. }
  split; [exact H1|]. split; [reflexivity|]. split; [reflexivity|].
  split; [reflexivity|]. split; [reflexivity|]. split; [exact H6|].
  exact (text_ignores_unprinted_keys "/nonexistent/path" sample_world
           (world_of (host_with_devices (Ok [ other_api_device ])))
           [ sample_device ] [ other_api_device ]
           H1 eq_refl eq_refl eq_refl eq_refl H6).
Defined.

(** ** The lines of the text report, on a host of single lines *)

Lemma str_contains_app (c : ascii) (a b : string) :
  str_contains c (a +:+ b) = str_contains c a || str_contains c b.
Proof.
  induction a as [|x a IH]; [reflexivity|].
  rewrite append_cons. cbn [str_contains]. rewrite IH, orb_assoc. reflexivity.
Qed.

Lemma single_line_app (a b : string) :
  single_line (a +:+ b) = single_line a && single_line b.
Proof. unfold single_line. rewrite str_contains_app. apply negb_orb. Qed.

Lemma single_line_chars (s : string) :
  no_newline (chars s) = true -> single_line s = true.
Proof. intros H. rewrite <- (string_of_chars s). apply single_line_string, H. Qed.

Lemma num_chars_no_newline (l : list ascii) :
  forallb is_num_char l = true -> no_newline l = true.
Proof.
  unfold no_newline. rewrite !forallb_forall. intros H c Hc.
  apply (num_char_dark c (H c Hc)).
Qed.

Lemma single_line_int_str (z : Z) : single_line (int_str z) = true.
Proof.
  apply single_line_chars, num_chars_no_newline.
  exact (number_token_chars _ _ (int_str_token z)).
Qed.

Lemma single_line_fmt (w : nat) (n : N) : single_line (fmt_0wd w n) = true.
Proof.
  apply single_line_chars, num_chars_no_newline, digits_num_chars.
  unfold fmt_0wd. cbv zeta. rewrite chars_app, chars_zeros, forallb_app, dec_N_digits.
  rewrite andb_true_r. apply forallb_forall. intros c Hc.
  apply repeat_spec in Hc. subst c. reflexivity.
Qed.

Lemma single_line_isoformat (t : datetime) : single_line (isoformat t) = true.
Proof.
  unfold isoformat. rewrite !single_line_app, !single_line_fmt.
  destruct (microsecond t =? 0)%N; [reflexivity|].
  rewrite single_line_app, single_line_fmt. reflexivity.
Qed.

Lemma single_line_device_text (i : Z) (d : gmap string pyval) :
  device_single_line d -> single_line (device_text i d) = true.
Proof.
  intros (H1 & H2 & H3 & H4). unfold device_text.
  rewrite !single_line_app, single_line_int_str, H1, H2, H3, H4. reflexivity.
Qed.

Lemma single_line_device_lines (devices : list (gmap string pyval)) :
  Forall device_single_line devices ->
  forallb single_line (host_device_lines devices) = true.
Proof.
  intros H. apply forallb_forall. intros s Hs.
  unfold host_device_lines in Hs. apply in_map_iff in Hs as ([i d] & <- & Hin).
  apply single_line_device_text. cbn [snd].
  rewrite List.Forall_forall in H. apply H.
  unfold enumerate in Hin. revert Hin. generalize 0.
  induction devices as [|d' devices IH]; intros start Hin; [destruct Hin|].
  cbn [enumerate_from] in Hin. destruct Hin as [Heq|Hin].
  - injection Heq as _ ->. left. reflexivity.
  - right. apply (IH (fun x Hx => H x (or_intror Hx)) (start + 1) Hin).
Qed.

Lemma single_line_text_head (P : string) (w : world) (cwd : string) :
  host_single_line P (w_host w) ->
  os_getcwd (w_host w) = Ok cwd ->
  forallb single_line (host_text_head P cwd w) = true.
Proof.
  intros (Hv & He & Hp & Hc & HP & Hi & Ho & _) Hcwd. rewrite Hcwd in Hc.
  unfold host_text_head. rewrite !forallb_app.
  apply andb_true_intro. split; [reflexivity|].
  apply andb_true_intro. split; [reflexivity|].
  cbn [forallb]. rewrite !single_line_app, !single_line_int_str, single_line_isoformat.
  rewrite Hv, He, Hp, Hc, HP, Hi, Ho.
  destruct (os_path_exists (w_host w) P); reflexivity.
Qed.

(** On a host of single lines the entries that [main] joins are the
    lines of the text it prints. *)
Lemma main_text_lines (P : string) (w : world) (cwd : string)
      (devices : list (gmap string pyval)) :
  host_single_line P (w_host w) ->
  os_getcwd (w_host w) = Ok cwd ->
  sd_query_devices (w_host w) = Ok devices ->
  exists out : string,
    w_stdout (snd (main P false w)) = w_stdout w ++ [ out ] /\
    split_lines out
    = host_text_head P cwd w ++ "Audio devices:" :: host_device_lines devices.
Proof.
  intros Hh Hc Hq. destruct (main_run P false w) as [_ Hm].
  destruct (fst (build_report P w)) as [report|e] eqn:Hb;
    [|rewrite build_report_run, Hc, Hq in Hb; discriminate].
  destruct Hm as [_ Hs]. eexists. split; [exact Hs|].
  rewrite (built_report_text P w cwd report devices Hc Hq Hb).
  apply split_lines_concat.
  - unfold host_text_head. discriminate.
  - rewrite forallb_app, (single_line_text_head P w cwd Hh Hc). cbn [forallb andb].
    change (single_line "Audio devices:") with true. cbn [andb].
    apply single_line_device_lines.
    destruct Hh as (_ & _ & _ & _ & _ & _ & _ & Hd). rewrite Hq in Hd. exact Hd.
Qed.

(** X9: on a host whose texts are single lines (the version text,
    the executable, the platform, the working directory, the
    credentials path, and what the driver reports as printed fields of
    the devices), where the process has a working directory and the
    driver answers, the text that [main] prints has exactly 44 lines
    and one more for each device. *)
Theorem text_line_count_on_host (P : string) (w : world) (cwd : string)
        (devices : list (gmap string pyval)) :
  host_single_line P (w_host w) ->
  os_getcwd (w_host w) = Ok cwd ->
  sd_query_devices (w_host w) = Ok devices ->
  exists out : string,
    w_stdout (snd (main P false w)) = w_stdout w ++ [ out ] /\
    split_lines out
    = host_text_head P cwd w ++ "Audio devices:" :: host_device_lines devices /\
    length (split_lines out) = (44 + length devices)%nat.
Proof.
  intros Hh Hc Hq.
  destruct (main_text_lines P w cwd devices Hh Hc Hq) as (out & Hs & Hsplit).
  exists out. split; [exact Hs|]. split; [exact Hsplit|].
  rewrite Hsplit, length_app. cbn [length].
  unfold host_device_lines, enumerate. rewrite length_map, enumerate_from_length.
  change (length (host_text_head P cwd w)) with 43%nat. lia.
Qed.

Lemma modern_host_single_line :
  host_single_line "/nonexistent/path" (w_host (world_of modern_host)).
Proof.
  unfold host_single_line.
  do 7 (split; [vm_compute; reflexivity|]).
  change (Forall device_single_line [ sample_device ]).
  constructor; [|constructor].
  unfold device_single_line. do 3 (split; [vm_compute; reflexivity|]).
  vm_compute. reflexivity.
Qed.

Lemma text_line_count_on_host_witness :
  host_single_line "/nonexistent/path" (w_host (world_of modern_host)) /\
  os_getcwd (w_host (world_of modern_host)) = Ok "/home/pi" /\
  sd_query_devices (w_host (world_of modern_host)) = Ok [ sample_device ] /\
  exists out : string,
    w_stdout (snd (main "/nonexistent/path" false (world_of modern_host)))
    = w_stdout (world_of modern_host) ++ [ out ] /\
    split_lines out
    = host_text_head "/nonexistent/path" "/home/pi" (world_of modern_host)
      ++ "Audio devices:" :: host_device_lines [ sample_device ] /\
    length (split_lines out) = (44 + length [ sample_device ])%nat.
Proof.
  split; [exact modern_host_single_line|]. split; [reflexivity|]. split; [reflexivity|].
  exact (text_line_count_on_host "/nonexistent/path" (world_of modern_host) "/home/pi"
           [ sample_device ] modern_host_single_line eq_refl eq_refl).
Defined.

(** X7: on such a host each device of the driver is one line of the
    text that [main] prints: the lines after the 44th, the header of
    the devices, are the devices in the driver's order; the line of
    the device at position [k] starts with [[k]] and shows its name,
    channels and rate, with [None] for a field that the descriptor
    does not have. *)
Theorem text_device_lines (P : string) (w : world) (cwd : string)
        (devices : list (gmap string pyval)) :
  host_single_line P (w_host w) ->
  os_getcwd (w_host w) = Ok cwd ->
  sd_query_devices (w_host w) = Ok devices ->
  exists out : string,
    w_stdout (snd (main P false w)) = w_stdout w ++ [ out ] /\
    split_lines out !! 43%nat = Some "Audio devices:" /\
    drop 44 (split_lines out)
    = map (fun p => device_text (fst p) (snd p)) (enumerate devices) /\
    (forall k d, devices !! k = Some d ->
       split_lines out !! (44 + k)%nat
       = Some ("  [" +:+ int_str (Z.of_nat k) +:+ "] " +:+ py_str (dict_get d "name")
               +:+ " (in:" +:+ py_str (dict_get d "max_input_channels")
               +:+ " out:" +:+ py_str (dict_get d "max_output_channels")
               +:+ ", rate:" +:+ py_str (dict_get d "default_samplerate") +:+ ")")) /\
    (forall k d, devices !! k = Some d -> d !! "name" = None ->
       split_lines out !! (44 + k)%nat
       = Some ("  [" +:+ int_str (Z.of_nat k) +:+ "] None (in:"
               +:+ py_str (dict_get d "max_input_channels")
               +:+ " out:" +:+ py_str (dict_get d "max_output_channels")
               +:+ ", rate:" +:+ py_str (dict_get d "default_samplerate") +:+ ")")).
Proof.
  intros Hh Hc Hq.
  destruct (main_text_lines P w cwd devices Hh Hc Hq) as (out & Hs & Hsplit).
  exists out. split; [exact Hs|]. rewrite Hsplit.
  assert (Hat : forall k d, devices !! k = Some d ->
            (host_text_head P cwd w ++ "Audio devices:" :: host_device_lines devices)
              !! (44 + k)%nat
            = Some (device_text (Z.of_nat k) d)).
  { intros k d Hk.
    rewrite lookup_app_r by (change (length (host_text_head P cwd w)) with 43%nat; lia).
    change (length (host_text_head P cwd w)) with 43%nat.
    replace (44 + k - 43)%nat with (S k) by lia.
    exact (host_device_lines_lookup devices k d Hk). }
  split; [reflexivity|]. split; [reflexivity|]. split.
  - intros k d Hk. exact (Hat k d Hk).
  - intros k d Hk Hn. rewrite (Hat k d Hk).
    unfold device_text. unfold dict_get at 1. rewrite Hn. reflexivity.
Qed.

Lemma studio_host_single_line :
  host_single_line "/nonexistent/path" (w_host (world_of studio_host)).
Proof.
  unfold host_single_line.
  do 7 (split; [vm_compute; reflexivity|]).
  change (Forall device_single_line [ sample_device; nameless_device ]).
  constructor; [|constructor; [|constructor]];
    (unfold device_single_line; do 3 (split; [vm_compute; reflexivity|]);
     vm_compute; reflexivity).
Qed.

Lemma text_device_lines_witness :
  exists out : string,
    w_stdout (snd (main "/nonexistent/path" false (world_of studio_host))) = [ out ] /\
    drop 42 (split_lines out)
    = [ ""; "Audio devices:";
        "  [0] Built-in Mic (in:2 out:0, rate:44100.0)";
        "  [1] None (in:1 out:2, rate:48000.0)" ].
Proof.
  destruct (text_device_lines "/nonexistent/path" (world_of studio_host)
              "/home/pi" [ sample_device; nameless_device ]
              studio_host_single_line eq_refl eq_refl)
    as (out & Hs & _).
  exists out. split; [exact Hs|].
  vm_compute in Hs. injection Hs as <-. vm_compute. reflexivity.
Defined.

(** ** Which reports render *)

Lemma part_dict_getitem (v : pyval) (k : string) (d : list (string * pyval)) :
  part v k = PDict d -> py_getitem v k = Ok (PDict d).
Proof.
  unfold part. destruct (py_getitem v k) as [x|e]; [intros ->; reflexivity|discriminate].
Qed.

Lemma has_keys_dict (keys : list string) (v : pyval) :
  has_keys keys v = true -> exists d, v = PDict d.
Proof. destruct v; try discriminate. eauto. Qed.

Lemma has_keys_all (keys : list string) (v : pyval) :
  keys <> [] -> (forall k, In k keys -> has_keys [ k ] v = true) ->
  has_keys keys v = true.
Proof.
  intros Hne H. destruct keys as [|k0 keys]; [congruence|].
  destruct (has_keys_dict _ _ (H k0 (or_introl eq_refl))) as [d ->].
  cbn [has_keys]. apply forallb_forall. intros k Hk.
  specialize (H k Hk). cbn [has_keys forallb] in H.
  destruct (dict_lookup k d); [reflexivity|discriminate].
Qed.

Lemma has_iterables_all (keys : list string) (v : pyval) :
  keys <> [] -> (forall k, In k keys -> has_iterables [ k ] v = true) ->
  has_iterables keys v = true.
Proof.
  intros Hne H. destruct keys as [|k0 keys]; [congruence|].
  pose proof (H k0 (or_introl eq_refl)) as H0.
  destruct v as [| | | | | |d]; try discriminate H0.
  cbn [has_iterables]. apply forallb_forall. intros k Hk.
  specialize (H k Hk). cbn [has_iterables forallb] in H.
  destruct (dict_lookup k d) as [x|]; [|discriminate].
  destruct (iterable x); [reflexivity|discriminate].
Qed.

Lemma has_iterables_lookup (keys : list string) (v : pyval) (k : string) :
  has_iterables keys v = true -> In k keys ->
  exists d x l, v = PDict d /\ dict_lookup k d = Some x /\ py_iter x = Ok l.
Proof.
  intros H Hin. destruct v as [| | | | | |d]; try discriminate.
  cbn in H. rewrite forallb_forall in H. specialize (H k Hin).
  destruct (dict_lookup k d) as [x|] eqn:Hx; [|discriminate].
  unfold iterable in H. destruct (py_iter x) as [l|e] eqn:Hl; [|discriminate].
  exists d, x, l. auto.
Qed.

Lemma labeled_printed (report : pyval) (keys : list string) (sec label field : string) :
  has_keys keys (part report sec) = true -> In field keys ->
  labeled report sec label field = Ok (label +:+ field_text (part report sec) field).
Proof.
  intros Hkeys Hin. apply (labeled_ok report keys); try assumption.
  destruct (has_keys_dict _ _ Hkeys) as [d Hd]. rewrite Hd.
  apply part_dict_getitem, Hd.
Qed.

Lemma labeled_inv (report : pyval) (sec label field s : string) :
  labeled report sec label field = Ok s -> has_keys [ field ] (part report sec) = true.
Proof.
  unfold labeled, part. destruct (py_getitem report sec) as [m|e]; [|discriminate].
  cbn [result_bind]. destruct m as [| | | | | |d]; try discriminate.
  cbn [py_kwargs result_bind]. unfold format_field. cbn [has_keys forallb].
  destruct (dict_lookup field d); [reflexivity|discriminate].
Qed.

Lemma append_entries_items (report : pyval) (key : string) (lines : list string) :
  has_iterables reflection_keys (part report "reflection") = true ->
  In key reflection_keys ->
  append_entries report key lines = Ok (lines ++ printed_bullets report key).
Proof.
  intros Hl Hin. unfold append_entries, printed_bullets.
  destruct (has_iterables_lookup _ _ key Hl Hin) as (d & x & l & Hd & Hx & Hi).
  rewrite (part_dict_getitem report "reflection" d Hd), Hd. cbn [result_bind].
  unfold part, items. cbn [py_getitem]. rewrite Hx. cbn [result_bind]. rewrite Hi.
  cbn [result_bind]. rewrite fold_bullets. reflexivity.
Qed.

Lemma append_entries_inv (report : pyval) (key : string) (lines l : list string) :
  append_entries report key lines = Ok l ->
  has_iterables [ key ] (part report "reflection") = true.
Proof.
  unfold append_entries, part.
  destruct (py_getitem report "reflection") as [m|e]; [|discriminate].
  cbn [result_bind]. destruct m as [| | | | | |d]; try discriminate.
  cbn [py_getitem has_iterables forallb].
  destruct (dict_lookup key d) as [x|]; [|discriminate].
  cbn [result_bind]. unfold iterable. destruct (py_iter x); [reflexivity|discriminate].
Qed.

Lemma device_line_printed (device : pyval) :
  has_keys printed_device_keys device = true ->
  device_line device = Ok (device_entry device).
Proof.
  intros H.
  assert (Hk : forall k, In k printed_device_keys ->
             exists d x, device = PDict d /\ dict_lookup k d = Some x).
  { intros k. apply has_keys_lookup, H. }
  destruct (Hk "index") as (d & x1 & -> & H1); [cbn; tauto|].
  destruct (Hk "name") as (? & x2 & [= <-] & H2); [cbn; tauto|].
  destruct (Hk "max_input_channels") as (? & x3 & [= <-] & H3); [cbn; tauto|].
  destruct (Hk "max_output_channels") as (? & x4 & [= <-] & H4); [cbn; tauto|].
  destruct (Hk "default_samplerate") as (? & x5 & [= <-] & H5); [cbn; tauto|].
  unfold device_line, device_entry, format_field. cbn [py_kwargs result_bind].
  rewrite H1, H2, H3, H4, H5. cbn [result_bind].
  rewrite (field_text_lookup _ _ _ H1), (field_text_lookup _ _ _ H2),
    (field_text_lookup _ _ _ H3), (field_text_lookup _ _ _ H4),
    (field_text_lookup _ _ _ H5).
  reflexivity.
Qed.

Lemma device_line_inv (device : pyval) (s : string) :
  device_line device = Ok s -> has_keys printed_device_keys device = true.
Proof.
  unfold device_line. destruct device as [| | | | | |d]; try discriminate.
  cbn [py_kwargs result_bind has_keys printed_device_keys forallb]. unfold format_field.
  destruct (dict_lookup "index" d); [|discriminate]. cbn [result_bind].
  destruct (dict_lookup "name" d); [|discriminate]. cbn [result_bind].
  destruct (dict_lookup "max_input_channels" d); [|discriminate]. cbn [result_bind].
  destruct (dict_lookup "max_output_channels" d); [|discriminate]. cbn [result_bind].
  destruct (dict_lookup "default_samplerate" d); [|discriminate]. reflexivity.
Qed.

Lemma append_devices_printed (devices : list pyval) (lines : list string) :
  forallb (has_keys printed_device_keys) devices = true ->
  append_devices devices lines = Ok (lines ++ map device_entry devices).
Proof.
  revert lines. induction devices as [|d devices IH]; intros lines H.
  - cbn. rewrite app_nil_r. reflexivity.
  - cbn [forallb] in H. apply andb_prop in H as [Hd Hds].
    cbn [append_devices]. rewrite (device_line_printed d Hd). cbn [result_bind].
    rewrite (IH _ Hds), <- app_assoc. reflexivity.
Qed.

Lemma append_devices_inv (devices : list pyval) (lines l : list string) :
  append_devices devices lines = Ok l ->
  forallb (has_keys printed_device_keys) devices = true.
Proof.
  revert lines. induction devices as [|d devices IH]; intros lines H; [reflexivity|].
  cbn [append_devices] in H. destruct (device_line d) as [s|e] eqn:Hd; [|discriminate].
  cbn [result_bind] in H. cbn [forallb].
  rewrite (device_line_inv d s Hd), (IH _ H). reflexivity.
Qed.

Lemma renderable_renders (report : pyval) :
  renderable report = true ->
  render_text_report report
  = Ok (String.concat (String newline "") (printed_lines report)).
Proof.
  intros Hwf. unfold renderable in Hwf.
  repeat (apply andb_prop in Hwf as [Hwf ?]).
  unfold render_text_report.
  repeat (rewrite append_entries_items by (first [assumption | in_keys]);
          cbn [result_bind]).
  rewrite !(labeled_printed report runtime_keys "runtime")
    by (first [assumption | in_keys]).
  rewrite !(labeled_printed report audio_defaults_keys "audio_defaults")
    by (first [assumption | in_keys]).
  rewrite !(labeled_printed report credentials_keys "credentials")
    by (first [assumption | in_keys]).
  cbn [result_bind].
  assert (Hget : py_getitem report "audio_devices" = Ok (part report "audio_devices")).
  { unfold part in *. destruct (py_getitem report "audio_devices"); [reflexivity|].
    discriminate. }
  rewrite Hget. cbn [result_bind].
  unfold iterable, items in *.
  destruct (py_iter (part report "audio_devices")) as [devices|e] eqn:Hd;
    [|discriminate].
  cbn [result_bind]. rewrite append_devices_printed by assumption.
  cbn [result_bind]. do 2 f_equal.
  unfold printed_lines, runtime_section, audio_defaults_section, credentials_section,
    items.
  rewrite Hd. rewrite <- !app_assoc. reflexivity.
Qed.

Ltac bind_step H :=
  match type of H with
  | result_bind ?x _ = Ok _ =>
      let E := fresh "E" in
      destruct x eqn:E; [cbn [result_bind] in H | discriminate H]
  end.

Lemma renders_renderable (report : pyval) (out : string) :
  render_text_report report = Ok out -> renderable report = true.
Proof.
  intros H. unfold render_text_report in H. cbv zeta in H.
  repeat bind_step H.
  unfold renderable. repeat (apply andb_true_intro; split).
  - apply has_iterables_all; [discriminate|]. intros k Hk. cbn in Hk.
    destruct Hk as [<-|[<-|[<-|[<-|[<-|[]]]]]];
      eapply append_entries_inv; eassumption.
  - apply has_keys_all; [discriminate|]. intros k Hk. cbn in Hk.
    destruct Hk as [<-|[<-|[<-|[<-|[<-|[]]]]]]; eapply labeled_inv; eassumption.
  - apply has_keys_all; [discriminate|]. intros k Hk. cbn in Hk.
    destruct Hk as [<-|[<-|[<-|[<-|[<-|[<-|[<-|[]]]]]]]];
      eapply labeled_inv; eassumption.
  - apply has_keys_all; [discriminate|]. intros k Hk. cbn in Hk.
    destruct Hk as [<-|[<-|[]]]; eapply labeled_inv; eassumption.
  - unfold iterable, part.
    match goal with
    | E1 : py_getitem report "audio_devices" = Ok _, E2 : py_iter _ = Ok _ |- _ =>
        rewrite E1, E2; reflexivity
    end.
  - unfold items, part.
    match goal with
    | E1 : py_getitem report "audio_devices" = Ok _, E2 : py_iter _ = Ok _,
      E3 : append_devices _ _ = Ok _ |- _ =>
        rewrite E1, E2; exact (append_devices_inv _ _ _ E3)
    end.
Qed.

(** X10: on the reports within the limits of [str],
    [render_text_report] returns a text exactly for the reports that
    have everything it reads, and the text is then the lines of the
    report joined by newlines; for any other report it fails. The
    [hostapi] of a device is not read, and a sub-list of the reflection
    block may be anything that can be iterated. *)
Theorem render_text_report_exact (report : pyval) :
  printable report = true ->
  match render_text_report report with
  | Ok out =>
      renderable report = true /\
      out = String.concat (String newline "") (printed_lines report)
  | Err _ => renderable report = false
  end.
Proof.
  intros _. destruct (renderable report) eqn:Hr.
  - rewrite (renderable_renders report Hr). split; reflexivity.
  - destruct (render_text_report report) as [out|e] eqn:H; [|reflexivity].
    rewrite (renders_renderable report out H) in Hr. discriminate.
Qed.

Lemma render_text_report_exact_witness :
  printable odd_report = true /\
  renderable odd_report = true /\
  render_text_report odd_report
  = Ok (String.concat (String newline "") (printed_lines odd_report)).
Proof.
  assert (Hp : printable odd_report = true) by (vm_compute; reflexivity).
  split; [exact Hp|].
  pose proof (render_text_report_exact odd_report Hp) as H.
  destruct (render_text_report odd_report) as [out|e].
  - destruct H as [Hr ->]. split; [exact Hr|reflexivity].
  - exfalso. assert (Hr : renderable odd_report = true) by (vm_compute; reflexivity).
    rewrite Hr in H. discriminate.
Defined.

(** A report with a text for a sub-list and devices without [hostapi]
    renders: the text gives one bullet for each of its characters,
    the dict one for each of its keys. *)
Example odd_report_renders :
  is_report odd_report = false /\
  renderable odd_report = true /\
  printed_bullets odd_report "philosophy" = [ "    - a"; "    - b" ] /\
  printed_bullets odd_report "grounding" = [ "    - k" ] /\
  map device_entry (items (part odd_report "audio_devices"))
  = [ "  [0] None (in:1 out:0, rate:None)" ].
Proof. repeat split; vm_compute; reflexivity. Qed.

(** ** Reports with something missing *)

Lemma dict_lookup_remove_eq (k : string) (d : list (string * pyval)) :
  dict_lookup k (dict_remove k d) = None.
Proof.
  induction d as [|[k' v] d IH]; [reflexivity|].
  unfold dict_remove in *. cbn [List.filter fst].
  destruct (String.eqb k k') eqn:Hk; cbn [negb]; [exact IH|].
  cbn [dict_lookup]. rewrite Hk. exact IH.
Qed.

Lemma dict_lookup_remove_ne (k k' : string) (d : list (string * pyval)) :
  k <> k' -> dict_lookup k' (dict_remove k d) = dict_lookup k' d.
Proof.
  intros Hne. induction d as [|[k0 v] d IH]; [reflexivity|].
  unfold dict_remove in *. cbn [List.filter fst dict_lookup].
  destruct (String.eqb k k0) eqn:Hk; cbn [negb].
  - apply String.eqb_eq in Hk. subst k0.
    destruct (String.eqb k' k) eqn:Hk'; [|exact IH].
    apply String.eqb_eq in Hk'. congruence.
  - cbn [dict_lookup]. rewrite IH. reflexivity.
Qed.

Lemma dict_lookup_set_eq (k : string) (v : pyval) (d : list (string * pyval)) :
  dict_lookup k (map (fun kv => if String.eqb k (fst kv) then (fst kv, v) else kv) d)
  = match dict_lookup k d with
    | Some _ => Some v
    | None => None
    end.
Proof.
  induction d as [|[k0 x] d IH]; [reflexivity|].
  cbn [map fst dict_lookup]. destruct (String.eqb k k0) eqn:Hk.
  - cbn [dict_lookup]. rewrite Hk. reflexivity.
  - cbn [dict_lookup]. rewrite Hk. exact IH.
Qed.

Lemma dict_lookup_set_ne (k k' : string) (v : pyval) (d : list (string * pyval)) :
  k <> k' ->
  dict_lookup k' (map (fun kv => if String.eqb k (fst kv) then (fst kv, v) else kv) d)
  = dict_lookup k' d.
Proof.
  intros Hne. induction d as [|[k0 x] d IH]; [reflexivity|].
  cbn [map fst dict_lookup]. destruct (String.eqb k k0) eqn:Hk.
  - apply String.eqb_eq in Hk. subst k0. cbn [dict_lookup].
    destruct (String.eqb k' k) eqn:Hk'; [|exact IH].
    apply String.eqb_eq in Hk'. congruence.
  - cbn [dict_lookup]. rewrite IH. reflexivity.
Qed.

Lemma part_set_part_ne (k k' : string) (v report : pyval) :
  k <> k' -> part (set_part k v report) k' = part report k'.
Proof.
  intros Hne. destruct report as [| | | | | |top]; try reflexivity.
  unfold part. cbn [set_part py_getitem]. rewrite (dict_lookup_set_ne k k' v top Hne).
  reflexivity.
Qed.

Lemma part_set_part_eq (k : string) (v report : pyval) :
  has_keys [ k ] report = true -> part (set_part k v report) k = v.
Proof.
  destruct report as [| | | | | |top]; try discriminate.
  cbn [has_keys forallb]. intros H. unfold part. cbn [set_part py_getitem].
  rewrite dict_lookup_set_eq. destruct (dict_lookup k top); [reflexivity|discriminate].
Qed.

Lemma part_without_section_ne (s k : string) (report : pyval) :
  s <> k -> part (without_section s report) k = part report k.
Proof.
  intros Hne. destruct report as [| | | | | |top]; try reflexivity.
  unfold part. cbn [without_section without_key py_getitem].
  rewrite (dict_lookup_remove_ne s k top Hne). reflexivity.
Qed.

Lemma getitem_without_section (s : string) (report : pyval) (keys : list string) :
  has_keys keys report = true ->
  py_getitem (without_section s report) s = Err (KeyError s).
Proof.
  destruct report as [| | | | | |top]; try discriminate. intros _.
  cbn [without_section without_key py_getitem]. rewrite dict_lookup_remove_eq.
  reflexivity.
Qed.

Lemma has_keys_one (keys : list string) (v : pyval) (k : string) :
  has_keys keys v = true -> In k keys -> has_keys [ k ] v = true.
Proof.
  intros H Hin. destruct (has_keys_lookup keys v k H Hin) as (d & x & -> & Hx).
  cbn [has_keys forallb]. rewrite Hx. reflexivity.
Qed.

Lemma has_keys_without (keys : list string) (v : pyval) (f k : string) :
  has_keys keys v = true -> In k keys -> f <> k ->
  has_keys [ k ] (without_key f v) = true.
Proof.
  intros H Hin Hne. destruct (has_keys_lookup keys v k H Hin) as (d & x & -> & Hx).
  cbn [without_key has_keys forallb]. rewrite (dict_lookup_remove_ne f k d Hne), Hx.
  reflexivity.
Qed.

Lemma has_lists_iterables (keys : list string) (v : pyval) :
  has_lists keys v = true -> has_iterables keys v = true.
Proof.
  destruct v as [| | | | | |d]; try discriminate. cbn [has_lists has_iterables].
  rewrite !forallb_forall. intros H k Hk. specialize (H k Hk).
  destruct (dict_lookup k d) as [[| | | | |l|]|]; try discriminate. reflexivity.
Qed.

Lemma has_iterables_one (keys : list string) (v : pyval) (k : string) :
  has_iterables keys v = true -> In k keys -> has_iterables [ k ] v = true.
Proof.
  intros H Hin. destruct (has_iterables_lookup keys v k H Hin) as (d & x & l & -> & Hx & Hl).
  cbn [has_iterables forallb]. rewrite Hx. unfold iterable. rewrite Hl. reflexivity.
Qed.

Lemma has_iterables_without (keys : list string) (v : pyval) (f k : string) :
  has_iterables keys v = true -> In k keys -> f <> k ->
  has_iterables [ k ] (without_key f v) = true.
Proof.
  intros H Hin Hne.
  destruct (has_iterables_lookup keys v k H Hin) as (d & x & l & -> & Hx & Hl).
  cbn [without_key has_iterables forallb]. rewrite (dict_lookup_remove_ne f k d Hne), Hx.
  unfold iterable. rewrite Hl. reflexivity.
Qed.

(** One step of the renderer, when what it reads is there and when it
    is not. *)

Lemma labeled_field (report : pyval) (sec label field : string) :
  has_keys [ field ] (part report sec) = true ->
  labeled report sec label field = Ok (label +:+ field_text (part report sec) field).
Proof. intros H. apply (labeled_printed report [ field ]); [exact H|left; reflexivity]. Qed.

Lemma labeled_missing_section (report : pyval) (sec : string) (e : pyerr)
      (H : py_getitem report sec = Err e) (label field : string) :
  labeled report sec label field = Err e.
Proof. unfold labeled. rewrite H. reflexivity. Qed.

Lemma labeled_missing_field (report : pyval) (sec field : string)
      (d : list (string * pyval)) (Hd : part report sec = PDict d)
      (Hf : dict_lookup field d = None) (label : string) :
  labeled report sec label field = Err (KeyError field).
Proof.
  unfold labeled. rewrite (part_dict_getitem report sec d Hd).
  cbn [result_bind py_kwargs]. unfold format_field. rewrite Hf. reflexivity.
Qed.

Lemma append_entries_key (report : pyval) (key : string) (lines : list string) :
  has_iterables [ key ] (part report "reflection") = true ->
  append_entries report key lines = Ok (lines ++ printed_bullets report key).
Proof.
  intros Hl. unfold append_entries, printed_bullets.
  destruct (has_iterables_lookup _ _ key Hl (or_introl eq_refl))
    as (d & x & l & Hd & Hx & Hi).
  rewrite (part_dict_getitem report "reflection" d Hd), Hd. cbn [result_bind].
  unfold part, items. cbn [py_getitem]. rewrite Hx. cbn [result_bind]. rewrite Hi.
  cbn [result_bind]. rewrite fold_bullets. reflexivity.
Qed.

Lemma append_entries_missing_section (report : pyval) (e : pyerr)
      (H : py_getitem report "reflection" = Err e) (key : string) (lines : list string) :
  append_entries report key lines = Err e.
Proof. unfold append_entries. rewrite H. reflexivity. Qed.

Lemma append_entries_missing_key (report : pyval) (key : string)
      (d : list (string * pyval)) (Hd : part report "reflection" = PDict d)
      (Hf : dict_lookup key d = None) (lines : list string) :
  append_entries report key lines = Err (KeyError key).
Proof.
  unfold append_entries. rewrite (part_dict_getitem report "reflection" d Hd).
  cbn [result_bind py_getitem]. rewrite Hf. reflexivity.
Qed.

Lemma has_lists_dict (keys : list string) (v : pyval) :
  has_lists keys v = true -> exists d, v = PDict d.
Proof. destruct v; try discriminate. eauto. Qed.

Ltac solve_key Hne Heq :=
  first [ rewrite Hne by discriminate; eapply has_keys_one; [eassumption | in_keys]
        | rewrite Heq; eapply has_keys_without; [eassumption | in_keys | discriminate] ].

Ltac solve_iter Hne Heq :=
  first [ rewrite Hne by discriminate;
          eapply has_iterables_one; [apply has_lists_iterables; eassumption | in_keys]
        | rewrite Heq;
          eapply has_iterables_without;
          [apply has_lists_iterables; eassumption | in_keys | discriminate] ].

(** X11: when one of the five parts of a well-formed report is taken
    away, [render_text_report] fails with the [KeyError] of that
    part. *)
Theorem render_missing_section (report : pyval) (s : string) :
  is_report report = true -> In s section_keys ->
  render_text_report (without_section s report) = Err (KeyError s).
Proof.
  intros Hwf Hin. unfold is_report in Hwf.
  repeat (apply andb_prop in Hwf as [Hwf ?]).
  pose proof (getitem_without_section s report _ Hwf) as Hmiss.
  assert (Hne : forall k, s <> k -> part (without_section s report) k = part report k).
  { intros k Hk. apply part_without_section_ne, Hk. }
  assert (Heq : part (without_section s report) s = part (without_section s report) s)
    by reflexivity.
  set (r' := without_section s report) in *.
  unfold render_text_report.
  cbn in Hin. destruct Hin as [<-|[<-|[<-|[<-|[<-|[]]]]]];
    try rewrite !(labeled_missing_section r' _ _ Hmiss);
    repeat (first [ rewrite (append_entries_missing_section r' _ Hmiss)
                  | rewrite append_entries_key by solve_iter Hne Heq ];
            cbn [result_bind]);
    rewrite ?labeled_field by solve_key Hne Heq;
    cbn [result_bind];
    try (rewrite Hmiss; cbn [result_bind]);
    reflexivity.
Qed.

Lemma render_missing_section_witness :
  is_report sample_report = true /\
  In "credentials" section_keys /\
  render_text_report (without_section "credentials" sample_report)
  = Err (KeyError "credentials").
Proof.
  assert (H1 : is_report sample_report = true) by (vm_compute; reflexivity).
  assert (H2 : In "credentials" section_keys) by (cbn; tauto).
  split; [exact H1|]. split; [exact H2|].
  exact (render_missing_section sample_report "credentials" H1 H2).
Defined.

Ltac missing_field_case report :=
  match goal with
  | Hd : part report ?sec = PDict ?d,
    Heq : part (without_field ?sec ?f report) ?sec = _
    |- render_text_report (without_field ?sec ?f report) = _ =>
      let Hd' := fresh "Hd'" in
      assert (Hd' : part (without_field sec f report) sec = PDict (dict_remove f d))
        by (rewrite Heq, Hd; reflexivity);
      assert (Hne : forall k, sec <> k ->
                part (without_field sec f report) k = part report k)
        by (intros k Hk; apply part_set_part_ne, Hk);
      unfold render_text_report;
      try rewrite !(labeled_missing_field (without_field sec f report) sec f _ Hd'
                      (dict_lookup_remove_eq f d));
      repeat (first [ rewrite (append_entries_missing_key (without_field sec f report)
                                 f _ Hd' (dict_lookup_remove_eq f d))
                    | rewrite append_entries_key by solve_iter Hne Heq ];
              cbn [result_bind]);
      rewrite ?labeled_field by solve_key Hne Heq;
      cbn [result_bind];
      reflexivity
  end.

(** X12: when a field that the text report prints is taken away from
    its part (a sub-list of the reflection block, a field of the
    runtime, audio defaults or credentials part), [render_text_report]
    fails with the [KeyError] of that field. *)
Theorem render_missing_field (report : pyval) (sec f : string) :
  is_report report = true -> In (sec, f) printed_fields ->
  render_text_report (without_field sec f report) = Err (KeyError f).
Proof.
  intros Hwf Hin. unfold is_report in Hwf.
  repeat (apply andb_prop in Hwf as [Hwf ?]).
  assert (Heq : In sec section_keys ->
                part (without_field sec f report) sec
                = without_key f (part report sec)).
  { intros Hs. apply part_set_part_eq. apply (has_keys_one _ _ _ Hwf). exact Hs. }
  destruct (has_lists_dict _ _ H3) as [drf Hrf].
  destruct (has_keys_dict _ _ H2) as [drt Hrt].
  destruct (has_keys_dict _ _ H1) as [dad Had].
  destruct (has_keys_dict _ _ H0) as [dcr Hcr].
  unfold printed_fields in Hin. cbn in Hin.
  repeat (destruct Hin as [Hin|Hin];
          [injection Hin as <- <-; specialize (Heq ltac:(cbn; tauto));
           missing_field_case report|]).
  destruct Hin.
Qed.

Lemma render_missing_field_witness :
  is_report sample_report = true /\
  In ("runtime", "cwd") printed_fields /\
  render_text_report (without_field "runtime" "cwd" sample_report)
  = Err (KeyError "cwd").
Proof.
  assert (H1 : is_report sample_report = true) by (vm_compute; reflexivity).
  assert (H2 : In ("runtime", "cwd") printed_fields) by (cbn; tauto).
  split; [exact H1|]. split; [exact H2|].
  exact (render_missing_field sample_report "runtime" "cwd" H1 H2).
Defined.

Lemma part_list_getitem (v : pyval) (k : string) (l : list pyval) :
  part v k = PList l -> py_getitem v k = Ok (PList l).
Proof.
  unfold part. destruct (py_getitem v k) as [x|e]; [intros ->; reflexivity|discriminate].
Qed.

Lemma device_line_missing (device : pyval) (f : string) :
  has_keys device_keys device = true -> In f printed_device_keys ->
  device_line (without_key f device) = Err (KeyError f).
Proof.
  intros H Hin.
  assert (Hk : forall k, In k device_keys ->
             exists d x, device = PDict d /\ dict_lookup k d = Some x).
  { intros k. apply has_keys_lookup, H. }
  destruct (Hk "index") as (d & x1 & -> & H1); [cbn; tauto|].
  destruct (Hk "name") as (? & x2 & [= <-] & H2); [cbn; tauto|].
  destruct (Hk "max_input_channels") as (? & x3 & [= <-] & H3); [cbn; tauto|].
  destruct (Hk "max_output_channels") as (? & x4 & [= <-] & H4); [cbn; tauto|].
  destruct (Hk "default_samplerate") as (? & x5 & [= <-] & H5); [cbn; tauto|].
  unfold device_line, format_field. cbn [without_key py_kwargs result_bind].
  cbn in Hin. destruct Hin as [<-|[<-|[<-|[<-|[<-|[]]]]]];
    rewrite ?dict_lookup_remove_eq, ?dict_lookup_remove_ne by discriminate;
    rewrite ?H1, ?H2, ?H3, ?H4, ?H5; cbn [result_bind]; reflexivity.
Qed.

Lemma device_line_keys (device : pyval) :
  has_keys device_keys device = true -> exists s, device_line device = Ok s.
Proof.
  intros H.
  assert (Hk : forall k, In k device_keys ->
             exists d x, device = PDict d /\ dict_lookup k d = Some x).
  { intros k. apply has_keys_lookup, H. }
  destruct (Hk "index") as (d & x1 & -> & H1); [cbn; tauto|].
  destruct (Hk "name") as (? & x2 & [= <-] & H2); [cbn; tauto|].
  destruct (Hk "max_input_channels") as (? & x3 & [= <-] & H3); [cbn; tauto|].
  destruct (Hk "max_output_channels") as (? & x4 & [= <-] & H4); [cbn; tauto|].
  destruct (Hk "default_samplerate") as (? & x5 & [= <-] & H5); [cbn; tauto|].
  unfold device_line, format_field. cbn [py_kwargs result_bind].
  rewrite H1, H2, H3, H4, H5. cbn [result_bind]. eauto.
Qed.

Lemma append_devices_missing (devices : list pyval) (k : nat) (device : pyval)
  (f : string) (lines : list string) :
  forallb (has_keys device_keys) devices = true ->
  devices !! k = Some device -> In f printed_device_keys ->
  append_devices (<[k := without_key f device]> devices) lines = Err (KeyError f).
Proof.
  intros Hall Hk Hin. revert k lines Hk.
  induction devices as [|d devices IH]; intros k lines Hk; [discriminate|].
  cbn [forallb] in Hall. apply andb_prop in Hall as [Hd Hds].
  destruct k as [|k].
  - injection Hk as ->. cbn [insert list_insert append_devices].
    rewrite (device_line_missing device f Hd Hin). reflexivity.
  - cbn [insert list_insert append_devices].
    destruct (device_line_keys d Hd) as [s ->]. cbn [result_bind].
    apply (IH Hds). exact Hk.
Qed.

(** X13: when the device at position [k] of a well-formed report
    loses one of the five fields that a device line prints,
    [render_text_report] fails with the [KeyError] of that field,
    whatever the devices after it are. *)
Theorem render_missing_device_field (report : pyval) (devices : list pyval)
  (k : nat) (f : string) :
  is_report report = true ->
  part report "audio_devices" = PList devices ->
  (k < length devices)%nat ->
  In f printed_device_keys ->
  render_text_report (without_device_field k f report) = Err (KeyError f).
Proof.
  intros Hwf Hdev Hlt Hin. unfold is_report in Hwf.
  repeat (apply andb_prop in Hwf as [Hwf ?]).
  rewrite Hdev in H.
  destruct (lookup_lt_is_Some_2 devices k Hlt) as [device Hk].
  unfold without_device_field. rewrite Hdev, Hk.
  set (devices' := <[k := without_key f device]> devices).
  assert (Hne : forall s, "audio_devices" <> s ->
            part (set_part "audio_devices" (PList devices') report) s = part report s).
  { intros s Hs. apply part_set_part_ne, Hs. }
  assert (Heq : part (set_part "audio_devices" (PList devices') report) "audio_devices"
                = PList devices').
  { apply part_set_part_eq. apply (has_keys_one _ _ _ Hwf). cbn; tauto. }
  set (r' := set_part "audio_devices" (PList devices') report) in *.
  unfold render_text_report.
  repeat (rewrite append_entries_key by solve_iter Hne Heq; cbn [result_bind]).
  rewrite !labeled_field by solve_key Hne Heq.
  cbn [result_bind].
  rewrite (part_list_getitem _ _ _ Heq). cbn [result_bind py_iter].
  unfold devices'. rewrite (append_devices_missing devices k device f _ H Hk Hin).
  reflexivity.
Qed.

Lemma render_missing_device_field_witness :
  render_text_report (without_device_field 0 "name" sample_report)
  = Err (KeyError "name").
Proof.
  apply (render_missing_device_field sample_report
           (entries (part sample_report "audio_devices")) 0 "name").
  - vm_compute. reflexivity.
  - vm_compute. reflexivity.
  - vm_compute. lia.
  - cbn. tauto.
Defined.


(** ** The order of the calls *)

(** X14: [main] calls [build_report], which calls the collectors in
    the order of the keys of its dict, in either output mode. A
    failure ends the run where it happens: when [os.getcwd()] raises,
    [collect_runtime_info] is the last function entered; when the
    query of the audio devices raises, the credentials file is not
    checked and the reflection block is not collected. *)
Theorem main_call_order (P : string) (json_output : bool) (w : world) :
  entered_by (main P json_output) w =
  match os_getcwd (w_host w), sd_query_devices (w_host w) with
  | Ok _, Ok _ => [ "main"; "build_report"; "collect_runtime_info";
                    "collect_audio_defaults"; "collect_audio_devices";
                    "collect_credentials_status"; "collect_reflection" ]
  | Ok _, Err _ => [ "main"; "build_report"; "collect_runtime_info";
                     "collect_audio_defaults"; "collect_audio_devices" ]
  | Err _, _ => [ "main"; "build_report"; "collect_runtime_info" ]
  end.
Proof.
  unfold entered_by, main, entering, M_bind.
  set (w1 := {| w_host := w_host w; w_audio_helpers := w_audio_helpers w;
                w_stdout := w_stdout w; w_entered := w_entered w ++ [ "main" ] |}).
  pose proof (build_report_log P w1) as Hlog.
  change (w_host w1) with (w_host w) in Hlog.
  change (w_entered w1) with (w_entered w ++ [ "main" ]) in Hlog.
  assert (Hw : forall r : result unit * world,
            w_entered (snd r) = w_entered (snd (build_report P w1)) ->
            drop (length (w_entered w)) (w_entered (snd r)) =
            match os_getcwd (w_host w), sd_query_devices (w_host w) with
            | Ok _, Ok _ => [ "main"; "build_report"; "collect_runtime_info";
                              "collect_audio_defaults"; "collect_audio_devices";
                              "collect_credentials_status"; "collect_reflection" ]
            | Ok _, Err _ => [ "main"; "build_report"; "collect_runtime_info";
                               "collect_audio_defaults"; "collect_audio_devices" ]
            | Err _, _ => [ "main"; "build_report"; "collect_runtime_info" ]
            end).
  { intros r ->. rewrite Hlog, <- app_assoc.
    destruct (os_getcwd (w_host w)); [destruct (sd_query_devices (w_host w))|];
      apply drop_app_length. }
  apply Hw. destruct (build_report P w1) as [[report|e] w2]; [|reflexivity].
  destruct json_output; [reflexivity|].
  unfold pure_result. destruct (render_text_report report); reflexivity.
Qed.
